(** * Sales-metrics query engine: a shallow embedding of the controllers

    The development follows the JavaScript sources file by file:
    [lib/utils.js] (pagination, response envelope, date check),
    [lib/validations.js] (allow-list validators, existence guard) and the
    eleven controllers of the three controller families.  A controller
    is a computation over the store collaborator that logs every
    statement it sends; the statements are built as strings, as the
    sources build them.

    JavaScript built-ins the sources rely on ([Number.parseInt],
    [Number.parseFloat], [String.prototype.toLowerCase], truthiness,
    template-literal printing of integers) are modelled in the module
    [JS].  A string is the UTF-8 text of the JavaScript string; only
    ASCII letters change case, which is all the allow-lists can tell.
    Integers are exact where the engine computes with doubles: the two
    agree on the safe integers (up to 2^53 - 1 in magnitude), and the
    properties that read a printed integer back assume that range. *)

From Stdlib Require Import ZArith List String Ascii Bool Lia.
From Stdlib Require Import Decimal DecimalString DecimalZ DecimalN DecimalPos.
Import ListNotations.

Open Scope string_scope.
Open Scope list_scope.
Open Scope Z_scope.

Infix "+:+" := String.append (at level 60, right associativity).

Set Warnings "-register-all".

(** ** JavaScript values and built-ins *)

Module JS.

(** A JavaScript number.  [Int z] is the double nearest to the integer
    [z], which is [z] itself for a safe integer; [Dec m e] is the double
    nearest to [m * 10^e], a decimal that is not an integer.  The engine
    never does arithmetic on a [Dec], it only binds and echoes it. *)
Inductive number : Type :=
| NaN
| Infinity (negative : bool)
| Int (z : Z)
| Dec (m : Z) (e : Z).

Inductive value : Type :=
| VUndefined
| VNull
| VNum (n : number)
| VStr (s : string)
| VArr (items : list value)
| VObj (fields : list (string * value)).

Definition VInt (z : Z) : value := VNum (Int z).

(** A member of [req.query] given once is a string, a member not given
    is [undefined]. *)
Definition ofQuery (q : option string) : value :=
  match q with
  | Some s => VStr s
  | None => VUndefined
  end.

Definition nonEmpty (s : string) : bool :=
  match s with
  | EmptyString => false
  | String _ _ => true
  end.

Definition isZero (n : number) : bool :=
  match n with
  | Int z => Z.eqb z 0
  | Dec m _ => Z.eqb m 0
  | _ => false
  end.

(** ToBoolean. *)
Definition truthy (v : value) : bool :=
  match v with
  | VUndefined | VNull => false
  | VNum NaN => false
  | VNum n => negb (isZero n)
  | VStr s => nonEmpty s
  | VArr _ | VObj _ => true
  end.

Definition truthyQ (q : option string) : bool := truthy (ofQuery q).

(** [v !== null]. *)
Definition notNull (v : value) : bool :=
  match v with
  | VNull => false
  | _ => true
  end.

(** Property lookup on an object; a missing key reads as [undefined]. *)
Fixpoint lookup (k : string) (fields : list (string * value)) : option value :=
  match fields with
  | [] => None
  | (k', v) :: rest => if String.eqb k k' then Some v else lookup k rest
  end.

Definition get (k : string) (v : value) : value :=
  match v with
  | VObj fields =>
      match lookup k fields with
      | Some x => x
      | None => VUndefined
      end
  | _ => VUndefined
  end.

Definition has (k : string) (v : value) : bool :=
  match v with
  | VObj fields =>
      match lookup k fields with
      | Some _ => true
      | None => false
      end
  | _ => false
  end.

Fixpoint getPath (path : list string) (v : value) : value :=
  match path with
  | [] => v
  | k :: rest => getPath rest (get k v)
  end.

(** *** Characters *)

(** The white space of one byte: U+0009 to U+000D and the space. *)
Definition isWhiteSpace (c : ascii) : bool :=
  match c with
  | "009"%char | "010"%char | "011"%char | "012"%char | "013"%char
  | " "%char => true
  | _ => false
  end.

Definition byte (c : ascii) : N := N_of_ascii c.

(** StrWhiteSpaceChar: [skipWhiteSpace s] is [s] without the white space
    or line terminator it starts with, if it starts with one.  Beyond
    one byte these are U+00A0, U+1680, U+2000 to U+200A, U+2028, U+2029,
    U+202F, U+205F, U+3000 and U+FEFF, in their UTF-8 form. *)
Definition skipWhiteSpace (s : string) : option string :=
  match s with
  | EmptyString => None
  | String c r =>
      if isWhiteSpace c then Some r
      else
        match byte c, r with
        | 194%N, String c2 r2 =>
            if N.eqb (byte c2) 160 then Some r2 else None
        | 225%N, String c2 (String c3 r3) =>
            if andb (N.eqb (byte c2) 154) (N.eqb (byte c3) 128)
            then Some r3 else None
        | 226%N, String c2 (String c3 r3) =>
            if N.eqb (byte c2) 128 then
              if orb (andb (N.leb 128 (byte c3)) (N.leb (byte c3) 138))
                     (orb (N.eqb (byte c3) 168)
                          (orb (N.eqb (byte c3) 169) (N.eqb (byte c3) 175)))
              then Some r3 else None
            else if andb (N.eqb (byte c2) 129) (N.eqb (byte c3) 159)
            then Some r3 else None
        | 227%N, String c2 (String c3 r3) =>
            if andb (N.eqb (byte c2) 128) (N.eqb (byte c3) 128)
            then Some r3 else None
        | 239%N, String c2 (String c3 r3) =>
            if andb (N.eqb (byte c2) 187) (N.eqb (byte c3) 191)
            then Some r3 else None
        | _, _ => None
        end
  end.

(** Dropping the leading white space; a string of [n] bytes starts with
    fewer than [n + 1] white-space characters. *)
Fixpoint trimStartWithin (n : nat) (s : string) : string :=
  match n with
  | O => s
  | S n' =>
      match skipWhiteSpace s with
      | Some r => trimStartWithin n' r
      | None => s
      end
  end.

Definition trimStart (s : string) : string :=
  trimStartWithin (String.length s) s.

(** The longest prefix of decimal digits, as a [Decimal.uint]
    ([Nil] when the string does not start with a digit). *)
Fixpoint digitsPrefix (s : string) : uint :=
  match s with
  | String "0" r => D0 (digitsPrefix r)
  | String "1" r => D1 (digitsPrefix r)
  | String "2" r => D2 (digitsPrefix r)
  | String "3" r => D3 (digitsPrefix r)
  | String "4" r => D4 (digitsPrefix r)
  | String "5" r => D5 (digitsPrefix r)
  | String "6" r => D6 (digitsPrefix r)
  | String "7" r => D7 (digitsPrefix r)
  | String "8" r => D8 (digitsPrefix r)
  | String "9" r => D9 (digitsPrefix r)
  | _ => Nil
  end.

Definition isDigit (c : ascii) : bool :=
  match c with
  | "0"%char | "1"%char | "2"%char | "3"%char | "4"%char
  | "5"%char | "6"%char | "7"%char | "8"%char | "9"%char => true
  | _ => false
  end.

Fixpoint dropDigits (s : string) : string :=
  match s with
  | String c r => if isDigit c then dropDigits r else s
  | EmptyString => EmptyString
  end.

(** An optional sign: [(negative, rest)]. *)
Definition signOf (s : string) : bool * string :=
  match s with
  | String "-" r => (true, r)
  | String "+" r => (false, r)
  | _ => (false, s)
  end.

Definition signed (negative : bool) (z : Z) : Z :=
  if negative then - z else z.

(** *** Number.parseInt(s, 10)

    [None] stands for [NaN].  [parseInt(undefined, 10)] reads the string
    ["undefined"], which has no digit.  The result is the integer the
    digits denote; the engine returns the double nearest to it, which is
    that integer whenever it is a safe integer. *)
Definition numeral (negative : bool) (d : uint) : option Z :=
  match d with
  | Nil => None
  | _ => Some (signed negative (Z.of_uint d))
  end.

Definition parseInt (q : option string) : option Z :=
  match q with
  | None => None
  | Some s =>
      let (negative, body) := signOf (trimStart s) in
      numeral negative (digitsPrefix body)
  end.

(** [parseInt(v, 10)] on a value read from a result row. *)
Definition parseIntValue (v : value) : option Z :=
  match v with
  | VStr s => parseInt (Some s)
  | VNum (Int z) => Some z
  | _ => None
  end.

(** [x || d] on a parsed integer: [NaN] and [0] are falsy. *)
Definition orElse (x : option Z) (d : Z) : Z :=
  match x with
  | Some z => if Z.eqb z 0 then d else z
  | None => d
  end.

(** Template-literal printing of an integer: its decimal digits, which
    is what the engine prints for a safe integer (from 10^21 on it
    prints an exponent). *)
Definition intToString (z : Z) : string :=
  NilZero.string_of_int (Z.to_int z).

(** *** Number.parseFloat

    StrDecimalLiteral: sign, then [Infinity] or digits with an optional
    fraction and an optional exponent; anything else is [NaN].  The
    decimal read is rounded to the nearest double: to an infinity from
    [2^1024 - 2^970] on (half-way between the largest double and
    [2^1024]), to zero up to [2^-1075] (half the smallest double above
    zero). *)
Fixpoint uintLength (d : uint) : Z :=
  match d with
  | Nil => 0
  | D0 r | D1 r | D2 r | D3 r | D4 r | D5 r | D6 r | D7 r | D8 r | D9 r =>
      1 + uintLength r
  end.

Definition exponentOf (s : string) : Z :=
  match s with
  | String "e" r | String "E" r =>
      let (negative, body) := signOf r in
      match numeral negative (digitsPrefix body) with
      | Some z => z
      | None => 0
      end
  | _ => 0
  end.

Definition isNil (d : uint) : bool :=
  match d with
  | Nil => true
  | _ => false
  end.

(** [|m * 10^e| >= 2^1024 - 2^970] and [|m * 10^e| <= 2^-1075]. *)
Definition overflows (m e : Z) : bool :=
  if Z.ltb e 0
  then Z.leb ((2 ^ 1024 - 2 ^ 970) * 10 ^ (- e)) (Z.abs m)
  else Z.leb (2 ^ 1024 - 2 ^ 970) (Z.abs m * 10 ^ e).

Definition underflows (m e : Z) : bool :=
  if Z.ltb e 0
  then Z.leb (Z.abs m * 2 ^ 1075) (10 ^ (- e))
  else Z.eqb m 0.

(** [m * 10^e] without the zeros a negative exponent cancels: [1250e-2]
    is [125e-1], [10e-1] is [1e0]. *)
Fixpoint lowestTerms (steps : nat) (m e : Z) : Z * Z :=
  match steps with
  | O => (m, e)
  | S steps' =>
      if andb (Z.ltb e 0) (Z.eqb (m mod 10) 0)
      then lowestTerms steps' (m / 10) (e + 1)
      else (m, e)
  end.

(** The number [m * 10^e] as a double: an infinity, zero (the sign of a
    zero shows nowhere in the engine), an integer or a decimal. *)
Definition mkNumber (m e : Z) : number :=
  if overflows m e then Infinity (Z.ltb m 0)
  else if underflows m e then Int 0
  else
    let (m', e') := lowestTerms (Z.to_nat (- e)) m e in
    if Z.ltb e' 0 then Dec m' e' else Int (m' * 10 ^ e').

(** The literal after its sign. *)
Definition unsignedLiteral (negative : bool) (body : string) : number :=
  if String.prefix "Infinity" body then Infinity negative
  else
    let ip := digitsPrefix body in
    let r1 := dropDigits body in
    let (fp, r2) :=
      match r1 with
      | String "." r => (digitsPrefix r, dropDigits r)
      | _ => (Nil, r1)
      end in
    if andb (isNil ip) (isNil fp) then NaN
    else
      mkNumber (signed negative
                  (Z.of_uint ip * 10 ^ uintLength fp + Z.of_uint fp))
               (exponentOf r2 - uintLength fp).

Definition parseFloat (s : string) : number :=
  let (negative, body) := signOf (trimStart s) in
  unsignedLiteral negative body.

End JS.

Import JS.

(** ** The store collaborator

    [pool.query(text, values)] resolves to the rows of the result or
    rejects.  A controller is a computation that logs every statement it
    sends and may throw; [statusCode] is the property the controllers'
    [catch] blocks test. *)

Record call : Type := Call { text : string; values : list value }.

Definition Pool : Type := string -> list value -> option (list value).

Record error : Type := Error { statusCode : option Z; message : string }.

(** What a rejected query or a [TypeError] carries: no [statusCode]. *)
Definition plainError (msg : string) : error :=
  {| statusCode := None; message := msg |}.

Definition M (A : Type) : Type := list call -> (error + A) * list call.

Definition ret {A} (a : A) : M A := fun log => (inr a, log).

Definition throw {A} (e : error) : M A := fun log => (inl e, log).

Definition bind {A B} (m : M A) (k : A -> M B) : M B :=
  fun log =>
    match m log with
    | (inr a, log') => k a log'
    | (inl e, log') => (inl e, log')
    end.

Definition tryCatch {A} (m : M A) (handler : error -> A) : M A :=
  fun log =>
    match m log with
    | (inr a, log') => (inr a, log')
    | (inl e, log') => (inr (handler e), log')
    end.

Notation "x <- m ;; k" := (bind m (fun x => k))
  (at level 61, m at next level, right associativity).

(** A call that returns or throws without talking to the store. *)
Definition attempt {A} (r : error + A) : M A := fun log => (r, log).

(** [await pool.query(text, values)]. *)
Definition poolQuery (pool : Pool) (text : string) (values : list value)
  : M (list value) :=
  fun log =>
    let log' := log ++ [Call text values] in
    match pool text values with
    | Some rows => (inr rows, log')
    | None => (inl (plainError "query failed"), log')
    end.

(** [await Promise.all([pool.query(..), pool.query(..), pool.query(..)])]:
    the three statements are all sent, the await rejects if one does. *)
Definition queryAll3 (pool : Pool) (c1 c2 c3 : call)
  : M (list value * list value * list value) :=
  fun log =>
    let log' := log ++ [c1; c2; c3] in
    match pool (text c1) (values c1), pool (text c2) (values c2),
          pool (text c3) (values c3) with
    | Some r1, Some r2, Some r3 => (inr (r1, r2, r3), log')
    | _, _, _ => (inl (plainError "query failed"), log')
    end.

Record response : Type := Response { status : Z; body : value }.

(** [res.json(body)] and [res.status(code).json({ error: msg })]. *)
Definition json (b : value) : response := {| status := 200; body := b |}.

Definition errorResponse (code : Z) (msg : string) : response :=
  {| status := code; body := VObj [("error", VStr msg)] |}.

(** The [catch] block shared by the entity-scoped controllers. *)
Definition onError (e : error) : response :=
  match statusCode e with
  | Some code =>
      if Z.eqb code 0 then errorResponse 500 "Internal server error"
      else errorResponse code (message e)
  | None => errorResponse 500 "Internal server error"
  end.

(** The [catch] block of the controllers that never look at [statusCode]. *)
Definition onErrorPlain (e : error) : response :=
  errorResponse 500 "Internal server error".

Definition run (m : M response) : response * list call :=
  match m [] with
  | (inr r, log) => (r, log)
  | (inl e, log) => (onErrorPlain e, log)
  end.

(** [rows[0]]: [undefined] on an empty result. *)
Definition firstRow (rows : list value) : value :=
  match rows with
  | r :: _ => r
  | [] => VUndefined
  end.

(** [rows[0].count]: reading a property of [undefined] throws. *)
Definition countOf (rows : list value) : M value :=
  match rows with
  | VUndefined :: _ | VNull :: _ | [] =>
      throw (plainError "Cannot read properties of undefined")
  | r :: _ => ret (get "count" r)
  end.

(** [rows[0].<key>] in general: reading a property of [undefined] or
    [null] throws. *)
Definition propertyOf (k : string) (v : value) : M value :=
  match v with
  | VUndefined | VNull =>
      throw (plainError "Cannot read properties of undefined")
  | _ => ret (get k v)
  end.

(** ** The JavaScript engine's date parser

    [new Date(s)] on a string defers to [Date.parse], whose behaviour
    outside the ISO format is left to the implementation; [dateParses s]
    says that [new Date(s).getTime()] is not [NaN]. *)

Class DateParser : Type := { dateParses : string -> bool }.

(** ** The text of a value in a template literal

    [`${v}`] applies ToString.  The text of a number that is not an
    integer needs the shortest decimal that reads back as the same
    double, which is outside the model: [decToString m e] stands for the
    text of the double nearest to [m * 10^e]. *)

Class NumberPrinter : Type := { decToString : Z -> Z -> string }.

Module Text.

Fixpoint joinComma (parts : list string) : string :=
  match parts with
  | [] => ""
  | [x] => x
  | x :: rest => x +:+ "," +:+ joinComma rest
  end.

Definition numberToString `{NumberPrinter} (n : number) : string :=
  match n with
  | NaN => "NaN"
  | Infinity false => "Infinity"
  | Infinity true => "-Infinity"
  | Int z => intToString z
  | Dec m e => decToString m e
  end.

(** An array prints its elements separated by commas, [null] and
    [undefined] elements as nothing; a plain object prints as
    ["[object Object]"]. *)
Fixpoint toText `{NumberPrinter} (v : value) : string :=
  match v with
  | VUndefined => "undefined"
  | VNull => "null"
  | VNum n => numberToString n
  | VStr s => s
  | VArr items =>
      joinComma (map (fun x =>
                        match x with
                        | VUndefined | VNull => ""
                        | _ => toText x
                        end) items)
  | VObj _ => "[object Object]"
  end.

(** The own enumerable properties that [{ ...v }] copies: the fields of
    an object, the indexed elements of an array, the indexed characters
    of a string, nothing for any other value. *)
Fixpoint indexedFrom (i : Z) (items : list value) : list (string * value) :=
  match items with
  | [] => []
  | x :: rest => (intToString i, x) :: indexedFrom (i + 1) rest
  end.

Fixpoint characters (s : string) : list value :=
  match s with
  | EmptyString => []
  | String c r => VStr (String c EmptyString) :: characters r
  end.

Definition ownFields (v : value) : list (string * value) :=
  match v with
  | VObj fields => fields
  | VArr items => indexedFrom 0 items
  | VStr s => indexedFrom 0 (characters s)
  | _ => []
  end.

End Text.

Import Text.

(** ** lib/utils.js *)

Module Utils.

Fixpoint join (sep : string) (parts : list string) : string :=
  match parts with
  | [] => ""
  | [x] => x
  | x :: rest => x +:+ sep +:+ join sep rest
  end.

Definition buildWhereClause (conditions : list string) : string :=
  match conditions with
  | [] => ""
  | _ => " WHERE " +:+ join " AND " conditions
  end.

Record pagination : Type :=
  Pagination { limit : Z; offset : Z; page : Z }.

Definition getPaginationParams (page limit : option string) : pagination :=
  let parsedPage := orElse (parseInt page) 1 in
  let parsedLimit := orElse (parseInt limit) 100 in
  let offset := (parsedPage - 1) * parsedLimit in
  {| limit := parsedLimit; offset := offset; page := parsedPage |}.

(** The value of [Math.ceil(total / limit)] on integer operands: a
    division by zero gives an infinity or [NaN], a [NaN] total gives
    [NaN]. *)
Inductive integral : Type :=
| INaN
| IInf (negative : bool)
| IFin (z : Z).

Definition ceilDiv (total : option Z) (limit : Z) : integral :=
  match total with
  | None => INaN
  | Some t =>
      if Z.eqb limit 0 then
        if Z.eqb t 0 then INaN else IInf (Z.ltb t 0)
      else IFin (- ((- t) / limit))
  end.

Definition integralToString (i : integral) : string :=
  match i with
  | INaN => "NaN"
  | IInf false => "Infinity"
  | IInf true => "-Infinity"
  | IFin z => intToString z
  end.

Definition integralToNumber (i : integral) : number :=
  match i with
  | INaN => NaN
  | IInf negative => Infinity negative
  | IFin z => Int z
  end.

(** [p < i] with the comparison rules of doubles. *)
Definition ltIntegral (p : Z) (i : integral) : bool :=
  match i with
  | INaN => false
  | IInf negative => negb negative
  | IFin z => Z.ltb p z
  end.

Definition totalToNumber (total : option Z) : number :=
  match total with
  | Some t => Int t
  | None => NaN
  end.

Definition pageLink (baseUrl page : string) (limit : Z) : string :=
  baseUrl +:+ "?page=" +:+ page +:+ "&limit=" +:+ intToString limit.

(** Object spread [{ ...fields, ...extra }]: a key of [extra] replaces
    the same key of [fields], a new key is appended. *)
Fixpoint setField (k : string) (v : value) (fields : list (string * value))
  : list (string * value) :=
  match fields with
  | [] => [(k, v)]
  | (k', v') :: rest =>
      if String.eqb k k' then (k, v) :: rest
      else (k', v') :: setField k v rest
  end.

Definition spread (fields extra : list (string * value))
  : list (string * value) :=
  fold_left (fun acc kv => setField (fst kv) (snd kv) acc) extra fields.

Definition formatPaginatedResponse (data : value) (pg : pagination)
    (total : option Z) (baseUrl : string)
    (additionalMeta : list (string * value)) : value :=
  let totalPages := ceilDiv total (limit pg) in
  VObj
    [ ("data", data);
      ("meta",
        VObj (spread
          [ ("pagination",
              VObj [ ("page", VInt (page pg));
                     ("limit", VInt (limit pg));
                     ("total", VNum (totalToNumber total));
                     ("pages", VNum (integralToNumber totalPages)) ]) ]
          additionalMeta));
      ("links",
        VObj
          [ ("self", VStr (pageLink baseUrl (intToString (page pg)) (limit pg)));
            ("first", VStr (pageLink baseUrl "1" (limit pg)));
            ("last",
              VStr (pageLink baseUrl (integralToString totalPages) (limit pg)));
            ("next",
              if ltIntegral (page pg) totalPages
              then VStr (pageLink baseUrl (intToString (page pg + 1)) (limit pg))
              else VNull);
            ("prev",
              if Z.ltb 1 (page pg)
              then VStr (pageLink baseUrl (intToString (page pg - 1)) (limit pg))
              else VNull) ]) ].

Definition parseDate `{DateParser} (dateStr : option string) (fallback : value)
  : value :=
  match dateStr with
  | Some s => if dateParses s then VStr s else fallback
  | None => fallback
  end.

End Utils.

(** ** lib/validations.js *)

Module Validations.

Definition includes (xs : list string) (x : string) : bool :=
  existsb (String.eqb x) xs.

Definition lowerChar (c : ascii) : ascii :=
  let n := nat_of_ascii c in
  if andb (Nat.leb 65 n) (Nat.leb n 90) then ascii_of_nat (n + 32) else c.

Fixpoint toLowerCase (s : string) : string :=
  match s with
  | EmptyString => EmptyString
  | String c r => String (lowerChar c) (toLowerCase r)
  end.

Definition upperChar (c : ascii) : ascii :=
  let n := nat_of_ascii c in
  if andb (Nat.leb 97 n) (Nat.leb n 122) then ascii_of_nat (n - 32) else c.

(** The validators take what [req.query] holds: [undefined], a string,
    or the array or object the query parser builds from a repeated or
    bracketed key.  [xs.includes(v)] on an array of strings holds of a
    string only. *)
Definition validateSortColumn (sortBy : value)
    (validColumns : list string) (defaultColumn : string) : string :=
  match sortBy with
  | VStr s => if andb (truthy sortBy) (includes validColumns s) then s
              else defaultColumn
  | _ => defaultColumn
  end.

Definition validOrders : list string := ["asc"; "desc"].

(** [sortOrder.toLowerCase()] is called on every truthy value: a string
    has the method, on anything else the call throws a [TypeError]. *)
Definition validateSortOrder (sortOrder : value)
    (defaultOrder : string) : error + string :=
  if truthy sortOrder then
    match sortOrder with
    | VStr s => inr (if includes validOrders (toLowerCase s)
                     then toLowerCase s else defaultOrder)
    | _ => inl (plainError "sortOrder.toLowerCase is not a function")
    end
  else inr defaultOrder.

Definition validIntervals : list string :=
  ["day"; "week"; "month"; "quarter"; "year"].

Definition validateInterval (interval : value)
    (defaultInterval : string) : string :=
  match interval with
  | VStr s => if andb (truthy interval) (includes validIntervals s) then s
              else defaultInterval
  | _ => defaultInterval
  end.

(** [table.charAt(0).toUpperCase() + table.slice(1, -1)]. *)
Fixpoint dropLast (s : string) : string :=
  match s with
  | EmptyString => EmptyString
  | String _ EmptyString => EmptyString
  | String c r => String c (dropLast r)
  end.

Definition entityName (table : string) : string :=
  match table with
  | EmptyString => EmptyString
  | String c r => String (upperChar c) (dropLast r)
  end.

Definition validateResourceExists (pool : Pool) (table : string) (id : string)
  : M value :=
  rows <- poolQuery pool ("SELECT * FROM " +:+ table +:+ " WHERE id = $1") [VStr id] ;;
  match rows with
  | [] => throw {| statusCode := Some 404;
                   message := entityName table +:+ " not found" |}
  | r :: _ => ret r
  end.

End Validations.

Import Utils Validations.

(** ** Requests and the condition builder *)

(** [req.params.id] and the members of [req.query] the controllers
    read.  The members handed to the validators are values: a repeated
    [sortOrder] makes the controller throw.  The other members are taken
    as given once or not at all; the controllers parse, bind and echo
    them without calling a method on them. *)
Record request : Type := Request {
  paramsId : string;
  qPage : option string;
  qLimit : option string;
  qStartDate : option string;
  qEndDate : option string;
  qUserId : option string;
  qGroupId : option string;
  qMinAmount : option string;
  qMaxAmount : option string;
  qSortBy : value;
  qSortOrder : value;
  qInterval : value;
  qRole : option string
}.

(** The three locals every listing controller threads through its
    [if] blocks: [conditions], [queryParams] and [paramIndex]. *)
Record builder : Type := Builder {
  conditions : list string;
  queryParams : list value;
  paramIndex : Z
}.

(** [conditions.push(`<fragment>$${paramIndex}`); queryParams.push(v);
    paramIndex++]. *)
Definition pushCondition (fragment : string) (v : value) (b : builder)
  : builder :=
  {| conditions := conditions b ++ [fragment +:+ "$" +:+ intToString (paramIndex b)];
     queryParams := queryParams b ++ [v];
     paramIndex := paramIndex b + 1 |}.

Definition when (c : bool) (f : builder -> builder) (b : builder) : builder :=
  if c then f b else b.

(** [xs.slice(0, stop)]. *)
Definition slice0 {A} (stop : Z) (xs : list A) : list A :=
  if Z.ltb stop 0
  then firstn (Z.to_nat (Z.max 0 (Z.of_nat (List.length xs) + stop))) xs
  else firstn (Z.to_nat stop) xs.

(** What a listing controller has computed when it starts talking to the
    store: both statements with their parameter lists, the pagination
    and the echo of the filters.  The plan of a controller is built
    from the request and the sort order its validator returned. *)
Record listing : Type := Listing {
  filterConditions : list string;
  listQuery : string;
  listParams : list value;
  countQuery : string;
  countParams : list value;
  listPagination : pagination;
  listBaseUrl : string;
  listFilters : list (string * value)
}.

(** The store round-trips shared by the listing controllers: the
    listing statement, then its count, then the envelope. *)
Definition runListing (pool : Pool) (l : listing) : M response :=
  result <- poolQuery pool (listQuery l) (listParams l) ;;
  countResult <- poolQuery pool (countQuery l) (countParams l) ;;
  count <- countOf countResult ;;
  let total := parseIntValue count in
  ret (json (formatPaginatedResponse (VArr result) (listPagination l) total
               (listBaseUrl l) [("filters", VObj (listFilters l))])).

(** Statement texts: inside one template literal every run of blanks and
    line breaks is written as a single space. *)

(** ** controllers/sales-controller.js *)

Module SalesController.

Definition validSortColumns : list string := ["date"; "amount"; "user_id"].

Definition validAmount (q : option string) : value :=
  match q with
  | Some s => if nonEmpty s then VNum (parseFloat s) else VNull
  | None => VNull
  end.

Definition listSalesPlan `{DateParser} (req : request)
    (validSortOrder : string) : listing :=
  let pagination := getPaginationParams (qPage req) (qLimit req) in
  let validStartDate := parseDate (qStartDate req) VNull in
  let validEndDate := parseDate (qEndDate req) VNull in
  let validSortBy := validateSortColumn (qSortBy req) validSortColumns "date" in
  let validMinAmount := validAmount (qMinAmount req) in
  let validMaxAmount := validAmount (qMaxAmount req) in
  let b := {| conditions := []; queryParams := []; paramIndex := 1 |} in
  let b := when (truthy validStartDate)
             (pushCondition "s.date >= " validStartDate) b in
  let b := when (truthy validEndDate)
             (pushCondition "s.date <= " validEndDate) b in
  let b := when (truthyQ (qUserId req))
             (pushCondition "s.user_id = " (ofQuery (qUserId req))) b in
  let b := when (notNull validMinAmount)
             (pushCondition "s.amount >= " validMinAmount) b in
  let b := when (notNull validMaxAmount)
             (pushCondition "s.amount <= " validMaxAmount) b in
  let query :=
    " SELECT s.id, s.user_id, u.name as user_name, s.amount, s.date FROM sales s JOIN users u ON s.user_id = u.id " in
  let query :=
    if truthyQ (qGroupId req)
    then query +:+ " JOIN user_groups ug ON s.user_id = ug.user_id"
    else query in
  let b := when (truthyQ (qGroupId req))
             (pushCondition "ug.group_id = " (ofQuery (qGroupId req))) b in
  let query := query +:+ buildWhereClause (conditions b) in
  let query := query +:+ " ORDER BY s." +:+ validSortBy +:+ " " +:+ validSortOrder in
  let query := query +:+ " LIMIT $" +:+ intToString (paramIndex b)
                 +:+ " OFFSET $" +:+ intToString (paramIndex b + 1) in
  let queryParams :=
    queryParams b ++ [VInt (limit pagination); VInt (offset pagination)] in
  let countQuery := " SELECT COUNT(*) FROM sales s " in
  let countQuery :=
    if truthyQ (qGroupId req)
    then countQuery +:+ " JOIN user_groups ug ON s.user_id = ug.user_id"
    else countQuery in
  let countQuery := countQuery +:+ buildWhereClause (conditions b) in
  {| filterConditions := conditions b;
     listQuery := query;
     listParams := queryParams;
     countQuery := countQuery;
     countParams := slice0 (paramIndex b - 1) queryParams;
     listPagination := pagination;
     listBaseUrl := "/api/metrics/sales";
     listFilters :=
       [ ("startDate", validStartDate);
         ("endDate", validEndDate);
         ("userId", ofQuery (qUserId req));
         ("groupId", ofQuery (qGroupId req));
         ("minAmount", validMinAmount);
         ("maxAmount", validMaxAmount) ] |}.

Definition listSales `{DateParser} (pool : Pool) (req : request)
  : response * list call :=
  run (tryCatch
    (validSortOrder <- attempt (validateSortOrder (qSortOrder req) "desc") ;;
     runListing pool (listSalesPlan req validSortOrder))
    onErrorPlain).

(** *** getSale *)

Definition saleQuery : string :=
  " SELECT s.id, s.user_id, u.name as user_name, u.role as user_role, s.amount, s.date FROM sales s JOIN users u ON s.user_id = u.id WHERE s.id = $1 ".

Definition groupsQuery : string :=
  " SELECT g.id, g.name FROM groups g JOIN user_groups ug ON g.id = ug.group_id WHERE ug.user_id = $1 ".

Definition getSale `{NumberPrinter} (pool : Pool) (req : request)
  : response * list call :=
  run (tryCatch
    (let saleId := paramsId req in
     if negb (nonEmpty saleId)
     then ret (errorResponse 400 "Sale ID is required")
     else
       result <- poolQuery pool saleQuery [VStr saleId] ;;
       match result with
       | [] => ret (errorResponse 404 "Sale not found")
       | row :: _ =>
           userId <- propertyOf "user_id" row ;;
           groupsResult <- poolQuery pool groupsQuery [userId] ;;
           ret (json (VObj
             [ ("data",
                 VObj (setField "user_groups" (VArr groupsResult)
                         (ownFields row)));
               ("links", VObj
                  [ ("self", VStr ("/api/metrics/sales/" +:+ saleId));
                    ("user", VStr ("/api/metrics/users/" +:+ toText userId));
                    ("all_sales", VStr "/api/metrics/sales") ]) ]))
       end)
    onErrorPlain).

End SalesController.

(** ** controllers/user-controller.js *)

Module UserController.

Definition validSortColumns : list string := ["date"; "amount"].

Definition getUserSalesPlan `{DateParser} (req : request)
    (validSortOrder : string) : listing :=
  let userId := paramsId req in
  let validStartDate := parseDate (qStartDate req) VNull in
  let validEndDate := parseDate (qEndDate req) VNull in
  let validSortBy := validateSortColumn (qSortBy req) validSortColumns "date" in
  let b := {| conditions := ["user_id = $1"];
              queryParams := [VStr userId];
              paramIndex := 2 |} in
  let b := when (truthy validStartDate)
             (pushCondition "date >= " validStartDate) b in
  let b := when (truthy validEndDate)
             (pushCondition "date <= " validEndDate) b in
  let pagination := getPaginationParams (qPage req) (qLimit req) in
  let query :=
    " SELECT id, amount, date FROM sales WHERE " +:+ join " AND " (conditions b)
    +:+ " ORDER BY " +:+ validSortBy +:+ " " +:+ validSortOrder
    +:+ " LIMIT $" +:+ intToString (paramIndex b)
    +:+ " OFFSET $" +:+ intToString (paramIndex b + 1) +:+ " " in
  let queryParams :=
    queryParams b ++ [VInt (limit pagination); VInt (offset pagination)] in
  let countQuery :=
    " SELECT COUNT(*) FROM sales WHERE " +:+ join " AND " (conditions b) +:+ " " in
  {| filterConditions := conditions b;
     listQuery := query;
     listParams := queryParams;
     countQuery := countQuery;
     countParams := slice0 (paramIndex b - 1) queryParams;
     listPagination := pagination;
     listBaseUrl := "/api/metrics/users/" +:+ userId +:+ "/sales";
     listFilters :=
       [ ("startDate", validStartDate); ("endDate", validEndDate) ] |}.

Definition getUserSales `{DateParser} (pool : Pool) (req : request)
  : response * list call :=
  run (tryCatch
    (let userId := paramsId req in
     if negb (nonEmpty userId)
     then ret (errorResponse 400 "User ID is required")
     else
       _ <- validateResourceExists pool "users" userId ;;
       validSortOrder <- attempt (validateSortOrder (qSortOrder req) "desc") ;;
       runListing pool (getUserSalesPlan req validSortOrder))
    onError).

Definition getUserSalesSummary `{DateParser} (pool : Pool) (req : request)
  : response * list call :=
  run (tryCatch
    (let userId := paramsId req in
     if negb (nonEmpty userId)
     then ret (errorResponse 400 "User ID is required")
     else
       _ <- validateResourceExists pool "users" userId ;;
       let validStartDate := parseDate (qStartDate req) VNull in
       let validEndDate := parseDate (qEndDate req) VNull in
       let b := {| conditions := ["user_id = $1"];
                   queryParams := [VStr userId];
                   paramIndex := 2 |} in
       let b := when (truthy validStartDate)
                  (pushCondition "date >= " validStartDate) b in
       let b := when (truthy validEndDate)
                  (pushCondition "date <= " validEndDate) b in
       let summaryQuery :=
         " SELECT COUNT(*) AS total_sales, SUM(amount) AS total_revenue, AVG(amount) AS average_sale_amount, MIN(amount) AS min_sale_amount, MAX(amount) AS max_sale_amount FROM sales WHERE "
         +:+ join " AND " (conditions b) +:+ " " in
       summaryResult <- poolQuery pool summaryQuery (queryParams b) ;;
       let monthlyQuery :=
         " SELECT DATE_TRUNC('month', date) AS month, COUNT(*) AS sales_count, SUM(amount) AS total_revenue, AVG(amount) AS average_revenue FROM sales WHERE "
         +:+ join " AND " (conditions b)
         +:+ " GROUP BY DATE_TRUNC('month', date) ORDER BY month " in
       monthlyResult <- poolQuery pool monthlyQuery (queryParams b) ;;
       ret (json (VObj
         [ ("data", VObj [ ("summary", firstRow summaryResult);
                           ("monthly_breakdown", VArr monthlyResult) ]);
           ("meta", VObj [ ("filters",
              VObj [ ("startDate", validStartDate);
                     ("endDate", validEndDate) ]) ]);
           ("links", VObj
              [ ("self", VStr ("/api/metrics/users/" +:+ userId +:+ "/sales/summary"));
                ("sales", VStr ("/api/metrics/users/" +:+ userId +:+ "/sales")) ]) ])))
    onError).

Definition userTrendsQuery : string :=
  " SELECT DATE_TRUNC($1, date) AS time_period, COUNT(*) AS sales_count, SUM(amount) AS total_revenue, AVG(amount) AS average_revenue FROM sales WHERE user_id = $2 AND date BETWEEN $3 AND $4 GROUP BY DATE_TRUNC($1, date) ORDER BY time_period ".

Definition userSummaryQuery : string :=
  " SELECT COUNT(*) AS total_sales, SUM(amount) AS total_revenue, AVG(amount) AS average_sale_amount, MIN(amount) AS min_sale_amount, MAX(amount) AS max_sale_amount FROM sales WHERE user_id = $1 AND date BETWEEN $2 AND $3 ".

Definition userRankingQuery : string :=
  " WITH user_sales AS ( SELECT g.id AS group_id, g.name AS group_name, SUM(s.amount) AS user_revenue FROM sales s JOIN user_groups ug ON s.user_id = ug.user_id JOIN groups g ON ug.group_id = g.id WHERE s.user_id = $1 AND s.date BETWEEN $2 AND $3 GROUP BY g.id, g.name ), group_rankings AS ( SELECT g.id AS group_id, g.name AS group_name, u.id AS user_id, u.name AS user_name, SUM(s.amount) AS revenue, RANK() OVER (PARTITION BY g.id ORDER BY SUM(s.amount) DESC) AS rank FROM sales s JOIN user_groups ug ON s.user_id = ug.user_id JOIN groups g ON ug.group_id = g.id JOIN users u ON s.user_id = u.id WHERE s.date BETWEEN $2 AND $3 GROUP BY g.id, g.name, u.id, u.name ) SELECT us.group_id, us.group_name, us.user_revenue, gr.rank, COUNT(*) OVER (PARTITION BY us.group_id) AS total_users FROM user_sales us JOIN group_rankings gr ON us.group_id = gr.group_id AND gr.user_id = $1 ".

Definition getUserPerformance `{DateParser} (pool : Pool) (req : request)
  : response * list call :=
  run (tryCatch
    (let userId := paramsId req in
     if negb (nonEmpty userId)
     then ret (errorResponse 400 "User ID is required")
     else
       _ <- validateResourceExists pool "users" userId ;;
       let validStartDate := parseDate (qStartDate req) (VStr "2021-01-01") in
       let validEndDate := parseDate (qEndDate req) (VStr "2021-12-31") in
       let validInterval := validateInterval (qInterval req) "month" in
       trendsResult <- poolQuery pool userTrendsQuery
         [VStr validInterval; VStr userId; validStartDate; validEndDate] ;;
       summaryResult <- poolQuery pool userSummaryQuery
         [VStr userId; validStartDate; validEndDate] ;;
       rankingResult <- poolQuery pool userRankingQuery
         [VStr userId; validStartDate; validEndDate] ;;
       ret (json (VObj
         [ ("data", VObj [ ("summary", firstRow summaryResult);
                           ("trends", VArr trendsResult);
                           ("group_rankings", VArr rankingResult) ]);
           ("meta", VObj [ ("filters",
              VObj [ ("startDate", validStartDate);
                     ("endDate", validEndDate);
                     ("interval", VStr validInterval) ]) ]);
           ("links", VObj
              [ ("self", VStr ("/api/metrics/users/" +:+ userId
                               +:+ "/performance?interval=" +:+ validInterval));
                ("user", VStr ("/api/metrics/users/" +:+ userId));
                ("sales", VStr ("/api/metrics/users/" +:+ userId +:+ "/sales")) ]) ])))
    onError).

(** *** getAllUsersPerformance *)

Definition performanceSortColumns : list string :=
  ["total_revenue"; "average_revenue"; "sales_count"; "name"].

(** [limit ? Number.parseInt(limit, 10) : 10]. *)
Definition validLimitOf (q : option string) : number :=
  if truthyQ q then
    match parseInt q with
    | Some z => Int z
    | None => NaN
    end
  else Int 10.

(** [interval && validIntervals.includes(interval) ? interval : 'month'],
    written out in the controller instead of calling [validateInterval]. *)
Definition inlineInterval (interval : value) : string :=
  match interval with
  | VStr s =>
      if andb (truthy interval)
              (includes ["day"; "week"; "month"; "quarter"; "year"] s)
      then s else "month"
  | _ => "month"
  end.

Definition topPerformersStatement `{DateParser} (req : request)
    (validSortOrder : string) : call :=
  let validStartDate := parseDate (qStartDate req) (VStr "2021-01-01") in
  let validEndDate := parseDate (qEndDate req) (VStr "2021-12-31") in
  let validSortBy :=
    validateSortColumn (qSortBy req) performanceSortColumns "total_revenue" in
  let validLimit := validLimitOf (qLimit req) in
  let b := {| conditions := [];
              queryParams := [validStartDate; validEndDate];
              paramIndex := 3 |} in
  let b := when (truthyQ (qRole req))
             (pushCondition "u.role = " (ofQuery (qRole req))) b in
  let topPerformersQuery :=
    " SELECT u.id, u.name, u.role, COUNT(s.id) AS sales_count, SUM(s.amount) AS total_revenue, AVG(s.amount) AS average_revenue, MIN(s.date) AS first_sale_date, MAX(s.date) AS last_sale_date FROM users u JOIN sales s ON u.id = s.user_id " in
  let topPerformersQuery :=
    if truthyQ (qGroupId req)
    then topPerformersQuery +:+ " JOIN user_groups ug ON u.id = ug.user_id"
    else topPerformersQuery in
  let b := when (truthyQ (qGroupId req))
             (pushCondition "ug.group_id = " (ofQuery (qGroupId req))) b in
  let conditions := conditions b ++ ["s.date BETWEEN $1 AND $2"] in
  let topPerformersQuery :=
    topPerformersQuery +:+ buildWhereClause conditions in
  let topPerformersQuery :=
    topPerformersQuery +:+ " GROUP BY u.id, u.name, u.role ORDER BY "
    +:+ validSortBy +:+ " " +:+ validSortOrder
    +:+ " LIMIT $" +:+ intToString (paramIndex b) +:+ " " in
  {| text := topPerformersQuery;
     values := queryParams b ++ [VNum validLimit] |}.

Definition trendsQuery (req : request) : string :=
  " SELECT DATE_TRUNC($1, s.date) AS time_period, COUNT(s.id) AS sales_count, SUM(s.amount) AS total_revenue, AVG(s.amount) AS average_revenue, COUNT(DISTINCT s.user_id) AS active_users FROM sales s JOIN users u ON s.user_id = u.id "
  +:+ (if truthyQ (qGroupId req)
       then "JOIN user_groups ug ON s.user_id = ug.user_id" else "")
  +:+ " WHERE s.date BETWEEN $2 AND $3 "
  +:+ (if truthyQ (qRole req) then " AND u.role = $4" else "")
  +:+ " "
  +:+ (if truthyQ (qGroupId req)
       then " AND ug.group_id = $${role ? 5 : 4}" else "")
  +:+ " GROUP BY DATE_TRUNC($1, s.date) ORDER BY time_period ".

Definition trendsParams `{DateParser} (req : request) : list value :=
  let validStartDate := parseDate (qStartDate req) (VStr "2021-01-01") in
  let validEndDate := parseDate (qEndDate req) (VStr "2021-12-31") in
  let trendsParams :=
    [VStr (inlineInterval (qInterval req)); validStartDate; validEndDate] in
  let trendsParams :=
    if truthyQ (qRole req) then trendsParams ++ [ofQuery (qRole req)]
    else trendsParams in
  if truthyQ (qGroupId req) then trendsParams ++ [ofQuery (qGroupId req)]
  else trendsParams.

Definition roleBreakdownStatement `{DateParser} (req : request) : call :=
  let validStartDate := parseDate (qStartDate req) (VStr "2021-01-01") in
  let validEndDate := parseDate (qEndDate req) (VStr "2021-12-31") in
  {| text :=
       " SELECT u.role, COUNT(DISTINCT u.id) AS user_count, COUNT(s.id) AS sales_count, SUM(s.amount) AS total_revenue, AVG(s.amount) AS average_revenue FROM users u JOIN sales s ON u.id = s.user_id "
       +:+ (if truthyQ (qGroupId req)
            then "JOIN user_groups ug ON s.user_id = ug.user_id" else "")
       +:+ " WHERE s.date BETWEEN $1 AND $2 "
       +:+ (if truthyQ (qGroupId req) then " AND ug.group_id = $3" else "")
       +:+ " GROUP BY u.role ORDER BY total_revenue DESC ";
     values :=
       if truthyQ (qGroupId req)
       then [validStartDate; validEndDate; ofQuery (qGroupId req)]
       else [validStartDate; validEndDate] |}.

Definition getAllUsersPerformance `{DateParser} (pool : Pool) (req : request)
  : response * list call :=
  run (tryCatch
    (let validStartDate := parseDate (qStartDate req) (VStr "2021-01-01") in
     let validEndDate := parseDate (qEndDate req) (VStr "2021-12-31") in
     let validInterval := inlineInterval (qInterval req) in
     validSortOrder <- attempt (validateSortOrder (qSortOrder req) "desc") ;;
     results <- queryAll3 pool
       (topPerformersStatement req validSortOrder)
       {| text := trendsQuery req; values := trendsParams req |}
       (roleBreakdownStatement req) ;;
     let '(topPerformersResult, trendsResult, roleBreakdownResult) := results in
     ret (json (VObj
       [ ("data", VObj [ ("top_performers", VArr topPerformersResult);
                         ("trends", VArr trendsResult);
                         ("role_breakdown", VArr roleBreakdownResult) ]);
         ("meta", VObj [ ("filters",
            VObj [ ("startDate", validStartDate);
                   ("endDate", validEndDate);
                   ("interval", VStr validInterval);
                   ("role", ofQuery (qRole req));
                   ("groupId", ofQuery (qGroupId req));
                   ("limit", VNum (validLimitOf (qLimit req))) ]) ]);
         ("links", VObj
            [ ("self", VStr ("/api/metrics/users/performance?interval="
                             +:+ validInterval));
              ("users_sales", VStr ("/api/metrics/sales?"
                 +:+ match qGroupId req with
                     | Some g => if nonEmpty g then "groupId=" +:+ g +:+ "&" else ""
                     | None => ""
                     end
                 +:+ match qRole req with
                     | Some r => if nonEmpty r then "role=" +:+ r +:+ "&" else ""
                     | None => ""
                     end)) ]) ])))
    onErrorPlain).

End UserController.

(** ** controllers/group-controller.js *)

Module GroupController.

Definition userSortColumns : list string := ["name"; "role"].

Definition getGroupUsersPlan (req : request) (validSortOrder : string)
  : listing :=
  let groupId := paramsId req in
  let validSortBy := validateSortColumn (qSortBy req) userSortColumns "name" in
  let b := {| conditions := ["ug.group_id = $1"];
              queryParams := [VStr groupId];
              paramIndex := 2 |} in
  let b := when (truthyQ (qRole req))
             (pushCondition "u.role = " (ofQuery (qRole req))) b in
  let pagination := getPaginationParams (qPage req) (qLimit req) in
  let query :=
    " SELECT u.id, u.name, u.role FROM users u JOIN user_groups ug ON u.id = ug.user_id WHERE "
    +:+ join " AND " (conditions b)
    +:+ " ORDER BY u." +:+ validSortBy +:+ " " +:+ validSortOrder
    +:+ " LIMIT $" +:+ intToString (paramIndex b)
    +:+ " OFFSET $" +:+ intToString (paramIndex b + 1) +:+ " " in
  let queryParams :=
    queryParams b ++ [VInt (limit pagination); VInt (offset pagination)] in
  let countQuery :=
    " SELECT COUNT(*) FROM users u JOIN user_groups ug ON u.id = ug.user_id WHERE "
    +:+ join " AND " (conditions b) +:+ " " in
  {| filterConditions := conditions b;
     listQuery := query;
     listParams := queryParams;
     countQuery := countQuery;
     countParams := slice0 (paramIndex b - 1) queryParams;
     listPagination := pagination;
     listBaseUrl := "/api/metrics/groups/" +:+ groupId +:+ "/users";
     listFilters := [ ("role", ofQuery (qRole req)) ] |}.

Definition getGroupUsers (pool : Pool) (req : request)
  : response * list call :=
  run (tryCatch
    (let groupId := paramsId req in
     if negb (nonEmpty groupId)
     then ret (errorResponse 400 "Group ID is required")
     else
       _ <- validateResourceExists pool "groups" groupId ;;
       validSortOrder <- attempt (validateSortOrder (qSortOrder req) "asc") ;;
       runListing pool (getGroupUsersPlan req validSortOrder))
    onError).

Definition salesSortColumns : list string := ["date"; "amount"; "user_id"].

Definition getGroupSalesPlan `{DateParser} (req : request)
    (validSortOrder : string) : listing :=
  let groupId := paramsId req in
  let validStartDate := parseDate (qStartDate req) VNull in
  let validEndDate := parseDate (qEndDate req) VNull in
  let validSortBy := validateSortColumn (qSortBy req) salesSortColumns "date" in
  let b := {| conditions := ["ug.group_id = $1"];
              queryParams := [VStr groupId];
              paramIndex := 2 |} in
  let b := when (truthy validStartDate)
             (pushCondition "s.date >= " validStartDate) b in
  let b := when (truthy validEndDate)
             (pushCondition "s.date <= " validEndDate) b in
  let b := when (truthyQ (qUserId req))
             (pushCondition "s.user_id = " (ofQuery (qUserId req))) b in
  let pagination := getPaginationParams (qPage req) (qLimit req) in
  let query :=
    " SELECT s.id, s.user_id, u.name as user_name, s.amount, s.date FROM sales s JOIN user_groups ug ON s.user_id = ug.user_id JOIN users u ON s.user_id = u.id WHERE "
    +:+ join " AND " (conditions b)
    +:+ " ORDER BY s." +:+ validSortBy +:+ " " +:+ validSortOrder
    +:+ " LIMIT $" +:+ intToString (paramIndex b)
    +:+ " OFFSET $" +:+ intToString (paramIndex b + 1) +:+ " " in
  let queryParams :=
    queryParams b ++ [VInt (limit pagination); VInt (offset pagination)] in
  let countQuery :=
    " SELECT COUNT(*) FROM sales s JOIN user_groups ug ON s.user_id = ug.user_id WHERE "
    +:+ join " AND " (conditions b) +:+ " " in
  {| filterConditions := conditions b;
     listQuery := query;
     listParams := queryParams;
     countQuery := countQuery;
     countParams := slice0 (paramIndex b - 1) queryParams;
     listPagination := pagination;
     listBaseUrl := "/api/metrics/groups/" +:+ groupId +:+ "/sales";
     listFilters :=
       [ ("startDate", validStartDate);
         ("endDate", validEndDate);
         ("userId", ofQuery (qUserId req)) ] |}.

Definition getGroupSales `{DateParser} (pool : Pool) (req : request)
  : response * list call :=
  run (tryCatch
    (let groupId := paramsId req in
     if negb (nonEmpty groupId)
     then ret (errorResponse 400 "Group ID is required")
     else
       _ <- validateResourceExists pool "groups" groupId ;;
       validSortOrder <- attempt (validateSortOrder (qSortOrder req) "desc") ;;
       runListing pool (getGroupSalesPlan req validSortOrder))
    onError).

Definition getGroupSalesSummary `{DateParser} (pool : Pool) (req : request)
  : response * list call :=
  run (tryCatch
    (let groupId := paramsId req in
     if negb (nonEmpty groupId)
     then ret (errorResponse 400 "Group ID is required")
     else
       _ <- validateResourceExists pool "groups" groupId ;;
       let validStartDate := parseDate (qStartDate req) VNull in
       let validEndDate := parseDate (qEndDate req) VNull in
       let b := {| conditions := ["ug.group_id = $1"];
                   queryParams := [VStr groupId];
                   paramIndex := 2 |} in
       let b := when (truthy validStartDate)
                  (pushCondition "s.date >= " validStartDate) b in
       let b := when (truthy validEndDate)
                  (pushCondition "s.date <= " validEndDate) b in
       let query :=
         " SELECT COUNT(*) AS total_sales, SUM(s.amount) AS total_revenue, AVG(s.amount) AS average_sale, MIN(s.amount) AS min_sale, MAX(s.amount) AS max_sale, COUNT(DISTINCT s.user_id) AS active_users FROM sales s JOIN user_groups ug ON s.user_id = ug.user_id WHERE "
         +:+ join " AND " (conditions b) +:+ " " in
       result <- poolQuery pool query (queryParams b) ;;
       let userSalesQuery :=
         " SELECT u.id AS user_id, u.name AS user_name, u.role, COUNT(*) AS sales_count, SUM(s.amount) AS total_revenue, AVG(s.amount) AS average_sale FROM sales s JOIN user_groups ug ON s.user_id = ug.user_id JOIN users u ON s.user_id = u.id WHERE "
         +:+ join " AND " (conditions b)
         +:+ " GROUP BY u.id, u.name, u.role ORDER BY total_revenue DESC " in
       userSalesResult <- poolQuery pool userSalesQuery (queryParams b) ;;
       ret (json (VObj
         [ ("data", VObj [ ("summary", firstRow result);
                           ("user_breakdown", VArr userSalesResult) ]);
           ("meta", VObj [ ("filters",
              VObj [ ("startDate", validStartDate);
                     ("endDate", validEndDate) ]) ]);
           ("links", VObj
              [ ("self", VStr ("/api/metrics/groups/" +:+ groupId +:+ "/sales/summary"));
                ("sales", VStr ("/api/metrics/groups/" +:+ groupId +:+ "/sales")) ]) ])))
    onError).

Definition groupTrendsQuery : string :=
  " SELECT DATE_TRUNC($1, s.date) AS time_period, COUNT(*) AS sales_count, SUM(s.amount) AS total_revenue, AVG(s.amount) AS average_revenue, COUNT(DISTINCT s.user_id) AS active_users FROM sales s JOIN user_groups ug ON s.user_id = ug.user_id WHERE ug.group_id = $2 AND s.date BETWEEN $3 AND $4 GROUP BY DATE_TRUNC($1, s.date) ORDER BY time_period ".

Definition groupTopPerformersQuery : string :=
  " SELECT u.id, u.name, u.role, COUNT(*) AS sales_count, SUM(s.amount) AS total_revenue, AVG(s.amount) AS average_revenue, RANK() OVER (ORDER BY SUM(s.amount) DESC) AS rank FROM sales s JOIN user_groups ug ON s.user_id = ug.user_id JOIN users u ON s.user_id = u.id WHERE ug.group_id = $1 AND s.date BETWEEN $2 AND $3 GROUP BY u.id, u.name, u.role ORDER BY total_revenue DESC LIMIT 10 ".

Definition groupComparisonQuery : string :=
  " WITH group_metrics AS ( SELECT g.id AS group_id, g.name AS group_name, COUNT(s.id) AS sales_count, SUM(s.amount) AS total_revenue, AVG(s.amount) AS average_revenue, COUNT(DISTINCT s.user_id) AS active_users FROM groups g JOIN user_groups ug ON g.id = ug.group_id JOIN sales s ON ug.user_id = s.user_id WHERE s.date BETWEEN $1 AND $2 GROUP BY g.id, g.name ) SELECT gm.*, RANK() OVER (ORDER BY total_revenue DESC) AS revenue_rank, RANK() OVER (ORDER BY sales_count DESC) AS sales_rank, RANK() OVER (ORDER BY average_revenue DESC) AS avg_revenue_rank FROM group_metrics gm ORDER BY CASE WHEN gm.group_id = $3 THEN 0 ELSE 1 END, total_revenue DESC ".

Definition getGroupPerformance `{DateParser} (pool : Pool) (req : request)
  : response * list call :=
  run (tryCatch
    (let groupId := paramsId req in
     if negb (nonEmpty groupId)
     then ret (errorResponse 400 "Group ID is required")
     else
       _ <- validateResourceExists pool "groups" groupId ;;
       let validStartDate := parseDate (qStartDate req) (VStr "2021-01-01") in
       let validEndDate := parseDate (qEndDate req) (VStr "2021-12-31") in
       let validInterval := validateInterval (qInterval req) "month" in
       trendsResult <- poolQuery pool groupTrendsQuery
         [VStr validInterval; VStr groupId; validStartDate; validEndDate] ;;
       topPerformersResult <- poolQuery pool groupTopPerformersQuery
         [VStr groupId; validStartDate; validEndDate] ;;
       comparisonResult <- poolQuery pool groupComparisonQuery
         [validStartDate; validEndDate; VStr groupId] ;;
       ret (json (VObj
         [ ("data", VObj [ ("trends", VArr trendsResult);
                           ("top_performers", VArr topPerformersResult);
                           ("comparison", VArr comparisonResult) ]);
           ("meta", VObj [ ("filters",
              VObj [ ("startDate", validStartDate);
                     ("endDate", validEndDate);
                     ("interval", VStr validInterval) ]) ]);
           ("links", VObj
              [ ("self", VStr ("/api/metrics/groups/" +:+ groupId
                               +:+ "/performance?interval=" +:+ validInterval));
                ("group_sales", VStr ("/api/metrics/groups/" +:+ groupId +:+ "/sales")) ]) ])))
    onError).

(** *** getAllGroupsPerformance *)

Definition groupSortColumns : list string :=
  ["total_revenue"; "average_revenue"; "sales_count"; "active_users"; "name"].

(** [limit ? Number.parseInt(limit, 10) : 10]. *)
Definition validLimitOf (q : option string) : number :=
  if truthyQ q then
    match parseInt q with
    | Some z => Int z
    | None => NaN
    end
  else Int 10.

(** [interval && validIntervals.includes(interval) ? interval : 'month']. *)
Definition inlineInterval (interval : value) : string :=
  match interval with
  | VStr s =>
      if andb (truthy interval)
              (includes ["day"; "week"; "month"; "quarter"; "year"] s)
      then s else "month"
  | _ => "month"
  end.

Definition topGroupsQuery (req : request) (validSortOrder : string)
  : string :=
  let validSortBy :=
    validateSortColumn (qSortBy req) groupSortColumns "total_revenue" in
  " SELECT g.id, g.name, COUNT(s.id) AS sales_count, SUM(s.amount) AS total_revenue, AVG(s.amount) AS average_revenue, COUNT(DISTINCT s.user_id) AS active_users, COUNT(DISTINCT ug.user_id) AS total_users, MIN(s.date) AS first_sale_date, MAX(s.date) AS last_sale_date FROM groups g JOIN user_groups ug ON g.id = ug.group_id JOIN sales s ON ug.user_id = s.user_id WHERE s.date BETWEEN $1 AND $2 GROUP BY g.id, g.name ORDER BY "
  +:+ validSortBy +:+ " " +:+ validSortOrder +:+ " LIMIT $3 ".

Definition allGroupsTrendsQuery : string :=
  " SELECT DATE_TRUNC($1, s.date) AS time_period, COUNT(s.id) AS sales_count, SUM(s.amount) AS total_revenue, AVG(s.amount) AS average_revenue, COUNT(DISTINCT s.user_id) AS active_users, COUNT(DISTINCT ug.group_id) AS active_groups FROM sales s JOIN user_groups ug ON s.user_id = ug.user_id WHERE s.date BETWEEN $2 AND $3 GROUP BY DATE_TRUNC($1, s.date) ORDER BY time_period ".

Definition groupSizeQuery : string :=
  " WITH group_sizes AS ( SELECT g.id, g.name, COUNT(DISTINCT ug.user_id) AS user_count FROM groups g JOIN user_groups ug ON g.id = ug.group_id GROUP BY g.id, g.name ), group_performance AS ( SELECT g.id, SUM(s.amount) AS total_revenue, COUNT(s.id) AS sales_count FROM groups g JOIN user_groups ug ON g.id = ug.group_id JOIN sales s ON ug.user_id = s.user_id WHERE s.date BETWEEN $1 AND $2 GROUP BY g.id ) SELECT gs.user_count, COUNT(DISTINCT gs.id) AS group_count, AVG(gp.total_revenue) AS avg_revenue, AVG(gp.sales_count) AS avg_sales FROM group_sizes gs LEFT JOIN group_performance gp ON gs.id = gp.id GROUP BY gs.user_count ORDER BY gs.user_count ".

(** The three statements handed to [Promise.all], in order. *)
Definition allGroupsStatements `{DateParser} (req : request)
    (validSortOrder : string) : call * call * call :=
  let validStartDate := parseDate (qStartDate req) (VStr "2021-01-01") in
  let validEndDate := parseDate (qEndDate req) (VStr "2021-12-31") in
  let validInterval := inlineInterval (qInterval req) in
  let validLimit := validLimitOf (qLimit req) in
  ( {| text := topGroupsQuery req validSortOrder;
       values := [validStartDate; validEndDate; VNum validLimit] |},
    {| text := allGroupsTrendsQuery;
       values := [VStr validInterval; validStartDate; validEndDate] |},
    {| text := groupSizeQuery;
       values := [validStartDate; validEndDate] |} ).

Definition getAllGroupsPerformance `{DateParser} (pool : Pool) (req : request)
  : response * list call :=
  run (tryCatch
    (let validStartDate := parseDate (qStartDate req) (VStr "2021-01-01") in
     let validEndDate := parseDate (qEndDate req) (VStr "2021-12-31") in
     let validInterval := inlineInterval (qInterval req) in
     let validLimit := validLimitOf (qLimit req) in
     validSortOrder <- attempt (validateSortOrder (qSortOrder req) "desc") ;;
     let '(topGroups, trends, groupSize) :=
       allGroupsStatements req validSortOrder in
     results <- queryAll3 pool topGroups trends groupSize ;;
     let '(topGroupsResult, trendsResult, groupSizeResult) := results in
     ret (json (VObj
       [ ("data", VObj [ ("top_groups", VArr topGroupsResult);
                         ("trends", VArr trendsResult);
                         ("group_size_analysis", VArr groupSizeResult) ]);
         ("meta", VObj [ ("filters",
            VObj [ ("startDate", validStartDate);
                   ("endDate", validEndDate);
                   ("interval", VStr validInterval);
                   ("limit", VNum validLimit) ]) ]);
         ("links", VObj
            [ ("self", VStr ("/api/metrics/groups/performance?interval="
                             +:+ validInterval));
              ("groups_sales", VStr "/api/metrics/groups/sales") ]) ])))
    onErrorPlain).

End GroupController.

(** ** Reading a statement text

    The positional placeholders [$n] of a statement, in order of
    occurrence: a dollar sign followed by at least one digit. *)

Module Sql.

Fixpoint placeholders (s : string) : list Z :=
  match s with
  | EmptyString => []
  | String c r =>
      if Ascii.eqb c "$" then
        match digitsPrefix r with
        | Nil => placeholders r
        | d => Z.of_uint d :: placeholders r
        end
      else placeholders r
  end.

(** [hay.includes(needle)]. *)
Fixpoint contains (needle hay : string) : bool :=
  if String.prefix needle hay then true
  else
    match hay with
    | EmptyString => false
    | String _ r => contains needle r
    end.

(** [1; 2; ..; n]. *)
Definition upTo (n : nat) : list Z := map Z.of_nat (seq 1 n).

End Sql.

Import Sql.

(** ** Reading a link

    The query part of a link is the text between the first [?] and the
    first [#], cut at every [&] into [key=value] pairs.  The links of
    the controllers carry printed integers there, so nothing needs
    percent-decoding. *)

Module Url.

Fixpoint before (c : ascii) (s : string) : string :=
  match s with
  | EmptyString => EmptyString
  | String c' r => if Ascii.eqb c' c then EmptyString else String c' (before c r)
  end.

Fixpoint after (c : ascii) (s : string) : option string :=
  match s with
  | EmptyString => None
  | String c' r => if Ascii.eqb c' c then Some r else after c r
  end.

Fixpoint splitOn (c : ascii) (s : string) : list string :=
  match s with
  | EmptyString => [EmptyString]
  | String c' r =>
      if Ascii.eqb c' c then EmptyString :: splitOn c r
      else
        match splitOn c r with
        | x :: xs => String c' x :: xs
        | [] => [String c' EmptyString]
        end
  end.

Definition search (url : string) : string :=
  match after "?" (before "#" url) with
  | Some q => q
  | None => ""
  end.

(** The value of the first pair named [key]. *)
Fixpoint firstNamed (key : string) (pairs : list string) : option string :=
  match pairs with
  | [] => None
  | p :: rest =>
      if String.eqb (before "=" p) key
      then Some (match after "=" p with
                 | Some v => v
                 | None => ""
                 end)
      else firstNamed key rest
  end.

(** [new URL(url, base).searchParams.get(key)]. *)
Definition searchParam (key url : string) : option string :=
  firstNamed key (splitOn "&" (search url)).

End Url.

Import Url.

(** ** Resubmitting a listing response

    The request a client builds from the body of a listing response:
    [page] and [limit] as the query part of [links.self] gives them,
    every other query parameter from the echo in [meta.filters]; the
    path is the path of [links.self], with the id of the request that
    was answered.  The body travels as JSON, where [NaN] and the
    infinities arrive as [null] and an [undefined] member does not
    arrive: such a member is not sent back.  A string is sent back as it
    is, a number as a decimal literal denoting it.  Neither place holds
    a sort parameter. *)

Definition numberLiteral (n : number) : option string :=
  match n with
  | Int z => Some (intToString z)
  | Dec m e => Some (intToString m +:+ "e" +:+ intToString e)
  | NaN | Infinity _ => None
  end.

Definition echoToQuery (v : value) : option string :=
  match v with
  | VStr s => Some s
  | VNum n => numberLiteral n
  | _ => None
  end.

Definition requestFrom (id : string) (page limit : option string)
    (filters : value) : request :=
  {| paramsId := id;
     qPage := page;
     qLimit := limit;
     qStartDate := echoToQuery (get "startDate" filters);
     qEndDate := echoToQuery (get "endDate" filters);
     qUserId := echoToQuery (get "userId" filters);
     qGroupId := echoToQuery (get "groupId" filters);
     qMinAmount := echoToQuery (get "minAmount" filters);
     qMaxAmount := echoToQuery (get "maxAmount" filters);
     qSortBy := VUndefined;
     qSortOrder := VUndefined;
     qInterval := VUndefined;
     qRole := echoToQuery (get "role" filters) |}.

Definition resubmit (id : string) (body : value) : request :=
  let self :=
    match getPath ["links"; "self"] body with
    | VStr s => s
    | _ => ""
    end in
  requestFrom id (searchParam "page" self) (searchParam "limit" self)
    (getPath ["meta"; "filters"] body).

(** ** Sample engines, stores and requests *)

Module Samples.

(** A date parser that takes ISO calendar dates [YYYY-MM-DD] and the
    long form ["March 1, 2021"], as V8 does. *)
Definition isoDate (s : string) : bool :=
  match s with
  | String y1 (String y2 (String y3 (String y4 (String "-"
      (String m1 (String m2 (String "-" (String d1 (String d2 EmptyString))))))))) =>
      forallb isDigit [y1; y2; y3; y4; m1; m2; d1; d2]
  | _ => false
  end.

Definition sampleParser : DateParser :=
  {| dateParses := fun s => orb (isoDate s) (String.eqb s "March 1, 2021") |}.

Definition request0 : request :=
  {| paramsId := "7";
     qPage := None; qLimit := None; qStartDate := None; qEndDate := None;
     qUserId := None; qGroupId := None; qMinAmount := None;
     qMaxAmount := None; qSortBy := VUndefined; qSortOrder := VUndefined;
     qInterval := VUndefined; qRole := None |}.

(** A store without any row. *)
Definition emptyStore : Pool := fun _ _ => Some [].

(** Group 7 exists and has no sale in the window: the existence lookup
    finds it, every other statement finds nothing. *)
Definition idleGroupStore : Pool :=
  fun text _ =>
    if String.eqb text "SELECT * FROM groups WHERE id = $1"
    then Some [VObj [("id", VInt 7); ("name", VStr "Northeast")]]
    else Some [].

(** Two sales, [90.00] on 2021-06-01 and [10.00] on 2021-03-01, answering
    one-row pages: the cheapest sale under [ORDER BY s.amount asc], the
    most recent one under the default order. *)
Definition saleA : value :=
  VObj [("id", VInt 1); ("user_id", VInt 3); ("user_name", VStr "Ann");
        ("amount", VStr "90.00"); ("date", VStr "2021-06-01")].

Definition saleB : value :=
  VObj [("id", VInt 2); ("user_id", VInt 3); ("user_name", VStr "Ann");
        ("amount", VStr "10.00"); ("date", VStr "2021-03-01")].

Definition twoSalesStore : Pool :=
  fun text _ =>
    if contains "COUNT(*)" text then Some [VObj [("count", VStr "2")]]
    else if contains "ORDER BY s.amount asc" text then Some [saleB]
    else Some [saleA].

Definition weekRequest : request :=
  {| paramsId := "7";
     qPage := None; qLimit := None; qStartDate := None; qEndDate := None;
     qUserId := None; qGroupId := None; qMinAmount := None;
     qMaxAmount := None; qSortBy := VUndefined; qSortOrder := VUndefined;
     qInterval := VStr "week"; qRole := None |}.

Definition cheapestFirst : request :=
  {| paramsId := "";
     qPage := None; qLimit := Some "1"; qStartDate := None; qEndDate := None;
     qUserId := None; qGroupId := None; qMinAmount := None;
     qMaxAmount := None; qSortBy := VStr "amount"; qSortOrder := VStr "asc";
     qInterval := VUndefined; qRole := None |}.

Definition badMinAmount : request :=
  {| paramsId := "";
     qPage := None; qLimit := None; qStartDate := None; qEndDate := None;
     qUserId := None; qGroupId := None; qMinAmount := Some "abc";
     qMaxAmount := None; qSortBy := VUndefined; qSortOrder := VUndefined;
     qInterval := VUndefined; qRole := None |}.

Definition roleAndGroup : request :=
  {| paramsId := "";
     qPage := None; qLimit := None; qStartDate := None; qEndDate := None;
     qUserId := None; qGroupId := Some "7"; qMinAmount := None;
     qMaxAmount := None; qSortBy := VUndefined; qSortOrder := VUndefined;
     qInterval := VUndefined; qRole := Some "rep" |}.

Definition filteredRequest : request :=
  {| paramsId := "42";
     qPage := Some "2"; qLimit := Some "10";
     qStartDate := Some "2021-02-01"; qEndDate := Some "2021-02-28";
     qUserId := Some "42"; qGroupId := None; qMinAmount := Some "12.5";
     qMaxAmount := None; qSortBy := VUndefined; qSortOrder := VUndefined;
     qInterval := VUndefined; qRole := None |}.

Definition marchRequest : request :=
  {| paramsId := "";
     qPage := None; qLimit := None;
     qStartDate := Some "March 1, 2021"; qEndDate := None;
     qUserId := None; qGroupId := None; qMinAmount := None;
     qMaxAmount := None; qSortBy := VUndefined; qSortOrder := VUndefined;
     qInterval := VUndefined; qRole := None |}.

Definition downStore : Pool := fun _ _ => None.

Definition noId : request :=
  {| paramsId := "";
     qPage := None; qLimit := None; qStartDate := None; qEndDate := None;
     qUserId := None; qGroupId := None; qMinAmount := None;
     qMaxAmount := None; qSortBy := VUndefined; qSortOrder := VUndefined;
     qInterval := VUndefined; qRole := None |}.

Definition samplePrinter : NumberPrinter :=
  {| decToString := fun m e => intToString m +:+ "e" +:+ intToString e |}.


(** User 7 exists; every statement is answered, the aggregates with one
    row each. *)
Definition busyUserStore : Pool :=
  fun text _ =>
    if String.eqb text "SELECT * FROM users WHERE id = $1"
    then Some [VObj [("id", VInt 7); ("name", VStr "Ann"); ("role", VStr "rep")]]
    else Some [VObj [("total_sales", VStr "3")]].

(** Sale 5 of user 3, who belongs to two groups. *)
Definition saleRow : value :=
  VObj [("id", VInt 5); ("user_id", VInt 3); ("user_name", VStr "Ann");
        ("user_role", VStr "rep"); ("amount", VStr "90.00");
        ("date", VStr "2021-06-01")].

Definition oneSaleStore : Pool :=
  fun text vs =>
    if contains "FROM sales s" text then
      match vs with
      | [VStr "5"] => Some [saleRow]
      | _ => Some []
      end
    else Some [VObj [("id", VInt 1); ("name", VStr "Northeast")];
               VObj [("id", VInt 2); ("name", VStr "Key accounts")]].

Definition sale5 : request :=
  {| paramsId := "5";
     qPage := None; qLimit := None; qStartDate := None; qEndDate := None;
     qUserId := None; qGroupId := None; qMinAmount := None;
     qMaxAmount := None; qSortBy := VUndefined; qSortOrder := VUndefined;
     qInterval := VUndefined; qRole := None |}.

Definition sale999 : request :=
  {| paramsId := "999";
     qPage := None; qLimit := None; qStartDate := None; qEndDate := None;
     qUserId := None; qGroupId := None; qMinAmount := None;
     qMaxAmount := None; qSortBy := VUndefined; qSortOrder := VUndefined;
     qInterval := VUndefined; qRole := None |}.


Definition pageTwo : request :=
  {| paramsId := "42";
     qPage := Some "2"; qLimit := Some "10";
     qStartDate := Some "2021-02-01"; qEndDate := Some "2021-02-28";
     qUserId := Some "42"; qGroupId := None; qMinAmount := Some "12.5";
     qMaxAmount := None; qSortBy := VStr "amount"; qSortOrder := VStr "asc";
     qInterval := VUndefined; qRole := None |}.

Definition otherValues : request :=
  {| paramsId := "";
     qPage := Some "7"; qLimit := Some "3";
     qStartDate := Some "2021-05-01"; qEndDate := Some "2021-05-31";
     qUserId := Some "1; DROP TABLE sales"; qGroupId := None;
     qMinAmount := Some "oops";
     qMaxAmount := None; qSortBy := VStr "nonsense"; qSortOrder := VStr "DESC";
     qInterval := VUndefined; qRole := None |}.

(** User 42 exists and has 25 sales in the window; a page of them is two
    rows here. *)
Definition manySalesStore : Pool :=
  fun text _ =>
    if String.prefix "SELECT * FROM" text
    then Some [VObj [("id", VInt 42); ("name", VStr "Ann")]]
    else if contains "COUNT(*)" text then Some [VObj [("count", VStr "25")]]
    else Some [saleA; saleB].


End Samples.

Import Samples.

(** ** Notions used in the statements *)

(** Appending two numerals, and whether a text starts with a digit. *)
Fixpoint catDigits (d d' : uint) : uint :=
  match d with
  | Nil => d'
  | D0 r => D0 (catDigits r d')
  | D1 r => D1 (catDigits r d')
  | D2 r => D2 (catDigits r d')
  | D3 r => D3 (catDigits r d')
  | D4 r => D4 (catDigits r d')
  | D5 r => D5 (catDigits r d')
  | D6 r => D6 (catDigits r d')
  | D7 r => D7 (catDigits r d')
  | D8 r => D8 (catDigits r d')
  | D9 r => D9 (catDigits r d')
  end.

Definition startsWithDigit (s : string) : bool :=
  match s with
  | String c _ => isDigit c
  | EmptyString => false
  end.

(** A listing whose count statement is consistent with its listing
    statement: the listing parameters are the count parameters followed
    by the two pagination values, there is one count parameter per
    filter condition, the conditions are numbered from [$1] in order,
    the count statement references [$1 .. $n], the listing statement
    [$1 .. $n+2], and both contain the same WHERE text. *)
Definition countConsistent (l : listing) : Prop :=
  let n := List.length (filterConditions l) in
  let whereText := join " AND " (filterConditions l) in
  listParams l
  = countParams l ++ [VInt (limit (listPagination l));
                      VInt (offset (listPagination l))] /\
  List.length (countParams l) = n /\
  placeholders whereText = upTo n /\
  placeholders (countQuery l) = upTo n /\
  placeholders (listQuery l) = upTo (n + 2) /\
  contains whereText (listQuery l) = true /\
  contains whereText (countQuery l) = true.

(** The statements a listing controller sends once it has its plan:
    the listing statement, then, when the store has answered it, the
    count statement with the count parameters. *)
Definition listingCalls (pool : Pool) (l : listing) : list call :=
  Call (listQuery l) (listParams l)
  :: match pool (listQuery l) (listParams l) with
     | Some _ => [Call (countQuery l) (countParams l)]
     | None => []
     end.



(** A number as [mkNumber] builds it; a filter value that has a text
    when it is echoed; a request whose sort parameters resolve to the
    defaults of its endpoint. *)
Definition canonical (n : number) : Prop :=
  match n with
  | Int z => overflows z 0 = false
  | Dec m e =>
      e < 0 /\ m mod 10 <> 0 /\
      overflows m e = false /\ underflows m e = false
  | _ => True
  end.

Definition echoable (v : value) : Prop :=
  match v with
  | VNum NaN | VNum (Infinity _) => False
  | _ => True
  end.

Definition sortIsDefault (cols : list string) (d o : string) (req : request)
  : Prop :=
  validateSortColumn (qSortBy req) cols d = d /\
  validateSortOrder (qSortOrder req) o = inr o.

(** The integers on which the engine's doubles are exact, and a
    pagination whose page, limit and offset are among them. *)
Definition safeInteger (z : Z) : Prop :=
  - (2 ^ 53 - 1) <= z <= 2 ^ 53 - 1.

Definition safeWindow (pg : pagination) : Prop :=
  safeInteger (page pg) /\ safeInteger (limit pg) /\ safeInteger (offset pg).

(** A path segment that ends neither the path nor the query of a link
    it is spliced into. *)
Fixpoint lacks (c : ascii) (s : string) : bool :=
  match s with
  | EmptyString => true
  | String c' r => andb (negb (Ascii.eqb c' c)) (lacks c r)
  end.

Definition plainSegment (s : string) : Prop :=
  lacks "?" s = true /\ lacks "#" s = true.

(** A request that is reproduced by resubmitting its listing response:
    when [controller] answers it with 200, the request built from the
    body of that response gets the same statements sent, with the same
    values, and the same response. *)
Definition reproduced (controller : request -> response * list call)
    (req : request) : Prop :=
  let first := controller req in
  status (fst first) = 200 ->
  controller (resubmit (paramsId req) (body (fst first))) = first.

(** ** Notions used in the further properties *)

(** What a controller may do to the log and how it may end: every
    statement it adds satisfies [I]; it returns a value satisfying [P] or
    throws an error satisfying [E]. *)
Definition triple {A} (I : call -> Prop) (E : error -> Prop)
    (m : M A) (P : A -> Prop) : Prop :=
  forall log, Forall I log ->
    Forall I (snd (m log)) /\
    match fst (m log) with
    | inr a => P a
    | inl e => E e
    end.

(** The error of the existence guard for an entity kind, and the ways a
    request for that kind may end. *)
Definition notFoundError (kind : string) : error :=
  {| statusCode := Some 404; message := kind +:+ " not found" |}.

Definition guardThrows (kind : string) (e : error) : Prop :=
  statusCode e = None \/ e = notFoundError kind.

Definition expectedOutcome (kind : string) (r : response) : Prop :=
  status r = 200 \/
  r = errorResponse 400 (kind +:+ " ID is required") \/
  r = errorResponse 404 (kind +:+ " not found") \/
  r = errorResponse 500 "Internal server error".



(** A builder whose next index is one past the values bound so far. *)
Definition wellNumbered (b : builder) : Prop :=
  paramIndex b = Z.of_nat (List.length (queryParams b)) + 1.

Fixpoint noDollar (s : string) : bool :=
  match s with
  | EmptyString => true
  | String c r => andb (negb (Ascii.eqb c "$")) (noDollar r)
  end.

(** Two requests with the same path id and the same filter values; they
    may differ in page, limit, sort column and sort order. *)
Definition sameFilters (a b : request) : Prop :=
  paramsId a = paramsId b /\
  qStartDate a = qStartDate b /\ qEndDate a = qEndDate b /\
  qUserId a = qUserId b /\ qGroupId a = qGroupId b /\
  qMinAmount a = qMinAmount b /\ qMaxAmount a = qMaxAmount b /\
  qRole a = qRole b.

(** Which filters of the sales listing are active. *)
Definition activeFilters `{DateParser} (req : request) : list bool :=
  [ truthy (parseDate (qStartDate req) VNull);
    truthy (parseDate (qEndDate req) VNull);
    truthyQ (qUserId req);
    notNull (SalesController.validAmount (qMinAmount req));
    notNull (SalesController.validAmount (qMaxAmount req));
    truthyQ (qGroupId req) ].

Definition countTrue (flags : list bool) : nat :=
  List.length (filter (fun f => f) flags).

(** Two requests with the same active filters of the sales listing and
    the same resolved sort. *)
Definition sameShape `{DateParser} (a b : request) : Prop :=
  activeFilters a = activeFilters b /\
  validateSortColumn (qSortBy a) SalesController.validSortColumns "date"
  = validateSortColumn (qSortBy b) SalesController.validSortColumns "date" /\
  validateSortOrder (qSortOrder a) "desc"
  = validateSortOrder (qSortOrder b) "desc".

(** * Properties *)

(** ** Decimal numerals: printing and reading back *)

Section Numerals.

Lemma catDigits_nil (d : uint) : catDigits d Nil = d.
Proof. induction d; simpl; congruence. Qed.

Lemma digitsPrefix_print (d : uint) (s : string) :
  digitsPrefix (NilEmpty.string_of_uint d +:+ s) = catDigits d (digitsPrefix s).
Proof.
  induction d; simpl; try (rewrite IHd); reflexivity.
Qed.

Lemma dropDigits_print (d : uint) (s : string) :
  dropDigits (NilEmpty.string_of_uint d +:+ s) = dropDigits s.
Proof.
  induction d; simpl; auto.
Qed.

Lemma append_empty (s : string) : s +:+ "" = s.
Proof. induction s; simpl; congruence. Qed.

Lemma append_assoc (a b c : string) : (a +:+ b) +:+ c = a +:+ (b +:+ c).
Proof. induction a; simpl; congruence. Qed.

Lemma digitsPrefix_print_all (d : uint) :
  digitsPrefix (NilEmpty.string_of_uint d) = d.
Proof.
  rewrite <- (append_empty (NilEmpty.string_of_uint d)).
  rewrite digitsPrefix_print. apply catDigits_nil.
Qed.

(** The numeral of a positive number: it is not empty, it starts with a
    digit and it reads back as the number. *)
Lemma pos_numeral_nonnil (p : positive) : Pos.to_uint p <> Nil.
Proof.
  intro E. pose proof (DecimalPos.Unsigned.of_to p) as H.
  rewrite E in H. discriminate H.
Qed.

Lemma of_uint_to_uint (p : positive) : Z.of_uint (Pos.to_uint p) = Z.pos p.
Proof.
  unfold Z.of_uint. rewrite DecimalPos.Unsigned.of_to. reflexivity.
Qed.

Lemma print_startsWithDigit (d : uint) (s : string) :
  d <> Nil -> startsWithDigit (NilEmpty.string_of_uint d +:+ s) = true.
Proof. destruct d; simpl; congruence. Qed.

(** A text that starts with a digit or a minus sign has no white space
    to trim. *)
Lemma trimStart_none (s : string) : skipWhiteSpace s = None -> trimStart s = s.
Proof.
  intro H. unfold trimStart. destruct s as [|c r]; [reflexivity|].
  cbn [String.length trimStartWithin]. rewrite H. reflexivity.
Qed.

Lemma trimStart_minus (r : string) : trimStart (String "-" r) = String "-" r.
Proof. apply trimStart_none. reflexivity. Qed.

Lemma startsWithDigit_plain (s : string) :
  startsWithDigit s = true ->
  trimStart s = s /\ signOf s = (false, s) /\ String.prefix "Infinity" s = false.
Proof.
  destruct s as [|c r]; simpl; [discriminate|].
  destruct c as [[] [] [] [] [] [] [] []]; simpl; try discriminate;
    intros _; (split; [apply trimStart_none; reflexivity | auto]).
Qed.

(** The text of an integer: an optional minus sign and the numeral of
    its absolute value. *)
Lemma intToString_cases (z : Z) :
  exists d, d <> Nil /\ Z.of_uint d = Z.abs z /\
    intToString z =
      (if Z.ltb z 0 then "-" else "") +:+ NilEmpty.string_of_uint d.
Proof.
  destruct z as [|p|p].
  - exists (D0 Nil). repeat split; congruence.
  - exists (Pos.to_uint p). split; [apply pos_numeral_nonnil|].
    split; [apply of_uint_to_uint|].
    unfold intToString. simpl. unfold NilZero.string_of_uint.
    pose proof (pos_numeral_nonnil p).
    destruct (Pos.to_uint p); congruence.
  - exists (Pos.to_uint p). split; [apply pos_numeral_nonnil|].
    split; [apply of_uint_to_uint|].
    unfold intToString. simpl. unfold NilZero.string_of_uint.
    pose proof (pos_numeral_nonnil p).
    destruct (Pos.to_uint p); congruence.
Qed.

Lemma readNumeral (negative : bool) (d : uint) :
  d <> Nil -> numeral negative d = Some (signed negative (Z.of_uint d)).
Proof. destruct d; simpl; congruence. Qed.

Lemma parseInt_intToString (z : Z) :
  parseInt (Some (intToString z)) = Some z.
Proof.
  destruct (intToString_cases z) as (d & Hd & Hz & ->).
  unfold parseInt.
  destruct (Z.ltb_spec z 0) as [Hneg | Hpos].
  - cbn [append]. rewrite trimStart_minus. cbn [signOf].
    rewrite digitsPrefix_print_all, (readNumeral true d Hd), Hz.
    unfold signed. f_equal. lia.
  - cbn [append].
    pose proof (print_startsWithDigit d "" Hd) as Hs.
    rewrite append_empty in Hs.
    destruct (startsWithDigit_plain _ Hs) as (-> & -> & _).
    rewrite digitsPrefix_print_all, (readNumeral false d Hd), Hz.
    unfold signed. f_equal. lia.
Qed.

End Numerals.

(** ** Pagination (lib/utils.js) *)

Section Pagination.

Lemma orElse_nonzero (x : option Z) (d : Z) : d <> 0 -> orElse x d <> 0.
Proof.
  intro Hd. unfold orElse. destruct x as [z|]; [|assumption].
  destruct (Z.eqb_spec z 0); assumption.
Qed.

Lemma page_nonzero (rawPage rawLimit : option string) :
  page (getPaginationParams rawPage rawLimit) <> 0.
Proof. simpl. apply orElse_nonzero. discriminate. Qed.

Lemma limit_nonzero (rawPage rawLimit : option string) :
  limit (getPaginationParams rawPage rawLimit) <> 0.
Proof. simpl. apply orElse_nonzero. discriminate. Qed.

(** [ceilDiv] is the ceiling of the quotient: the least [n] whose
    multiple of the limit reaches the total. *)
Lemma ceilDiv_ceiling (t l : Z) :
  l <> 0 ->
  exists n, ceilDiv (Some t) l = IFin n /\
    (0 < l -> (n - 1) * l < t <= n * l) /\
    (l < 0 -> n * l <= t < (n - 1) * l).
Proof.
  intro Hl. exists (- ((- t) / l)). unfold ceilDiv.
  destruct (Z.eqb_spec l 0) as [E | _]; [contradiction|].
  split; [reflexivity|].
  pose proof (Z.div_mod (- t) l Hl) as Hdm.
  split; intro Hs.
  - pose proof (Z.mod_pos_bound (- t) l Hs). nia.
  - pose proof (Z.mod_neg_bound (- t) l Hs). nia.
Qed.

(** A page that resolves again to itself when it is read back from a
    link. *)
Lemma resolved_page_reads_back (z : Z) :
  z <> 0 -> orElse (parseInt (Some (intToString z))) 1 = z.
Proof.
  intro Hz. rewrite parseInt_intToString. unfold orElse.
  destruct (Z.eqb_spec z 0); congruence.
Qed.

End Pagination.



(** C4 (as stated): when [pages = 0] the last link points at page 1.
    An empty listing with limit 10 has [pages = 0] and a last link that
    carries [page=0]. *)
Lemma formatPaginatedResponse_last_of_empty :
  let r := formatPaginatedResponse (VArr [])
             (getPaginationParams None (Some "10")) (Some 0)
             "/api/metrics/sales" [("filters", VObj [])] in
  getPath ["meta"; "pagination"; "pages"] r = VInt 0 /\
  getPath ["links"; "last"] r = VStr "/api/metrics/sales?page=0&limit=10" /\
  ~ (getPath ["links"; "last"] r = VStr "/api/metrics/sales?page=1&limit=10").
Proof. vm_compute. repeat split. discriminate. Qed.

(** C4 (amended): for a listing response built from page [p], a limit
    [l] other than zero and a total count [T], [pages] is the ceiling of
    [T / l]; the next link is present iff [p < pages], the prev link iff
    [p > 1]; first and last are always present, first carrying page 1 and
    last carrying [page=<pages>].  When [pages = 0] the last link so
    carries [page=0], which the pagination calculator resolves to page 1
    when the link is followed. *)
Theorem formatPaginatedResponse_links
    (data filters : value) (pg : pagination) (T : Z) (baseUrl : string) :
  limit pg <> 0 ->
  let r := formatPaginatedResponse data pg (Some T) baseUrl
             [("filters", filters)] in
  exists pages,
    ((0 < limit pg -> (pages - 1) * limit pg < T <= pages * limit pg) /\
     (limit pg < 0 -> pages * limit pg <= T < (pages - 1) * limit pg)) /\
    getPath ["meta"; "pagination"; "pages"] r = VInt pages /\
    (getPath ["links"; "next"] r <> VNull <-> page pg < pages) /\
    (getPath ["links"; "prev"] r <> VNull <-> 1 < page pg) /\
    getPath ["links"; "first"] r = VStr (pageLink baseUrl "1" (limit pg)) /\
    getPath ["links"; "last"] r
      = VStr (pageLink baseUrl (intToString pages) (limit pg)) /\
    (pages = 0 ->
     page (getPaginationParams (Some (intToString pages))
                               (Some (intToString (limit pg)))) = 1).
Proof.
  intros Hl r.
  destruct (ceilDiv_ceiling T (limit pg) Hl) as (n & Hn & Hpos & Hneg).
  exists n. subst r. unfold formatPaginatedResponse. rewrite Hn.
  split; [split; assumption|].
  cbn [getPath get lookup String.eqb Ascii.eqb Bool.eqb spread fold_left
       setField fst snd integralToNumber integralToString ltIntegral].
  split; [reflexivity|].
  split.
  { destruct (Z.ltb_spec (page pg) n); split; intro H';
      try lia; try discriminate; congruence. }
  split.
  { destruct (Z.ltb_spec 1 (page pg)); split; intro H';
      try lia; try discriminate; congruence. }
  split; [reflexivity|]. split; [reflexivity|].
  intros ->. reflexivity.
Qed.

Lemma formatPaginatedResponse_links_witness :
  exists pages,
    getPath ["meta"; "pagination"; "pages"]
      (formatPaginatedResponse (VArr []) (getPaginationParams (Some "2") (Some "10"))
         (Some 25) "/api/metrics/users/42/sales" [("filters", VNull)])
    = VInt pages /\ pages = 3.
Proof.
  destruct (formatPaginatedResponse_links (VArr []) VNull
              (getPaginationParams (Some "2") (Some "10")) 25
              "/api/metrics/users/42/sales")
    as (pages & (Hpos & _) & Hpages & _).
  - vm_compute. discriminate.
  - exists pages. split; [exact Hpages|].
    change (limit (getPaginationParams (Some "2") (Some "10"))) with 10 in Hpos.
    lia.
Defined.

(** ** Allow-list validators (lib/validations.js) *)

Section AllowLists.

Lemma includes_In (xs : list string) (x : string) :
  includes xs x = true <-> In x xs.
Proof.
  unfold includes. rewrite existsb_exists. split.
  - intros (y & Hy & E). apply String.eqb_eq in E. congruence.
  - intro H. exists x. split; [assumption | apply String.eqb_refl].
Qed.



Lemma validateSortColumn_member (v : value) (cols : list string)
    (d : string) :
  In d cols -> In (validateSortColumn v cols d) cols.
Proof.
  intro Hd. unfold validateSortColumn. destruct v as [| | |s| |]; try assumption.
  destruct (truthy (VStr s)); cbn [andb]; [|assumption].
  destruct (includes cols s) eqn:E; [|assumption].
  apply includes_In. assumption.
Qed.

Lemma validateSortOrder_member (v : value) (d r : string) :
  In d validOrders -> validateSortOrder v d = inr r -> In r validOrders.
Proof.
  intros Hd. unfold validateSortOrder.
  destruct (truthy v); [|intro E; injection E as <-; assumption].
  destruct v as [| | |s| |]; try discriminate.
  destruct (includes validOrders (toLowerCase s)) eqn:Ei;
    intro E; injection E as <-; [apply includes_In|]; assumption.
Qed.

(** What the order validator throws is a [TypeError]: it carries no
    [statusCode]. *)
Lemma validateSortOrder_throws (v : value) (d : string) (e : error) :
  validateSortOrder v d = inl e -> statusCode e = None.
Proof.
  unfold validateSortOrder. destruct (truthy v); [|discriminate].
  destruct v; try discriminate; intro E; injection E as <-; reflexivity.
Qed.



End AllowLists.

(** ** What a controller sends *)

Section ExistenceGuard.

Variable pool : Pool.
Variable id : string.

Lemma guard_rejects_user (log : list call) :
  pool "SELECT * FROM users WHERE id = $1" [VStr id] = Some [] ->
  validateResourceExists pool "users" id log
  = (inl {| statusCode := Some 404; message := "User not found" |},
     log ++ [Call "SELECT * FROM users WHERE id = $1" [VStr id]]).
Proof.
  intro Hrows. unfold validateResourceExists, bind, poolQuery.
  cbn [append]. rewrite Hrows. reflexivity.
Qed.

Lemma guard_rejects_group (log : list call) :
  pool "SELECT * FROM groups WHERE id = $1" [VStr id] = Some [] ->
  validateResourceExists pool "groups" id log
  = (inl {| statusCode := Some 404; message := "Group not found" |},
     log ++ [Call "SELECT * FROM groups WHERE id = $1" [VStr id]]).
Proof.
  intro Hrows. unfold validateResourceExists, bind, poolQuery.
  cbn [append]. rewrite Hrows. reflexivity.
Qed.

Lemma guard_accepts (table : string) (log : list call) (g : value)
    (rest : list value) :
  pool ("SELECT * FROM " +:+ table +:+ " WHERE id = $1") [VStr id]
    = Some (g :: rest) ->
  validateResourceExists pool table id log
  = (inr g,
     log ++ [Call ("SELECT * FROM " +:+ table +:+ " WHERE id = $1") [VStr id]]).
Proof.
  intro Hrows. unfold validateResourceExists, bind, poolQuery.
  rewrite Hrows. reflexivity.
Qed.

Lemma guard_fails (table : string) (log : list call) :
  pool ("SELECT * FROM " +:+ table +:+ " WHERE id = $1") [VStr id] = None ->
  validateResourceExists pool table id log
  = (inl (plainError "query failed"),
     log ++ [Call ("SELECT * FROM " +:+ table +:+ " WHERE id = $1") [VStr id]]).
Proof.
  intro Hrows. unfold validateResourceExists, bind, poolQuery.
  rewrite Hrows. reflexivity.
Qed.

Lemma guard_accepts_group (log : list call) (g : value) (rest : list value) :
  pool "SELECT * FROM groups WHERE id = $1" [VStr id] = Some (g :: rest) ->
  validateResourceExists pool "groups" id log
  = (inr g, log ++ [Call "SELECT * FROM groups WHERE id = $1" [VStr id]]).
Proof. apply (guard_accepts "groups"). Qed.

Lemma guard_accepts_user (log : list call) (g : value) (rest : list value) :
  pool "SELECT * FROM users WHERE id = $1" [VStr id] = Some (g :: rest) ->
  validateResourceExists pool "users" id log
  = (inr g, log ++ [Call "SELECT * FROM users WHERE id = $1" [VStr id]]).
Proof. apply (guard_accepts "users"). Qed.

(** The statements of a listing: the listing statement, then, if that
    one is answered, the count statement with the count parameters. *)
Lemma runListing_log (l : listing) (log : list call) :
  snd (runListing pool l log) = log ++ listingCalls pool l.
Proof.
  unfold runListing, listingCalls, bind, poolQuery.
  destruct (pool (listQuery l) (listParams l)) as [rows|]; [|reflexivity].
  destruct (pool (countQuery l) (countParams l)) as [crows|]; simpl.
  - rewrite <- app_assoc. destruct crows as [|[] ?]; reflexivity.
  - rewrite <- app_assoc. reflexivity.
Qed.


(** A controller that has its sort order runs on with it; one whose
    order validator throws ends in its [catch] block. *)
Lemma run_log (m : M response) (handler : error -> response) :
  snd (run (tryCatch m handler)) = snd (m []).
Proof.
  unfold run, tryCatch. destruct (m []) as [[e | r] log]; reflexivity.
Qed.

Lemma attempt_returns {A B} (r : error + A) (a : A) (k : A -> M B)
    (log : list call) :
  r = inr a -> bind (attempt r) k log = k a log.
Proof. intros ->. reflexivity. Qed.

Lemma attempt_throws {A B} (r : error + A) (e : error) (k : A -> M B)
    (log : list call) :
  r = inl e -> bind (attempt r) k log = (inl e, log).
Proof. intros ->. reflexivity. Qed.

End ExistenceGuard.

Ltac guarded_controller Hid Hguard :=
  unfold run, tryCatch, bind; rewrite Hid; cbn [negb];
  rewrite Hguard; reflexivity.

(** ** The plans of the listing controllers *)

Ltac sort_cases cols q d :=
  let Hc := fresh "Hc" in
  assert (Hc : In d cols) by (cbv; tauto);
  apply (validateSortColumn_member q cols d) in Hc;
  revert Hc; generalize (validateSortColumn q cols d);
  let c := fresh "c" in
  intros c Hc; cbv in Hc;
  repeat (destruct Hc as [Hc | Hc]; [subst c | ]); try contradiction.

Ltac order_cases Ho :=
  cbv in Ho;
  repeat (destruct Ho as [Ho | Ho]; [subst | ]); try contradiction.

Lemma listSalesPlan_consistent `{DateParser} (req : request) (o : string) :
  In o validOrders -> countConsistent (SalesController.listSalesPlan req o).
Proof.
  intro Ho.
  unfold countConsistent, SalesController.listSalesPlan.
  cbn [filterConditions listQuery listParams countQuery countParams
       listPagination].
  generalize (getPaginationParams (qPage req) (qLimit req)) as pg.
  generalize (parseDate (qStartDate req) VNull) as sd.
  generalize (parseDate (qEndDate req) VNull) as ed.
  generalize (SalesController.validAmount (qMinAmount req)) as lo.
  generalize (SalesController.validAmount (qMaxAmount req)) as hi.
  generalize (qUserId req) as u. generalize (qGroupId req) as g.
  intros g u hi lo ed sd pg.
  sort_cases SalesController.validSortColumns (qSortBy req) "date".
  all: order_cases Ho.
  all: destruct (truthy sd), (truthy ed), (truthyQ u), (notNull lo),
         (notNull hi), (truthyQ g).
  all: repeat match goal with |- _ /\ _ => split end; vm_compute; reflexivity.
Qed.

Lemma getUserSalesPlan_consistent `{DateParser} (req : request) (o : string) :
  In o validOrders -> countConsistent (UserController.getUserSalesPlan req o).
Proof.
  intro Ho.
  unfold countConsistent, UserController.getUserSalesPlan.
  cbn [filterConditions listQuery listParams countQuery countParams
       listPagination].
  generalize (getPaginationParams (qPage req) (qLimit req)) as pg.
  generalize (parseDate (qStartDate req) VNull) as sd.
  generalize (parseDate (qEndDate req) VNull) as ed.
  generalize (paramsId req) as id.
  intros id ed sd pg.
  sort_cases UserController.validSortColumns (qSortBy req) "date".
  all: order_cases Ho.
  all: destruct (truthy sd), (truthy ed).
  all: repeat match goal with |- _ /\ _ => split end; vm_compute; reflexivity.
Qed.

Lemma getGroupUsersPlan_consistent (req : request) (o : string) :
  In o validOrders -> countConsistent (GroupController.getGroupUsersPlan req o).
Proof.
  intro Ho.
  unfold countConsistent, GroupController.getGroupUsersPlan.
  cbn [filterConditions listQuery listParams countQuery countParams
       listPagination].
  generalize (getPaginationParams (qPage req) (qLimit req)) as pg.
  generalize (qRole req) as r. generalize (paramsId req) as id.
  intros id r pg.
  sort_cases GroupController.userSortColumns (qSortBy req) "name".
  all: order_cases Ho.
  all: destruct (truthyQ r).
  all: repeat match goal with |- _ /\ _ => split end; vm_compute; reflexivity.
Qed.

Lemma getGroupSalesPlan_consistent `{DateParser} (req : request) (o : string) :
  In o validOrders -> countConsistent (GroupController.getGroupSalesPlan req o).
Proof.
  intro Ho.
  unfold countConsistent, GroupController.getGroupSalesPlan.
  cbn [filterConditions listQuery listParams countQuery countParams
       listPagination].
  generalize (getPaginationParams (qPage req) (qLimit req)) as pg.
  generalize (parseDate (qStartDate req) VNull) as sd.
  generalize (parseDate (qEndDate req) VNull) as ed.
  generalize (qUserId req) as u. generalize (paramsId req) as id.
  intros id u ed sd pg.
  sort_cases GroupController.salesSortColumns (qSortBy req) "date".
  all: order_cases Ho.
  all: destruct (truthy sd), (truthy ed), (truthyQ u).
  all: repeat match goal with |- _ /\ _ => split end; vm_compute; reflexivity.
Qed.

(** ** The ORDER BY clause *)



Section OrderBy.

Context `{DateParser}.
Variable pool : Pool.
Variable req : request.









End OrderBy.



(** ** Existence guard *)

(** C3: for every entity-scoped request (user sales, summary and
    performance; group users, sales, summary and performance) with a
    routed, hence non-empty, path id for which the existence lookup
    returns no row, the response is 404 with the message naming the
    entity kind, and the existence lookup is the only statement sent to
    the store. *)
Theorem missing_entity_is_404 `{DateParser} (pool : Pool) (req : request) :
  nonEmpty (paramsId req) = true ->
  (pool "SELECT * FROM users WHERE id = $1" [VStr (paramsId req)] = Some [] ->
   let notFound :=
     (errorResponse 404 "User not found",
      [Call "SELECT * FROM users WHERE id = $1" [VStr (paramsId req)]]) in
   UserController.getUserSales pool req = notFound /\
   UserController.getUserSalesSummary pool req = notFound /\
   UserController.getUserPerformance pool req = notFound) /\
  (pool "SELECT * FROM groups WHERE id = $1" [VStr (paramsId req)] = Some [] ->
   let notFound :=
     (errorResponse 404 "Group not found",
      [Call "SELECT * FROM groups WHERE id = $1" [VStr (paramsId req)]]) in
   GroupController.getGroupUsers pool req = notFound /\
   GroupController.getGroupSales pool req = notFound /\
   GroupController.getGroupSalesSummary pool req = notFound /\
   GroupController.getGroupPerformance pool req = notFound).
Proof.
  intro Hid. split; intros Hrows notFound; subst notFound.
  - pose proof (fun log => guard_rejects_user pool (paramsId req) log Hrows) as G.
    repeat split.
    + unfold UserController.getUserSales. guarded_controller Hid G.
    + unfold UserController.getUserSalesSummary. guarded_controller Hid G.
    + unfold UserController.getUserPerformance. guarded_controller Hid G.
  - pose proof (fun log => guard_rejects_group pool (paramsId req) log Hrows) as G.
    repeat split.
    + unfold GroupController.getGroupUsers. guarded_controller Hid G.
    + unfold GroupController.getGroupSales. guarded_controller Hid G.
    + unfold GroupController.getGroupSalesSummary. guarded_controller Hid G.
    + unfold GroupController.getGroupPerformance. guarded_controller Hid G.
Qed.

Lemma missing_entity_is_404_witness :
  nonEmpty (paramsId request0) = true /\
  emptyStore "SELECT * FROM users WHERE id = $1" [VStr "7"] = Some [] /\
  @UserController.getUserPerformance sampleParser emptyStore request0
  = (errorResponse 404 "User not found",
     [Call "SELECT * FROM users WHERE id = $1" [VStr "7"]]) /\
  @GroupController.getGroupPerformance sampleParser emptyStore request0
  = (errorResponse 404 "Group not found",
     [Call "SELECT * FROM groups WHERE id = $1" [VStr "7"]]).
Proof.
  destruct (@missing_entity_is_404 sampleParser emptyStore request0 eq_refl)
    as (Husers & Hgroups).
  split; [reflexivity|]. split; [reflexivity|].
  split.
  - apply (Husers eq_refl).
  - apply (Hgroups eq_refl).
Defined.

(** ** Group performance over an empty window *)

(** C9 (as stated): the body carries [data.summary.total_sales = 0].
    For group 7 without a sale in the window the response is 200 with
    [data.trends = []], but [data] has no [summary] member at all. *)
Lemma getGroupPerformance_has_no_summary :
  let r := fst (@GroupController.getGroupPerformance sampleParser
                  idleGroupStore weekRequest) in
  status r = 200 /\
  getPath ["data"; "trends"] (body r) = VArr [] /\
  has "summary" (get "data" (body r)) = false /\
  ~ (getPath ["data"; "summary"; "total_sales"] (body r) = VInt 0) /\
  ~ (getPath ["data"; "summary"; "total_sales"] (body r) = VStr "0").
Proof. vm_compute. repeat split; discriminate. Qed.

(** C9 (amended): for a group performance request with [interval=week]
    on an existing group whose trend and top-performer statements find
    no row in the window, the response is HTTP 200 with [data.trends = []]
    and [data.top_performers = []]; [data] consists of [trends],
    [top_performers] and [comparison] and has no [summary] member. *)
Theorem getGroupPerformance_empty_window `{DateParser}
    (pool : Pool) (req : request) (g : value) (gs comparison : list value) :
  let id := paramsId req in
  let validStartDate := parseDate (qStartDate req) (VStr "2021-01-01") in
  let validEndDate := parseDate (qEndDate req) (VStr "2021-12-31") in
  nonEmpty id = true ->
  qInterval req = VStr "week" ->
  pool "SELECT * FROM groups WHERE id = $1" [VStr id] = Some (g :: gs) ->
  pool GroupController.groupTrendsQuery
       [VStr "week"; VStr id; validStartDate; validEndDate] = Some [] ->
  pool GroupController.groupTopPerformersQuery
       [VStr id; validStartDate; validEndDate] = Some [] ->
  pool GroupController.groupComparisonQuery
       [validStartDate; validEndDate; VStr id] = Some comparison ->
  let r := fst (GroupController.getGroupPerformance pool req) in
  status r = 200 /\
  get "data" (body r)
  = VObj [ ("trends", VArr []); ("top_performers", VArr []);
           ("comparison", VArr comparison) ] /\
  getPath ["data"; "trends"] (body r) = VArr [] /\
  has "summary" (get "data" (body r)) = false /\
  getPath ["meta"; "filters"; "interval"] (body r) = VStr "week".
Proof.
  intros id validStartDate validEndDate Hid Hweek Hgroup Htrends Htop Hcmp r.
  subst r. unfold GroupController.getGroupPerformance, run, tryCatch, bind.
  fold id. rewrite Hid. cbn [negb].
  rewrite (guard_accepts_group pool id [] g gs Hgroup).
  rewrite Hweek.
  change (validateInterval (VStr "week") "month") with "week".
  fold validStartDate validEndDate.
  unfold poolQuery. rewrite Htrends, Htop, Hcmp.
  repeat split.
Qed.

Lemma getGroupPerformance_empty_window_witness :
  let r := fst (@GroupController.getGroupPerformance sampleParser
                  idleGroupStore weekRequest) in
  status r = 200 /\ getPath ["data"; "trends"] (body r) = VArr [] /\
  has "summary" (get "data" (body r)) = false.
Proof.
  destruct (@getGroupPerformance_empty_window sampleParser idleGroupStore
              weekRequest
              (VObj [("id", VInt 7); ("name", VStr "Northeast")]) [] []
              eq_refl eq_refl eq_refl eq_refl eq_refl eq_refl)
    as (Hstatus & _ & Htrends & Hsummary & _).
  repeat split; assumption.
Defined.

(** ** The trend statement of the all-users performance aggregation *)

(** C6: when both a role and a group filter are supplied, the trend
    statement binds five values with [groupId] in fifth position, while
    its text references placeholders 1 to 4 only: the group predicate
    carries the unevaluated characters [$${role ? 5 : 4}] instead of
    [$5], so the text never references the position [groupId] is bound
    at. *)
Theorem trendsQuery_group_placeholder `{DateParser} (req : request) :
  truthyQ (qRole req) = true ->
  truthyQ (qGroupId req) = true ->
  List.length (UserController.trendsParams req) = 5%nat /\
  nth_error (UserController.trendsParams req) 3 = Some (ofQuery (qRole req)) /\
  nth_error (UserController.trendsParams req) 4 = Some (ofQuery (qGroupId req)) /\
  placeholders (UserController.trendsQuery req) = [1; 2; 3; 4; 1] /\
  ~ In 5 (placeholders (UserController.trendsQuery req)) /\
  contains " AND ug.group_id = $${role ? 5 : 4}" (UserController.trendsQuery req)
    = true /\
  contains "ug.group_id = $5" (UserController.trendsQuery req) = false.
Proof.
  intros Hrole Hgroup.
  unfold UserController.trendsParams, UserController.trendsQuery.
  rewrite Hrole, Hgroup.
  repeat split.
  intro Hin. vm_compute in Hin.
  repeat (destruct Hin as [Hin | Hin]; [discriminate Hin|]). exact Hin.
Qed.

Lemma trendsQuery_group_placeholder_witness :
  truthyQ (qRole roleAndGroup) = true /\
  truthyQ (qGroupId roleAndGroup) = true /\
  nth_error (@UserController.trendsParams sampleParser roleAndGroup) 4
    = Some (VStr "7") /\
  ~ In 5 (placeholders (UserController.trendsQuery roleAndGroup)).
Proof.
  destruct (@trendsQuery_group_placeholder sampleParser roleAndGroup
              eq_refl eq_refl)
    as (_ & _ & Hbound & _ & Hnot & _).
  repeat split; assumption.
Defined.

(** ** Malformed amount bounds *)

(** C7, at [GET /api/metrics/sales?minAmount=abc]: the bound is not
    dropped.  [Number.parseFloat] gives [NaN], which is not [null], so
    both statements keep the predicate [s.amount >= $1] with [NaN] bound
    to it, and [meta.filters.minAmount] echoes [NaN].  These are the
    statements the controller sends, whatever the store answers. *)
Theorem listSales_binds_NaN `{DateParser} (pool : Pool) :
  let l := SalesController.listSalesPlan badMinAmount "desc" in
  SalesController.validAmount (qMinAmount badMinAmount) = VNum NaN /\
  filterConditions l = ["s.amount >= $1"] /\
  countQuery l = " SELECT COUNT(*) FROM sales s  WHERE s.amount >= $1" /\
  countParams l = [VNum NaN] /\
  listParams l = [VNum NaN; VInt 100; VInt 0] /\
  get "minAmount" (VObj (listFilters l)) = VNum NaN /\
  snd (SalesController.listSales pool badMinAmount) = listingCalls pool l.
Proof.
  repeat split.
  unfold SalesController.listSales. rewrite run_log.
  rewrite (attempt_returns _ "desc") by reflexivity.
  apply runListing_log.
Qed.

(** ** The date check *)

(** C10: the date validator returns every string the engine's date
    parser accepts, ISO or not, exactly as it was given, and the fallback
    for a string the parser rejects or an absent value; an accepted
    (non-empty) start date is what the sales listing binds as its first
    parameter, in the listing and in the count statement, and what
    [meta.filters.startDate] echoes. *)
Theorem parseDate_verbatim `{DateParser}
    (s : string) (fallback : value) (req : request) (order : string) :
  (dateParses s = true -> parseDate (Some s) fallback = VStr s) /\
  (dateParses s = false -> parseDate (Some s) fallback = fallback) /\
  parseDate None fallback = fallback /\
  (dateParses s = true -> nonEmpty s = true -> qStartDate req = Some s ->
   let l := SalesController.listSalesPlan req order in
   nth_error (listParams l) 0 = Some (VStr s) /\
   nth_error (countParams l) 0 = Some (VStr s) /\
   nth_error (filterConditions l) 0 = Some "s.date >= $1" /\
   get "startDate" (VObj (listFilters l)) = VStr s).
Proof.
  split; [intro Hs; unfold parseDate; rewrite Hs; reflexivity|].
  split; [intro Hs; unfold parseDate; rewrite Hs; reflexivity|].
  split; [reflexivity|].
  intros Hs Hne Hreq.
  assert (E : parseDate (Some s) VNull = VStr s)
    by (unfold parseDate; rewrite Hs; reflexivity).
  cbn zeta. unfold SalesController.listSalesPlan.
  rewrite Hreq, E. cbn [truthy]. rewrite Hne.
  set (e := parseDate (qEndDate req) VNull).
  set (lo := SalesController.validAmount (qMinAmount req)).
  set (hi := SalesController.validAmount (qMaxAmount req)).
  destruct (truthy e), (truthyQ (qUserId req)), (notNull lo), (notNull hi),
    (truthyQ (qGroupId req)); repeat split.
Qed.

Lemma parseDate_verbatim_witness :
  @dateParses sampleParser "March 1, 2021" = true /\
  @parseDate sampleParser (Some "March 1, 2021") VNull = VStr "March 1, 2021" /\
  nth_error (countParams (@SalesController.listSalesPlan sampleParser
                            marchRequest "desc")) 0
    = Some (VStr "March 1, 2021").
Proof.
  destruct (@parseDate_verbatim sampleParser "March 1, 2021" VNull marchRequest
              "desc")
    as (Haccept & _ & _ & Hbound).
  split; [reflexivity|].
  split; [apply Haccept; reflexivity|].
  destruct (Hbound eq_refl eq_refl eq_refl) as (_ & Hcount & _).
  exact Hcount.
Defined.

(** ** The count statement *)

Section GuardedListing.

Variable pool : Pool.

(** A guarded listing controller whose lookup finds the entity and whose
    order validator returns: the lookup, then the statements of the
    listing. *)
Lemma guarded_listing_log (table id : string) (r : error + string)
    (plan : string -> listing) (o : string) (found : value)
    (others : list value) (handler : error -> response) :
  pool ("SELECT * FROM " +:+ table +:+ " WHERE id = $1") [VStr id]
    = Some (found :: others) ->
  r = inr o ->
  snd (run (tryCatch
         (_ <- validateResourceExists pool table id ;;
          validSortOrder <- attempt r ;;
          runListing pool (plan validSortOrder))
         handler))
  = Call ("SELECT * FROM " +:+ table +:+ " WHERE id = $1") [VStr id]
    :: listingCalls pool (plan o).
Proof.
  intros Hlookup ->. rewrite run_log. unfold bind at 1.
  rewrite (guard_accepts pool id table [] found others Hlookup).
  rewrite (attempt_returns (inr o) o) by reflexivity.
  apply runListing_log.
Qed.

(** The same controller when the order validator throws: the lookup was
    the only statement, and the answer is the generic 500. *)
Lemma guarded_listing_throws (table id : string) (r : error + string)
    (k : string -> M response) (e : error) (found : value)
    (others : list value) :
  pool ("SELECT * FROM " +:+ table +:+ " WHERE id = $1") [VStr id]
    = Some (found :: others) ->
  r = inl e -> statusCode e = None ->
  run (tryCatch
         (_ <- validateResourceExists pool table id ;;
          validSortOrder <- attempt r ;;
          k validSortOrder)
         onError)
  = (errorResponse 500 "Internal server error",
     [Call ("SELECT * FROM " +:+ table +:+ " WHERE id = $1") [VStr id]]).
Proof.
  intros Hlookup -> He. unfold run, tryCatch, bind at 1.
  rewrite (guard_accepts pool id table [] found others Hlookup).
  rewrite (attempt_throws (inl e) e) by reflexivity.
  unfold onError. rewrite He. reflexivity.
Qed.

End GuardedListing.

(** C1: in each of the four listing controllers (all sales, user sales,
    group users, group sales), once the order validator has returned and
    the entity of a scoped listing was found, the controller sends the
    listing statement and then, when the store has answered it, the
    count statement with the count parameters, and nothing else.  For
    every combination of optional filters the listing parameters are the
    count parameters followed by exactly the two pagination values; the
    count parameters are as many as the filter conditions; the
    conditions are numbered [$1 .. $n] in the order they were added, the
    count statement references exactly [$1 .. $n] and the listing
    statement [$1 .. $n+2], both around the same WHERE text. *)
Theorem count_statement_parameters `{DateParser} (req : request) (pool : Pool)
    (o : string) (found : value) (others : list value) :
  (validateSortOrder (qSortOrder req) "desc" = inr o ->
   let l := SalesController.listSalesPlan req o in
   countConsistent l /\
   snd (SalesController.listSales pool req) = listingCalls pool l) /\
  (nonEmpty (paramsId req) = true ->
   pool "SELECT * FROM users WHERE id = $1" [VStr (paramsId req)]
     = Some (found :: others) ->
   validateSortOrder (qSortOrder req) "desc" = inr o ->
   let l := UserController.getUserSalesPlan req o in
   countConsistent l /\
   snd (UserController.getUserSales pool req)
   = Call "SELECT * FROM users WHERE id = $1" [VStr (paramsId req)]
     :: listingCalls pool l) /\
  (nonEmpty (paramsId req) = true ->
   pool "SELECT * FROM groups WHERE id = $1" [VStr (paramsId req)]
     = Some (found :: others) ->
   validateSortOrder (qSortOrder req) "asc" = inr o ->
   let l := GroupController.getGroupUsersPlan req o in
   countConsistent l /\
   snd (GroupController.getGroupUsers pool req)
   = Call "SELECT * FROM groups WHERE id = $1" [VStr (paramsId req)]
     :: listingCalls pool l) /\
  (nonEmpty (paramsId req) = true ->
   pool "SELECT * FROM groups WHERE id = $1" [VStr (paramsId req)]
     = Some (found :: others) ->
   validateSortOrder (qSortOrder req) "desc" = inr o ->
   let l := GroupController.getGroupSalesPlan req o in
   countConsistent l /\
   snd (GroupController.getGroupSales pool req)
   = Call "SELECT * FROM groups WHERE id = $1" [VStr (paramsId req)]
     :: listingCalls pool l).
Proof.
  assert (Hmember : forall d, In d validOrders ->
            validateSortOrder (qSortOrder req) d = inr o -> In o validOrders).
  { intros d Hd. apply validateSortOrder_member. assumption. }
  split; [|split; [|split]].
  - intros Ho l. split.
    + apply listSalesPlan_consistent, (Hmember "desc"); simpl; auto.
    + unfold SalesController.listSales. rewrite run_log.
      rewrite (attempt_returns _ o) by assumption.
      apply runListing_log.
  - intros Hid Hlookup Ho l. split.
    + apply getUserSalesPlan_consistent, (Hmember "desc"); simpl; auto.
    + unfold UserController.getUserSales. rewrite Hid. cbn [negb].
      apply (guarded_listing_log pool "users" _ _
               (UserController.getUserSalesPlan req) o found others);
        assumption.
  - intros Hid Hlookup Ho l. split.
    + apply getGroupUsersPlan_consistent, (Hmember "asc"); simpl; auto.
    + unfold GroupController.getGroupUsers. rewrite Hid. cbn [negb].
      apply (guarded_listing_log pool "groups" _ _
               (GroupController.getGroupUsersPlan req) o found others);
        assumption.
  - intros Hid Hlookup Ho l. split.
    + apply getGroupSalesPlan_consistent, (Hmember "desc"); simpl; auto.
    + unfold GroupController.getGroupSales. rewrite Hid. cbn [negb].
      apply (guarded_listing_log pool "groups" _ _
               (GroupController.getGroupSalesPlan req) o found others);
        assumption.
Qed.

Lemma count_statement_parameters_witness :
  validateSortOrder (qSortOrder pageTwo) "desc" = inr "asc" /\
  snd (@UserController.getUserSales sampleParser manySalesStore pageTwo)
  = [ Call "SELECT * FROM users WHERE id = $1" [VStr "42"];
      Call " SELECT id, amount, date FROM sales WHERE user_id = $1 AND date >= $2 AND date <= $3 ORDER BY amount asc LIMIT $4 OFFSET $5 "
           [VStr "42"; VStr "2021-02-01"; VStr "2021-02-28"; VInt 10; VInt 10];
      Call " SELECT COUNT(*) FROM sales WHERE user_id = $1 AND date >= $2 AND date <= $3 "
           [VStr "42"; VStr "2021-02-01"; VStr "2021-02-28"] ].
Proof.
  destruct (@count_statement_parameters sampleParser pageTwo manySalesStore
              "asc" (VObj [("id", VInt 42); ("name", VStr "Ann")]) [])
    as (_ & Huser & _).
  split; [reflexivity|].
  destruct (Huser eq_refl eq_refl eq_refl) as (_ & Hsent).
  rewrite Hsent. reflexivity.
Defined.
(** ** Resubmitting the echoed filters *)

Section Resubmission.

Context `{DateParser}.

(** Cancelling the zeros of the mantissa keeps the number, hence whether
    it rounds to an infinity or to zero. *)
Lemma lowestTerms_keeps (steps : nat) (m e : Z) :
  overflows (fst (lowestTerms steps m e)) (snd (lowestTerms steps m e))
    = overflows m e /\
  underflows (fst (lowestTerms steps m e)) (snd (lowestTerms steps m e))
    = underflows m e.
Proof.
  revert m e. induction steps as [|steps IH]; intros m e; [split; reflexivity|].
  cbn [lowestTerms].
  destruct (Z.ltb_spec e 0) as [He | He]; cbn [andb]; [|split; reflexivity].
  destruct (Z.eqb_spec (m mod 10) 0) as [Hm | Hm]; [|split; reflexivity].
  destruct (IH (m / 10) (e + 1)) as (-> & ->).
  assert (Em : m = 10 * (m / 10)).
  { pose proof (Z.div_mod m 10 ltac:(lia)). lia. }
  set (q := m / 10) in *. clearbody q. subst m. clear Hm IH.
  assert (Ep : 10 ^ (- e) = 10 * 10 ^ (- (e + 1))).
  { replace (- e) with (Z.succ (- (e + 1))) by lia.
    apply Z.pow_succ_r. lia. }
  assert (HU : 1 < 2 ^ 1075) by (apply Z.pow_gt_1; lia).
  unfold overflows, underflows.
  destruct (Z.ltb_spec e 0) as [_ | ?]; [|lia].
  rewrite Ep.
  revert HU. generalize (2 ^ 1024 - 2 ^ 970) as T. generalize (2 ^ 1075) as U.
  intros U T HU.
  destruct (Z.ltb_spec (e + 1) 0) as [He1 | He1].
  - generalize (10 ^ (- (e + 1))) as P. intro P. split.
    + destruct (Z.leb_spec (T * (10 * P)) (Z.abs (10 * q))),
        (Z.leb_spec (T * P) (Z.abs q)); try reflexivity; lia.
    + destruct (Z.leb_spec (Z.abs (10 * q) * U) (10 * P)),
        (Z.leb_spec (Z.abs q * U) P); try reflexivity; lia.
  - replace (e + 1) with 0 by lia. change (10 ^ (- 0)) with 1.
    change (10 ^ 0) with 1. split.
    + destruct (Z.leb_spec T (Z.abs q * 1)),
        (Z.leb_spec (T * (10 * 1)) (Z.abs (10 * q))); try reflexivity; lia.
    + destruct (Z.leb_spec (Z.abs (10 * q) * U) (10 * 1)),
        (Z.eqb_spec q 0); try reflexivity; nia.
Qed.

(** With as many steps as the exponent is negative, no zero is left to
    cancel. *)
Lemma lowestTerms_lowest (steps : nat) (m e : Z) :
  - e <= Z.of_nat steps ->
  snd (lowestTerms steps m e) < 0 ->
  snd (lowestTerms steps m e) < 0 /\ fst (lowestTerms steps m e) mod 10 <> 0.
Proof.
  revert m e. induction steps as [|steps IH]; intros m e Hsteps.
  - cbn [lowestTerms snd]. lia.
  - cbn [lowestTerms].
    destruct (Z.ltb_spec e 0) as [He | He]; cbn [andb].
    + destruct (Z.eqb_spec (m mod 10) 0) as [Hm | Hm].
      * apply IH. lia.
      * cbn [fst snd]. auto.
    + cbn [snd]. lia.
Qed.

Lemma mkNumber_canonical (m e : Z) : canonical (mkNumber m e).
Proof.
  unfold mkNumber.
  destruct (overflows m e) eqn:Ho; [exact I|].
  destruct (underflows m e) eqn:Hu; [reflexivity|].
  destruct (lowestTerms_keeps (Z.to_nat (- e)) m e) as (Ho' & Hu').
  pose proof (lowestTerms_lowest (Z.to_nat (- e)) m e ltac:(lia)) as Hlow.
  destruct (lowestTerms (Z.to_nat (- e)) m e) as [m' e'].
  cbn [fst snd] in *. rewrite Ho in Ho'. rewrite Hu in Hu'.
  destruct (Z.ltb_spec e' 0) as [He' | He'].
  - cbn [canonical]. destruct (Hlow He') as (_ & Hm').
    repeat split; assumption.
  - cbn [canonical]. unfold overflows in *.
    destruct (Z.ltb_spec e' 0) as [? | _]; [lia|].
    change (0 <? 0) with false. cbn iota.
    rewrite Z.abs_mul, (Z.abs_eq (10 ^ e')) by (apply Z.pow_nonneg; lia).
    change (10 ^ 0) with 1. rewrite Z.mul_1_r. assumption.
Qed.
Lemma parseFloat_canonical (s : string) : canonical (parseFloat s).
Proof.
  unfold parseFloat. destruct (signOf (trimStart s)) as [negative body].
  unfold unsignedLiteral.
  destruct (String.prefix "Infinity" body); [exact I|].
  destruct (dropDigits body) as [|c r]; cbn iota.
  - destruct (isNil (digitsPrefix body) && isNil Nil)%bool;
      [exact I | apply mkNumber_canonical].
  - destruct c as [[] [] [] [] [] [] [] []]; cbn iota;
      match goal with
      | |- canonical (if ?b then _ else _) =>
          destruct b; [exact I | apply mkNumber_canonical]
      end.
Qed.

Lemma numeral_text_nonEmpty (z : Z) (s : string) :
  nonEmpty (intToString z +:+ s) = true.
Proof.
  destruct (intToString_cases z) as (d & Hd & _ & ->).
  destruct (z <? 0); [reflexivity|].
  destruct d; simpl; congruence.
Qed.

(** Reading the mantissa [sign digits] followed by [rest], where [rest]
    starts with neither a digit nor a point. *)
Lemma parseFloat_mantissa (z : Z) (rest : string) :
  startsWithDigit rest = false ->
  match rest with String "." _ => False | _ => True end ->
  parseFloat (intToString z +:+ rest) = mkNumber z (exponentOf rest).
Proof.
  intros Hnd Hnp.
  destruct (intToString_cases z) as (d & Hd & Hz & ->).
  assert (Hip : digitsPrefix (NilEmpty.string_of_uint d +:+ rest) = d).
  { rewrite digitsPrefix_print.
    replace (digitsPrefix rest) with Nil; [apply catDigits_nil|].
    destruct rest as [|c r]; [reflexivity|].
    destruct c as [[] [] [] [] [] [] [] []]; simpl in *; congruence. }
  assert (Hr1 : dropDigits (NilEmpty.string_of_uint d +:+ rest) = rest).
  { rewrite dropDigits_print.
    destruct rest as [|c r]; [reflexivity|]. simpl in *. rewrite Hnd.
    reflexivity. }
  assert (Hplain :
    forall negative,
      unsignedLiteral negative (NilEmpty.string_of_uint d +:+ rest)
      = mkNumber (signed negative (Z.of_uint d)) (exponentOf rest)).
  { intro negative. unfold unsignedLiteral.
    destruct (startsWithDigit_plain _ (print_startsWithDigit d rest Hd))
      as (_ & _ & ->).
    cbn zeta. rewrite Hip, Hr1.
    assert (Hfp :
      match rest with
      | String "." r => (digitsPrefix r, dropDigits r)
      | _ => (Nil, rest)
      end = (Nil, rest)).
    { destruct rest as [|c r]; [reflexivity|].
      destruct c as [[] [] [] [] [] [] [] []]; try reflexivity.
      contradiction. }
    rewrite Hfp.
    assert (Hnil : isNil d = false) by (destruct d; simpl; congruence).
    rewrite Hnil. cbn [andb uintLength Z.of_uint].
    f_equal; [f_equal|]; cbn; lia. }
  unfold parseFloat.
  destruct (Z.ltb_spec z 0) as [Hneg | Hpos].
  - cbn [append]. rewrite trimStart_minus. cbn [signOf].
    rewrite (Hplain true), Hz. f_equal. unfold signed. lia.
  - cbn [append].
    destruct (startsWithDigit_plain _ (print_startsWithDigit d rest Hd))
      as (-> & -> & _).
    rewrite (Hplain false), Hz. f_equal. unfold signed. lia.
Qed.

Lemma exponent_reads_back (e : Z) :
  exponentOf (String "e" (intToString e)) = e.
Proof.
  pose proof (parseInt_intToString e) as Hp. unfold parseInt in Hp.
  cbn [exponentOf].
  destruct (intToString_cases e) as (d & Hd & _ & E). rewrite E in *.
  destruct (Z.ltb_spec e 0).
  - cbn [append] in Hp. rewrite trimStart_minus in Hp. cbn [append].
    destruct (signOf _) as [negative body]. rewrite Hp. reflexivity.
  - cbn [append] in *.
    destruct (startsWithDigit_plain _ (print_startsWithDigit d "" Hd))
      as (Ht & _ & _).
    rewrite append_empty in Ht. rewrite Ht in Hp.
    destruct (signOf _) as [negative body]. rewrite Hp. reflexivity.
Qed.

(** A finite number written as a literal reads back as itself. *)
Lemma parseFloat_literal (n : number) (t : string) :
  canonical n -> numberLiteral n = Some t ->
  parseFloat t = n /\ nonEmpty t = true.
Proof.
  intros Hc Ht. destruct n as [| negative | z | m e]; try discriminate Ht;
    injection Ht as <-.
  - split.
    + rewrite <- (append_empty (intToString z)).
      rewrite parseFloat_mantissa by (simpl; auto).
      cbn [exponentOf canonical] in *. unfold mkNumber. rewrite Hc.
      unfold underflows. change (0 <? 0) with false. cbn iota.
      destruct (Z.eqb_spec z 0) as [-> | Hz]; [reflexivity|].
      cbn [Z.opp Z.to_nat lowestTerms]. change (0 <? 0) with false.
      cbn iota. f_equal. change (10 ^ 0) with 1. lia.
    + rewrite <- (append_empty (intToString z)). apply numeral_text_nonEmpty.
  - split; [|apply numeral_text_nonEmpty].
    rewrite parseFloat_mantissa by (simpl; auto).
    rewrite exponent_reads_back. unfold mkNumber.
    destruct Hc as (He & Hm & -> & ->).
    destruct (Z.to_nat (- e)) as [|steps] eqn:Es; [lia|].
    cbn [lowestTerms].
    destruct (Z.ltb_spec e 0) as [_ | ?]; [|lia].
    destruct (Z.eqb_spec (m mod 10) 0) as [? | _]; [contradiction|].
    cbn [andb]. destruct (Z.ltb_spec e 0) as [_ | ?]; [reflexivity | lia].
Qed.

Lemma validAmount_echo (q : option string) :
  echoable (SalesController.validAmount q) ->
  SalesController.validAmount (echoToQuery (SalesController.validAmount q))
  = SalesController.validAmount q.
Proof.
  unfold SalesController.validAmount at 1 3 4.
  destruct q as [s|]; [|reflexivity].
  destruct (nonEmpty s); [|reflexivity].
  intro He. pose proof (parseFloat_canonical s) as Hc.
  destruct (parseFloat s) as [| negative | z | m e] eqn:E;
    try contradiction.
  - destruct (parseFloat_literal (Int z) _ Hc eq_refl) as (Hp & Hne).
    cbn [echoToQuery numberLiteral]. unfold SalesController.validAmount.
    rewrite Hne, Hp. reflexivity.
  - destruct (parseFloat_literal (Dec m e) _ Hc eq_refl) as (Hp & Hne).
    cbn [echoToQuery numberLiteral]. unfold SalesController.validAmount.
    rewrite Hne, Hp. reflexivity.
Qed.

Lemma parseDate_echo (q : option string) :
  parseDate (echoToQuery (parseDate q VNull)) VNull = parseDate q VNull.
Proof.
  unfold parseDate at 2 3. destruct q as [s|]; [|reflexivity].
  destruct (dateParses s) eqn:E; [|reflexivity].
  simpl. rewrite E. reflexivity.
Qed.

Lemma echo_ofQuery (q : option string) : echoToQuery (ofQuery q) = q.
Proof. destruct q; reflexivity. Qed.

Lemma orElse_reads_back (z d : Z) :
  z <> 0 -> orElse (parseInt (Some (intToString z))) d = z.
Proof.
  intro Hz. rewrite parseInt_intToString. unfold orElse.
  destruct (Z.eqb_spec z 0); congruence.
Qed.

Lemma pagination_reads_back (rawPage rawLimit : option string) :
  let pg := getPaginationParams rawPage rawLimit in
  getPaginationParams (Some (intToString (page pg)))
                      (Some (intToString (limit pg))) = pg.
Proof.
  cbn zeta. unfold getPaginationParams at 1. 
  rewrite (orElse_reads_back _ 1 (page_nonzero rawPage rawLimit)).
  rewrite (orElse_reads_back _ 100 (limit_nonzero rawPage rawLimit)).
  reflexivity.
Qed.


End Resubmission.

(** ** Reading the page and the limit back from a link *)

Section Links.

Lemma lacks_append (c : ascii) (s t : string) :
  lacks c (s +:+ t) = andb (lacks c s) (lacks c t).
Proof.
  induction s as [|c' r IH]; cbn [append lacks]; [reflexivity|].
  rewrite IH. apply andb_assoc.
Qed.

Lemma before_lacks (c : ascii) (s : string) :
  lacks c s = true -> before c s = s.
Proof.
  induction s as [|c' r IH]; cbn [lacks before]; [reflexivity|].
  intro Hs. apply andb_true_iff in Hs. destruct Hs as (Hc & Hr).
  apply negb_true_iff in Hc. rewrite Hc, (IH Hr). reflexivity.
Qed.

Lemma after_skip (c : ascii) (s t : string) :
  lacks c s = true -> after c (s +:+ t) = after c t.
Proof.
  induction s as [|c' r IH]; cbn [lacks append after]; [reflexivity|].
  intro Hs. apply andb_true_iff in Hs. destruct Hs as (Hc & Hr).
  apply negb_true_iff in Hc. rewrite Hc. apply IH. assumption.
Qed.

Lemma splitOn_skip (c : ascii) (s t : string) :
  lacks c s = true ->
  splitOn c (s +:+ t)
  = match splitOn c t with
    | x :: xs => (s +:+ x) :: xs
    | [] => [s]
    end.
Proof.
  induction s as [|c' r IH]; cbn [lacks append splitOn].
  - intros _. destruct (splitOn c t) as [|x xs] eqn:E; [|reflexivity].
    destruct t as [|c0 t0]; cbn [splitOn] in E; [discriminate|].
    destruct (Ascii.eqb c0 c); [discriminate|].
    destruct (splitOn c t0); discriminate.
  - intro Hs. apply andb_true_iff in Hs. destruct Hs as (Hc & Hr).
    apply negb_true_iff in Hc. rewrite Hc, (IH Hr).
    destruct (splitOn c t); reflexivity.
Qed.

Lemma splitOn_lacks (c : ascii) (s : string) :
  lacks c s = true -> splitOn c s = [s].
Proof.
  intro Hs. rewrite <- (append_empty s) at 1.
  rewrite (splitOn_skip c s "" Hs). cbn [splitOn].
  rewrite append_empty. reflexivity.
Qed.

(** A printed integer holds digits and, at most, a minus sign. *)
Lemma numeral_lacks (c : ascii) (d : uint) :
  isDigit c = false -> lacks c (NilEmpty.string_of_uint d) = true.
Proof.
  intro Hc. induction d; cbn [NilEmpty.string_of_uint lacks]; try reflexivity;
    rewrite IHd, andb_true_r; apply negb_true_iff;
    destruct c as [[] [] [] [] [] [] [] []]; try reflexivity; discriminate Hc.
Qed.

Lemma intToString_lacks (c : ascii) (z : Z) :
  isDigit c = false -> Ascii.eqb "-" c = false ->
  lacks c (intToString z) = true.
Proof.
  intros Hd Hm. destruct (intToString_cases z) as (d & _ & _ & ->).
  rewrite lacks_append, (numeral_lacks c d Hd), andb_true_r.
  destruct (z <? 0); [|reflexivity].
  cbn [lacks]. rewrite Hm. reflexivity.
Qed.

Lemma query_pairs (p l : string) :
  lacks "&" p = true -> lacks "&" l = true ->
  splitOn "&" ("page=" +:+ p +:+ "&limit=" +:+ l)
  = ["page=" +:+ p; "limit=" +:+ l].
Proof.
  intros Hp Hl.
  rewrite <- (append_assoc "page=" p).
  rewrite splitOn_skip by (rewrite lacks_append, Hp; reflexivity).
  change ("&limit=" +:+ l) with (String "&" ("limit=" +:+ l)).
  cbn [splitOn]. change (Ascii.eqb "&" "&") with true. cbn iota.
  rewrite (splitOn_lacks "&" ("limit=" +:+ l))
    by (rewrite lacks_append, Hl; reflexivity).
  rewrite append_empty. reflexivity.
Qed.

Lemma searchParam_pageLink (base : string) (p l : Z) :
  lacks "?" base = true -> lacks "#" base = true ->
  searchParam "page" (pageLink base (intToString p) l)
    = Some (intToString p) /\
  searchParam "limit" (pageLink base (intToString p) l)
    = Some (intToString l).
Proof.
  intros Hq Hf. unfold searchParam, search, pageLink.
  rewrite before_lacks
    by (rewrite !lacks_append, Hf, !intToString_lacks by reflexivity;
        reflexivity).
  rewrite (after_skip "?" base) by assumption.
  set (rest := intToString p +:+ "&limit=" +:+ intToString l).
  change ("?page=" +:+ rest) with (String "?" ("page=" +:+ rest)).
  cbn [after]. change (Ascii.eqb "?" "?") with true. cbn iota.
  subst rest. rewrite query_pairs by (apply intToString_lacks; reflexivity).
  split; reflexivity.
Qed.

End Links.

Ltac resubmitted_fields :=
  unfold requestFrom;
  cbn [paramsId qPage qLimit qStartDate qEndDate qUserId qGroupId
       qMinAmount qMaxAmount qSortBy qSortOrder qInterval qRole].

Section ResubmittedPlans.

Context `{DateParser}.
Variable req : request.

(** A listing either ends in its envelope or throws an error without a
    status code. *)
Lemma runListing_outcome (pool : Pool) (l : listing) (log : list call) :
  (exists rows count,
     fst (runListing pool l log)
     = inr (json (formatPaginatedResponse (VArr rows) (listPagination l)
                    (parseIntValue count) (listBaseUrl l)
                    [("filters", VObj (listFilters l))]))) \/
  (exists msg, fst (runListing pool l log) = inl (plainError msg)).
Proof.
  unfold runListing, bind, poolQuery.
  destruct (pool (listQuery l) (listParams l)) as [rows|];
    [|right; eexists; reflexivity].
  destruct (pool (countQuery l) (countParams l)) as [crows|];
    [|right; eexists; reflexivity].
  destruct crows as [|[] ?]; cbn [countOf];
    try (right; eexists; reflexivity);
    left; eexists; eexists; reflexivity.
Qed.

(** The request a client builds from an envelope. *)
Lemma resubmit_envelope (id : string) (data : value) (pg : pagination)
    (total : option Z) (base : string) (filters : value) :
  lacks "?" base = true -> lacks "#" base = true ->
  resubmit id (body (json (formatPaginatedResponse data pg total base
                             [("filters", filters)])))
  = requestFrom id (Some (intToString (page pg)))
      (Some (intToString (limit pg))) filters.
Proof.
  intros Hq Hf. unfold resubmit.
  change (getPath ["links"; "self"] _)
    with (VStr (pageLink base (intToString (page pg)) (limit pg))).
  change (getPath ["meta"; "filters"] _) with filters.
  cbn iota.
  destruct (searchParam_pageLink base (page pg) (limit pg) Hq Hf) as (-> & ->).
  reflexivity.
Qed.

Lemma listSalesPlan_resubmitted :
  validateSortColumn (qSortBy req) SalesController.validSortColumns "date"
    = "date" ->
  echoable (SalesController.validAmount (qMinAmount req)) ->
  echoable (SalesController.validAmount (qMaxAmount req)) ->
  let l := SalesController.listSalesPlan req "desc" in
  SalesController.listSalesPlan
    (requestFrom (paramsId req)
       (Some (intToString (page (listPagination l))))
       (Some (intToString (limit (listPagination l))))
       (VObj (listFilters l))) "desc"
  = l.
Proof.
  intros Hc Hlo Hhi l. subst l.
  unfold SalesController.listSalesPlan at 1. resubmitted_fields.
  change (listPagination (SalesController.listSalesPlan req "desc"))
    with (getPaginationParams (qPage req) (qLimit req)).
  change (get "startDate" (VObj (listFilters (SalesController.listSalesPlan req "desc"))))
    with (parseDate (qStartDate req) VNull).
  change (get "endDate" (VObj (listFilters (SalesController.listSalesPlan req "desc"))))
    with (parseDate (qEndDate req) VNull).
  change (get "userId" (VObj (listFilters (SalesController.listSalesPlan req "desc"))))
    with (ofQuery (qUserId req)).
  change (get "groupId" (VObj (listFilters (SalesController.listSalesPlan req "desc"))))
    with (ofQuery (qGroupId req)).
  change (get "minAmount" (VObj (listFilters (SalesController.listSalesPlan req "desc"))))
    with (SalesController.validAmount (qMinAmount req)).
  change (get "maxAmount" (VObj (listFilters (SalesController.listSalesPlan req "desc"))))
    with (SalesController.validAmount (qMaxAmount req)).
  rewrite pagination_reads_back, !parseDate_echo, !echo_ofQuery.
  rewrite (validAmount_echo _ Hlo), (validAmount_echo _ Hhi).
  unfold SalesController.listSalesPlan. rewrite Hc. reflexivity.
Qed.

Lemma getUserSalesPlan_resubmitted :
  validateSortColumn (qSortBy req) UserController.validSortColumns "date"
    = "date" ->
  let l := UserController.getUserSalesPlan req "desc" in
  UserController.getUserSalesPlan
    (requestFrom (paramsId req)
       (Some (intToString (page (listPagination l))))
       (Some (intToString (limit (listPagination l))))
       (VObj (listFilters l))) "desc"
  = l.
Proof.
  intros Hc l. subst l.
  unfold UserController.getUserSalesPlan at 1. resubmitted_fields.
  change (listPagination (UserController.getUserSalesPlan req "desc"))
    with (getPaginationParams (qPage req) (qLimit req)).
  change (get "startDate" (VObj (listFilters (UserController.getUserSalesPlan req "desc"))))
    with (parseDate (qStartDate req) VNull).
  change (get "endDate" (VObj (listFilters (UserController.getUserSalesPlan req "desc"))))
    with (parseDate (qEndDate req) VNull).
  rewrite pagination_reads_back, !parseDate_echo.
  unfold UserController.getUserSalesPlan. rewrite Hc. reflexivity.
Qed.

Lemma getGroupUsersPlan_resubmitted :
  validateSortColumn (qSortBy req) GroupController.userSortColumns "name"
    = "name" ->
  let l := GroupController.getGroupUsersPlan req "asc" in
  GroupController.getGroupUsersPlan
    (requestFrom (paramsId req)
       (Some (intToString (page (listPagination l))))
       (Some (intToString (limit (listPagination l))))
       (VObj (listFilters l))) "asc"
  = l.
Proof.
  intros Hc l. subst l.
  unfold GroupController.getGroupUsersPlan at 1. resubmitted_fields.
  change (listPagination (GroupController.getGroupUsersPlan req "asc"))
    with (getPaginationParams (qPage req) (qLimit req)).
  change (get "role" (VObj (listFilters (GroupController.getGroupUsersPlan req "asc"))))
    with (ofQuery (qRole req)).
  rewrite pagination_reads_back, !echo_ofQuery.
  unfold GroupController.getGroupUsersPlan. rewrite Hc. reflexivity.
Qed.

Lemma getGroupSalesPlan_resubmitted :
  validateSortColumn (qSortBy req) GroupController.salesSortColumns "date"
    = "date" ->
  let l := GroupController.getGroupSalesPlan req "desc" in
  GroupController.getGroupSalesPlan
    (requestFrom (paramsId req)
       (Some (intToString (page (listPagination l))))
       (Some (intToString (limit (listPagination l))))
       (VObj (listFilters l))) "desc"
  = l.
Proof.
  intros Hc l. subst l.
  unfold GroupController.getGroupSalesPlan at 1. resubmitted_fields.
  change (listPagination (GroupController.getGroupSalesPlan req "desc"))
    with (getPaginationParams (qPage req) (qLimit req)).
  change (get "startDate" (VObj (listFilters (GroupController.getGroupSalesPlan req "desc"))))
    with (parseDate (qStartDate req) VNull).
  change (get "endDate" (VObj (listFilters (GroupController.getGroupSalesPlan req "desc"))))
    with (parseDate (qEndDate req) VNull).
  change (get "userId" (VObj (listFilters (GroupController.getGroupSalesPlan req "desc"))))
    with (ofQuery (qUserId req)).
  rewrite pagination_reads_back, !parseDate_echo, !echo_ofQuery.
  unfold GroupController.getGroupSalesPlan. rewrite Hc. reflexivity.
Qed.

End ResubmittedPlans.

Section Reproduced.

Context `{DateParser}.
Variable pool : Pool.
Variable req : request.

(** How a listing that has its plan ends: in [catch], or with an
    envelope from which the plan's request is rebuilt. *)
Lemma listing_ends (l : listing) (log : list call)
    (handler : error -> response) :
  (forall msg, status (handler (plainError msg)) <> 200) ->
  lacks "?" (listBaseUrl l) = true -> lacks "#" (listBaseUrl l) = true ->
  let out := match runListing pool l log with
             | (inr r, log') => (r, log')
             | (inl e, log') => (handler e, log')
             end in
  status (fst out) = 200 ->
  resubmit (paramsId req) (body (fst out))
  = requestFrom (paramsId req)
      (Some (intToString (page (listPagination l))))
      (Some (intToString (limit (listPagination l))))
      (VObj (listFilters l)).
Proof.
  intros Hhandler Hq Hf. cbn zeta.
  destruct (runListing_outcome pool l log)
    as [(rows & count & E) | (msg & E)];
    destruct (runListing pool l log) as [[e | r] log']; cbn [fst] in *;
    try discriminate E.
  - injection E as ->. intros _. apply resubmit_envelope; assumption.
  - injection E as ->. intro H200. destruct (Hhandler msg H200).
Qed.

Lemma listSales_reproduced :
  sortIsDefault SalesController.validSortColumns "date" "desc" req ->
  echoable (SalesController.validAmount (qMinAmount req)) ->
  echoable (SalesController.validAmount (qMaxAmount req)) ->
  reproduced (SalesController.listSales pool) req.
Proof.
  intros [Hc Ho] Hlo Hhi. unfold reproduced. cbn zeta.
  set (l := SalesController.listSalesPlan req "desc").
  assert (Hfirst : SalesController.listSales pool req
                   = match runListing pool l [] with
                     | (inr r, log') => (r, log')
                     | (inl e, log') => (onErrorPlain e, log')
                     end).
  { unfold SalesController.listSales, run, tryCatch.
    rewrite (attempt_returns _ "desc" _ _ Ho). fold l.
    destruct (runListing pool l []) as [[e | r] log']; reflexivity. }
  rewrite Hfirst. intro H200.
  rewrite (listing_ends l [] onErrorPlain) by
    (first [ intro; discriminate | reflexivity | assumption ]).
  unfold SalesController.listSales, run, tryCatch.
  rewrite (attempt_returns _ "desc") by reflexivity.
  pose proof (listSalesPlan_resubmitted req Hc Hlo Hhi) as Hplan.
  cbn zeta in Hplan. fold l in Hplan. rewrite Hplan.
  destruct (runListing pool l []) as [[e | r] log']; reflexivity.
Qed.

(** The same for a listing scoped to an entity: before its plan it
    checks the path id and looks the entity up. *)
Lemma guarded_listing_reproduced (message table o : string)
    (plan : request -> string -> listing) :
  let controller := fun r : request =>
    run (tryCatch
      (if negb (nonEmpty (paramsId r))
       then ret (errorResponse 400 message)
       else
         _ <- validateResourceExists pool table (paramsId r) ;;
         validSortOrder <- attempt (validateSortOrder (qSortOrder r) o) ;;
         runListing pool (plan r validSortOrder))
      onError) in
  let l := plan req o in
  validateSortOrder (qSortOrder req) o = inr o ->
  validateSortOrder VUndefined o = inr o ->
  lacks "?" (listBaseUrl l) = true -> lacks "#" (listBaseUrl l) = true ->
  plan (requestFrom (paramsId req)
          (Some (intToString (page (listPagination l))))
          (Some (intToString (limit (listPagination l))))
          (VObj (listFilters l))) o = l ->
  reproduced controller req.
Proof.
  intros controller l Ho Hundefined Hq Hf Hplan.
  unfold reproduced, controller. cbn zeta.
  destruct (nonEmpty (paramsId req)) eqn:Hid; cbn [negb];
    [|intro H200; discriminate H200].
  set (lookup := "SELECT * FROM " +:+ table +:+ " WHERE id = $1").
  destruct (pool lookup [VStr (paramsId req)]) as [[|u us]|] eqn:Hlookup.
  - unfold run, tryCatch, bind at 1.
    unfold validateResourceExists, bind, poolQuery. fold lookup.
    rewrite Hlookup. intro H200. discriminate H200.
  - pose proof (fun log =>
                  guard_accepts pool (paramsId req) table log u us Hlookup)
      as G.
    assert (Hfirst :
      run (tryCatch
             (_ <- validateResourceExists pool table (paramsId req) ;;
              validSortOrder <- attempt (validateSortOrder (qSortOrder req) o) ;;
              runListing pool (plan req validSortOrder))
             onError)
      = match runListing pool l ([] ++ [Call lookup [VStr (paramsId req)]]) with
        | (inr r, log') => (r, log')
        | (inl e, log') => (onError e, log')
        end).
    { unfold run, tryCatch, bind at 1. rewrite G.
      rewrite (attempt_returns _ o _ _ Ho). fold l lookup.
      destruct (runListing pool l _) as [[e | r] log']; reflexivity. }
    rewrite Hfirst. intro H200.
    rewrite (listing_ends l _ onError) by
      (first [ intro; discriminate | assumption ]).
    unfold requestFrom at 1 2 3. cbn [paramsId qSortOrder].
    rewrite Hid. cbn [negb].
    unfold run, tryCatch, bind at 1. rewrite G.
    rewrite (attempt_returns _ o _ _ Hundefined). rewrite Hplan. fold lookup.
    destruct (runListing pool l _) as [[e | r] log']; reflexivity.
  - unfold run, tryCatch, bind at 1.
    unfold validateResourceExists, bind, poolQuery. fold lookup.
    rewrite Hlookup. intro H200. discriminate H200.
Qed.

End Reproduced.

(** C8 (as stated): resubmitting what [links.self] and [meta.filters]
    carry reproduces the result set.  Against the unchanged two-sales
    store, [GET /api/metrics/sales?sortBy=amount&sortOrder=asc&limit=1]
    returns the cheapest sale; the request rebuilt from the response has
    lost the sort parameters, is ordered by date and returns the other
    sale. *)
Lemma resubmit_loses_sort :
  let first := @SalesController.listSales sampleParser twoSalesStore
                 cheapestFirst in
  let again := @SalesController.listSales sampleParser twoSalesStore
                 (resubmit "" (body (fst first))) in
  getPath ["links"; "self"] (body (fst first))
    = VStr "/api/metrics/sales?page=1&limit=1" /\
  qPage (resubmit "" (body (fst first))) = Some "1" /\
  qLimit (resubmit "" (body (fst first))) = Some "1" /\
  get "data" (body (fst first)) = VArr [saleB] /\
  get "data" (body (fst again)) = VArr [saleA] /\
  ~ (get "data" (body (fst again)) = get "data" (body (fst first))).
Proof. vm_compute. repeat split. discriminate. Qed.

(** C8 (amended): [links.self] is built from the resolved page and limit
    only.  Take a listing request whose page, limit and offset are safe
    integers, whose path id holds neither [?] nor [#], whose sort
    parameters resolve to the endpoint's defaults and, for the sales
    listing, whose amount bounds are absent or read as finite numbers.
    When it is answered 200, the request rebuilt from the page and limit
    of [links.self] and the filters echoed in [meta.filters] of that
    response makes the controller send the same statements with the same
    values, and gets the same response from an unchanged store.  Sort
    parameters are neither in the links nor in the echo. *)
Theorem resubmit_reproduces_listing `{DateParser} (req : request) (pool : Pool) :
  (forall data pg total baseUrl filters,
     getPath ["links"; "self"]
       (formatPaginatedResponse data pg total baseUrl [("filters", filters)])
     = VStr (baseUrl +:+ "?page=" +:+ intToString (page pg)
             +:+ "&limit=" +:+ intToString (limit pg))) /\
  (safeWindow (getPaginationParams (qPage req) (qLimit req)) ->
   plainSegment (paramsId req) ->
   (sortIsDefault SalesController.validSortColumns "date" "desc" req ->
    echoable (SalesController.validAmount (qMinAmount req)) ->
    echoable (SalesController.validAmount (qMaxAmount req)) ->
    reproduced (SalesController.listSales pool) req) /\
   (sortIsDefault UserController.validSortColumns "date" "desc" req ->
    reproduced (UserController.getUserSales pool) req) /\
   (sortIsDefault GroupController.userSortColumns "name" "asc" req ->
    reproduced (GroupController.getGroupUsers pool) req) /\
   (sortIsDefault GroupController.salesSortColumns "date" "desc" req ->
    reproduced (GroupController.getGroupSales pool) req)).
Proof.
  split; [reflexivity|].
  intros _ (Hq & Hf).
  assert (Hbase : forall c a b,
            lacks c a = true -> lacks c (paramsId req) = true ->
            lacks c b = true ->
            lacks c (a +:+ paramsId req +:+ b) = true).
  { intros c a b Ha Hid Hb. rewrite !lacks_append, Ha, Hid, Hb. reflexivity. }
  split; [|split; [|split]].
  - apply listSales_reproduced.
  - intros [Hc Ho].
    apply (guarded_listing_reproduced pool req "User ID is required" "users"
             "desc" (@UserController.getUserSalesPlan _));
      [ assumption | reflexivity
      | apply Hbase; [reflexivity | assumption | reflexivity]
      | apply Hbase; [reflexivity | assumption | reflexivity]
      | apply getUserSalesPlan_resubmitted; assumption ].
  - intros [Hc Ho].
    apply (guarded_listing_reproduced pool req "Group ID is required" "groups"
             "asc" GroupController.getGroupUsersPlan);
      [ assumption | reflexivity
      | apply Hbase; [reflexivity | assumption | reflexivity]
      | apply Hbase; [reflexivity | assumption | reflexivity]
      | apply getGroupUsersPlan_resubmitted; assumption ].
  - intros [Hc Ho].
    apply (guarded_listing_reproduced pool req "Group ID is required" "groups"
             "desc" (@GroupController.getGroupSalesPlan _));
      [ assumption | reflexivity
      | apply Hbase; [reflexivity | assumption | reflexivity]
      | apply Hbase; [reflexivity | assumption | reflexivity]
      | apply getGroupSalesPlan_resubmitted; assumption ].
Qed.

Lemma resubmit_reproduces_listing_witness :
  let first := @UserController.getUserSales sampleParser manySalesStore
                 filteredRequest in
  safeWindow (getPaginationParams (qPage filteredRequest)
                (qLimit filteredRequest)) /\
  plainSegment (paramsId filteredRequest) /\
  sortIsDefault UserController.validSortColumns "date" "desc" filteredRequest /\
  status (fst first) = 200 /\
  getPath ["links"; "self"] (body (fst first))
    = VStr "/api/metrics/users/42/sales?page=2&limit=10" /\
  qPage (resubmit "42" (body (fst first))) = Some "2" /\
  qStartDate (resubmit "42" (body (fst first))) = Some "2021-02-01" /\
  @UserController.getUserSales sampleParser manySalesStore
    (resubmit "42" (body (fst first)))
  = first.
Proof.
  destruct (@resubmit_reproduces_listing sampleParser filteredRequest
              manySalesStore)
    as (_ & Hlistings).
  assert (Hw : safeWindow (getPaginationParams (qPage filteredRequest)
                             (qLimit filteredRequest)))
    by (vm_compute; intuition discriminate).
  assert (Hp : plainSegment (paramsId filteredRequest)) by (split; reflexivity).
  assert (Hs : sortIsDefault UserController.validSortColumns "date" "desc"
                 filteredRequest) by (split; reflexivity).
  destruct (Hlistings Hw Hp) as (_ & Huser & _).
  cbn zeta. split; [exact Hw|]. split; [exact Hp|]. split; [exact Hs|].
  split; [reflexivity|]. split; [reflexivity|]. split; [reflexivity|].
  split; [reflexivity|].
  exact (Huser Hs eq_refl).
Defined.

(** * Further properties of the controllers *)

Section ControllerLogic.

Variable I : call -> Prop.
Variable E : error -> Prop.

Lemma triple_ret {A} (a : A) (P : A -> Prop) : P a -> triple I E (ret a) P.
Proof. intros Ha log Hlog. split; assumption. Qed.

Lemma triple_throw {A} (e : error) (P : A -> Prop) :
  E e -> triple I E (throw e) P.
Proof. intros He log Hlog. split; assumption. Qed.

Lemma triple_bind {A B} (m : M A) (k : A -> M B)
    (P : A -> Prop) (Q : B -> Prop) :
  triple I E m P -> (forall a, P a -> triple I E (k a) Q) ->
  triple I E (bind m k) Q.
Proof.
  intros Hm Hk log Hlog. unfold bind.
  destruct (Hm log Hlog) as (Hlog' & Hres).
  destruct (m log) as [[e | a] log']; simpl in *.
  - split; assumption.
  - apply Hk; assumption.
Qed.

Lemma triple_query (pool : Pool) (t : string) (vs : list value) :
  I (Call t vs) -> (forall msg, E (plainError msg)) ->
  triple I E (poolQuery pool t vs) (fun _ => True).
Proof.
  intros Hcall Herr log Hlog. unfold poolQuery.
  assert (Hlog' : Forall I (log ++ [Call t vs])).
  { apply Forall_app. split; [assumption | repeat constructor; assumption]. }
  destruct (pool t vs); simpl; split; auto.
Qed.

Lemma triple_queryAll3 (pool : Pool) (c1 c2 c3 : call) :
  I c1 -> I c2 -> I c3 -> (forall msg, E (plainError msg)) ->
  triple I E (queryAll3 pool c1 c2 c3) (fun _ => True).
Proof.
  intros H1 H2 H3 Herr log Hlog. unfold queryAll3.
  assert (Hlog' : Forall I (log ++ [c1; c2; c3])).
  { apply Forall_app. split; [assumption | repeat constructor; assumption]. }
  destruct (pool (text c1) (values c1)), (pool (text c2) (values c2)),
    (pool (text c3) (values c3)); simpl; split; auto.
Qed.

Lemma triple_propertyOf (k : string) (v : value) :
  (forall msg, E (plainError msg)) ->
  triple I E (propertyOf k v) (fun _ => True).
Proof.
  intros Herr log Hlog. unfold propertyOf.
  destruct v; simpl; split; auto.
Qed.

Lemma triple_countOf (rows : list value) :
  (forall msg, E (plainError msg)) ->
  triple I E (countOf rows) (fun _ => True).
Proof.
  intros Herr log Hlog. unfold countOf.
  destruct rows as [|[] ?]; simpl; split; auto.
Qed.

Lemma triple_attempt {A} (r : error + A) (P : A -> Prop) :
  match r with
  | inl e => E e
  | inr a => P a
  end ->
  triple I E (attempt r) P.
Proof. intros Hr log Hlog. split; assumption. Qed.

Lemma triple_validateSortOrder (v : value) (d : string) :
  In d validOrders -> (forall e, statusCode e = None -> E e) ->
  triple I E (attempt (validateSortOrder v d)) (fun o => In o validOrders).
Proof.
  intros Hd He. apply triple_attempt.
  destruct (validateSortOrder v d) as [e | o] eqn:Ev.
  - apply He. apply (validateSortOrder_throws _ _ _ Ev).
  - apply (validateSortOrder_member _ _ _ Hd Ev).
Qed.

Lemma triple_run (m : M response) (P : response -> Prop)
    (handler : error -> response) :
  triple I E m P ->
  let out := run (tryCatch m handler) in
  Forall I (snd out) /\ (P (fst out) \/ exists e, E e /\ fst out = handler e).
Proof.
  intros Hm. unfold run, tryCatch.
  destruct (Hm [] (Forall_nil I)) as (Hlog & Hres).
  destruct (m []) as [[e | r] log]; simpl in *.
  - split; [assumption|]. right. exists e. split; [assumption | reflexivity].
  - split; [assumption|]. left. assumption.
Qed.

End ControllerLogic.

Ltac logic_step :=
  lazymatch goal with
  | |- triple _ _ (bind (attempt (validateSortOrder _ _)) _) _ =>
      apply (triple_bind _ _ _ _ (fun o => In o validOrders));
      [ apply triple_validateSortOrder; [cbv; tauto | ]
      | let o := fresh "o" in
        let Ho := fresh "Ho" in
        intros o Ho ]
  | |- triple _ _ (bind _ _) _ =>
      apply (triple_bind _ _ _ _ (fun _ => True)); [ | intros ? _ ]
  | |- triple _ _ (poolQuery _ _ _) _ => apply triple_query
  | |- triple _ _ (ret _) _ => apply triple_ret
  | |- triple _ _ (throw _) _ => apply triple_throw
  | |- triple _ _ (countOf _) _ => apply triple_countOf
  | |- triple _ _ (propertyOf _ _) _ => apply triple_propertyOf
  | |- triple _ _ (queryAll3 _ _ _ _) _ => apply triple_queryAll3
  | |- triple _ _ (validateResourceExists _ _ _) _ =>
      unfold validateResourceExists
  | |- triple _ _ (runListing _ _) _ => unfold runListing
  | |- triple _ _ (if ?c then _ else _) _ => destruct c
  | |- triple _ _ (match ?rows with [] => _ | _ :: _ => _ end) _ =>
      destruct rows
  | |- triple _ _ _ _ =>
      match goal with
      | x : (_ * _ * _)%type |- _ => destruct x as [[? ?] ?]
      end
  end.

Ltac outcome_of kind body :=
  let H := fresh "H" in
  pose proof (triple_run (fun _ => True) (guardThrows kind) body
                (fun r => status r = 200
                          \/ r = errorResponse 400 (kind +:+ " ID is required"))
                onError) as H;
  cbn zeta in H.

Section Outcomes.

Context `{DateParser} `{NumberPrinter}.
Variable pool : Pool.
Variable req : request.

Lemma guarded_outcome (kind : string) (m : M response) :
  triple (fun _ => True) (guardThrows kind) m
    (fun r => status r = 200
              \/ r = errorResponse 400 (kind +:+ " ID is required")) ->
  expectedOutcome kind (fst (run (tryCatch m onError))).
Proof.
  intro Hm.
  destruct (triple_run _ _ m _ onError Hm) as (_ & [[H200 | H400] | (e & He & ->)]).
  - left. assumption.
  - right. left. assumption.
  - destruct He as [Hnone | ->].
    + right. right. right. unfold onError. rewrite Hnone. reflexivity.
    + right. right. left. reflexivity.
Qed.

Lemma plain_outcome (m : M response) :
  triple (fun _ => True) (fun e => statusCode e = None) m
    (fun r => status r = 200) ->
  let r := fst (run (tryCatch m onErrorPlain)) in
  status r = 200 \/ r = errorResponse 500 "Internal server error".
Proof.
  intro Hm.
  destruct (triple_run _ _ m _ onErrorPlain Hm) as (_ & [H200 | (e & He & ->)]).
  - left. assumption.
  - right. reflexivity.
Qed.

Lemma sale_outcome (m : M response) :
  triple (fun _ => True) (fun e => statusCode e = None) m
    (fun r => status r = 200
              \/ r = errorResponse 400 "Sale ID is required"
              \/ r = errorResponse 404 "Sale not found") ->
  expectedOutcome "Sale" (fst (run (tryCatch m onErrorPlain))).
Proof.
  intro Hm.
  destruct (triple_run _ _ m _ onErrorPlain Hm)
    as (_ & [[H200 | [H400 | H404]] | (e & He & ->)]).
  - left. assumption.
  - right. left. assumption.
  - right. right. left. assumption.
  - right. right. right. reflexivity.
Qed.

Ltac outcome_steps :=
  cbn zeta;
  repeat (logic_step;
          try exact I;
          try reflexivity;
          try (intros ? ?; assumption);
          try (intros ? ?; left; assumption);
          try (intro; left; reflexivity);
          try (intro; reflexivity);
          try (left; reflexivity);
          try (right; left; reflexivity);
          try (right; right; reflexivity);
          try (right; reflexivity)).

(** X3: whatever the store answers, a controller ends in one of four
    ways: 200, 400 with the message naming the missing id, 404 with the
    message naming the entity kind, or 500 with the generic message.
    The controllers without a path id end in 200 or that 500.  The text
    of a store failure never reaches the response. *)
Theorem controllers_expected_outcomes :
  expectedOutcome "User" (fst (UserController.getUserSales pool req)) /\
  expectedOutcome "User" (fst (UserController.getUserSalesSummary pool req)) /\
  expectedOutcome "User" (fst (UserController.getUserPerformance pool req)) /\
  expectedOutcome "Group" (fst (GroupController.getGroupUsers pool req)) /\
  expectedOutcome "Group" (fst (GroupController.getGroupSales pool req)) /\
  expectedOutcome "Group" (fst (GroupController.getGroupSalesSummary pool req)) /\
  expectedOutcome "Group" (fst (GroupController.getGroupPerformance pool req)) /\
  expectedOutcome "Sale" (fst (SalesController.getSale pool req)) /\
  (let r := fst (SalesController.listSales pool req) in
   status r = 200 \/ r = errorResponse 500 "Internal server error") /\
  (let r := fst (UserController.getAllUsersPerformance pool req) in
   status r = 200 \/ r = errorResponse 500 "Internal server error") /\
  (let r := fst (GroupController.getAllGroupsPerformance pool req) in
   status r = 200 \/ r = errorResponse 500 "Internal server error").
Proof.
  repeat match goal with |- _ /\ _ => split end.
  - apply guarded_outcome. outcome_steps.
  - apply guarded_outcome. outcome_steps.
  - apply guarded_outcome. outcome_steps.
  - apply guarded_outcome. outcome_steps.
  - apply guarded_outcome. outcome_steps.
  - apply guarded_outcome. outcome_steps.
  - apply guarded_outcome. outcome_steps.
  - apply sale_outcome. outcome_steps.
  - apply plain_outcome. outcome_steps.
  - apply plain_outcome. outcome_steps.
  - apply plain_outcome. outcome_steps.
    unfold GroupController.allGroupsStatements. outcome_steps.
Qed.

End Outcomes.

Section BindingLemmas.






End BindingLemmas.



Section Bindings.

Context `{DateParser} `{NumberPrinter}.
Variable pool : Pool.
Variable req : request.











End Bindings.


Section AllUsers.

Context `{DateParser}.
Variable pool : Pool.
Variable req : request.

Variable o : string.
Hypothesis Ho : validateSortOrder (qSortOrder req) "desc" = inr o.







End AllUsers.

(** X1: a request without a path id is answered 400 with the message
    naming the id that is missing, by every controller that takes one,
    before any statement is sent to the store. *)
Theorem missing_path_id_is_400 `{DateParser} `{NumberPrinter}
    (pool : Pool) (req : request) :
  paramsId req = "" ->
  UserController.getUserSales pool req
    = (errorResponse 400 "User ID is required", []) /\
  UserController.getUserSalesSummary pool req
    = (errorResponse 400 "User ID is required", []) /\
  UserController.getUserPerformance pool req
    = (errorResponse 400 "User ID is required", []) /\
  GroupController.getGroupUsers pool req
    = (errorResponse 400 "Group ID is required", []) /\
  GroupController.getGroupSales pool req
    = (errorResponse 400 "Group ID is required", []) /\
  GroupController.getGroupSalesSummary pool req
    = (errorResponse 400 "Group ID is required", []) /\
  GroupController.getGroupPerformance pool req
    = (errorResponse 400 "Group ID is required", []) /\
  SalesController.getSale pool req
    = (errorResponse 400 "Sale ID is required", []).
Proof.
  intro Hid.
  unfold UserController.getUserSales, UserController.getUserSalesSummary,
    UserController.getUserPerformance, GroupController.getGroupUsers,
    GroupController.getGroupSales, GroupController.getGroupSalesSummary,
    GroupController.getGroupPerformance, SalesController.getSale.
  rewrite Hid. repeat split.
Qed.

Lemma missing_path_id_is_400_witness :
  paramsId noId = "" /\
  @SalesController.getSale samplePrinter downStore noId
    = (errorResponse 400 "Sale ID is required", []).
Proof.
  destruct (@missing_path_id_is_400 sampleParser samplePrinter downStore noId
              eq_refl) as (_ & _ & _ & _ & _ & _ & _ & Hsale).
  split; [reflexivity | exact Hsale].
Defined.

(** X2: when the store rejects the existence lookup, every guarded
    controller answers 500 with the generic message, and the lookup is
    the only statement it has sent. *)
Theorem failed_lookup_is_500 `{DateParser} (pool : Pool) (req : request) :
  nonEmpty (paramsId req) = true ->
  (pool "SELECT * FROM users WHERE id = $1" [VStr (paramsId req)] = None ->
   let failed :=
     (errorResponse 500 "Internal server error",
      [Call "SELECT * FROM users WHERE id = $1" [VStr (paramsId req)]]) in
   UserController.getUserSales pool req = failed /\
   UserController.getUserSalesSummary pool req = failed /\
   UserController.getUserPerformance pool req = failed) /\
  (pool "SELECT * FROM groups WHERE id = $1" [VStr (paramsId req)] = None ->
   let failed :=
     (errorResponse 500 "Internal server error",
      [Call "SELECT * FROM groups WHERE id = $1" [VStr (paramsId req)]]) in
   GroupController.getGroupUsers pool req = failed /\
   GroupController.getGroupSales pool req = failed /\
   GroupController.getGroupSalesSummary pool req = failed /\
   GroupController.getGroupPerformance pool req = failed).
Proof.
  intro Hid. split; intros Hrows failed; subst failed.
  - pose proof (fun log => guard_fails pool (paramsId req) "users" log Hrows) as G.
    repeat split.
    + unfold UserController.getUserSales. guarded_controller Hid G.
    + unfold UserController.getUserSalesSummary. guarded_controller Hid G.
    + unfold UserController.getUserPerformance. guarded_controller Hid G.
  - pose proof (fun log => guard_fails pool (paramsId req) "groups" log Hrows) as G.
    repeat split.
    + unfold GroupController.getGroupUsers. guarded_controller Hid G.
    + unfold GroupController.getGroupSales. guarded_controller Hid G.
    + unfold GroupController.getGroupSalesSummary. guarded_controller Hid G.
    + unfold GroupController.getGroupPerformance. guarded_controller Hid G.
Qed.

Lemma failed_lookup_is_500_witness :
  nonEmpty (paramsId request0) = true /\
  downStore "SELECT * FROM users WHERE id = $1" [VStr "7"] = None /\
  @UserController.getUserSales sampleParser downStore request0
  = (errorResponse 500 "Internal server error",
     [Call "SELECT * FROM users WHERE id = $1" [VStr "7"]]).
Proof.
  destruct (@failed_lookup_is_500 sampleParser downStore request0 eq_refl)
    as (Husers & _).
  split; [reflexivity|]. split; [reflexivity|].
  apply (Husers eq_refl).
Defined.





(** X6: the user performance controller sends its statements one after
    the other, each scoped to the same user id and the same resolved date
    range: trends, then summary, then ranking.  The first statement the
    store rejects ends the request with the generic 500 and the later
    ones are not sent; when all are answered the response is 200 and
    carries the first summary row, the trend rows and the ranking rows. *)
Theorem getUserPerformance_sequence `{DateParser}
    (pool : Pool) (req : request) (u : value) (us : list value) :
  let id := paramsId req in
  let validStartDate := parseDate (qStartDate req) (VStr "2021-01-01") in
  let validEndDate := parseDate (qEndDate req) (VStr "2021-12-31") in
  let validInterval := validateInterval (qInterval req) "month" in
  let lookup := Call "SELECT * FROM users WHERE id = $1" [VStr id] in
  let trends :=
    Call UserController.userTrendsQuery
         [VStr validInterval; VStr id; validStartDate; validEndDate] in
  let summary :=
    Call UserController.userSummaryQuery [VStr id; validStartDate; validEndDate] in
  let ranking :=
    Call UserController.userRankingQuery [VStr id; validStartDate; validEndDate] in
  let failed := errorResponse 500 "Internal server error" in
  let out := UserController.getUserPerformance pool req in
  nonEmpty id = true ->
  pool (text lookup) (values lookup) = Some (u :: us) ->
  match pool (text trends) (values trends),
        pool (text summary) (values summary),
        pool (text ranking) (values ranking) with
  | None, _, _ => out = (failed, [lookup; trends])
  | Some _, None, _ => out = (failed, [lookup; trends; summary])
  | Some _, Some _, None => out = (failed, [lookup; trends; summary; ranking])
  | Some t, Some s, Some r =>
      snd out = [lookup; trends; summary; ranking] /\
      status (fst out) = 200 /\
      get "data" (body (fst out))
      = VObj [ ("summary", firstRow s); ("trends", VArr t);
               ("group_rankings", VArr r) ]
  end.
Proof.
  intros id validStartDate validEndDate validInterval lookup trends summary
    ranking failed out Hid Hlookup.
  subst out lookup trends summary ranking. cbn [text values] in *.
  unfold UserController.getUserPerformance, run, tryCatch, bind.
  fold id. rewrite Hid. cbn [negb].
  unfold validateResourceExists, bind, poolQuery. cbn [append].
  rewrite Hlookup. fold validStartDate validEndDate validInterval.
  destruct (pool UserController.userTrendsQuery _) as [t|]; [|reflexivity].
  destruct (pool UserController.userSummaryQuery _) as [s|]; [|reflexivity].
  destruct (pool UserController.userRankingQuery _) as [r|]; [|reflexivity].
  repeat split.
Qed.

Lemma getUserPerformance_sequence_witness :
  let out := @UserController.getUserPerformance sampleParser busyUserStore
               request0 in
  snd out
  = [ Call "SELECT * FROM users WHERE id = $1" [VStr "7"];
      Call UserController.userTrendsQuery
           [VStr "month"; VStr "7"; VStr "2021-01-01"; VStr "2021-12-31"];
      Call UserController.userSummaryQuery
           [VStr "7"; VStr "2021-01-01"; VStr "2021-12-31"];
      Call UserController.userRankingQuery
           [VStr "7"; VStr "2021-01-01"; VStr "2021-12-31"] ] /\
  status (fst out) = 200 /\
  get "data" (body (fst out))
  = VObj [ ("summary", VObj [("total_sales", VStr "3")]);
           ("trends", VArr [VObj [("total_sales", VStr "3")]]);
           ("group_rankings", VArr [VObj [("total_sales", VStr "3")]]) ].
Proof.
  exact (@getUserPerformance_sequence sampleParser busyUserStore request0
           (VObj [("id", VInt 7); ("name", VStr "Ann"); ("role", VStr "rep")])
           [] eq_refl eq_refl).
Defined.

(** X7: a sale id that matches no row is answered 404 with the message
    "Sale not found", and the statement for the owner's groups is never
    sent. *)
Theorem getSale_not_found `{NumberPrinter} (pool : Pool) (req : request) :
  nonEmpty (paramsId req) = true ->
  pool SalesController.saleQuery [VStr (paramsId req)] = Some [] ->
  SalesController.getSale pool req
  = (errorResponse 404 "Sale not found",
     [Call SalesController.saleQuery [VStr (paramsId req)]]).
Proof.
  intros Hid Hrows.
  unfold SalesController.getSale, run, tryCatch, bind, poolQuery.
  rewrite Hid. cbn [negb]. rewrite Hrows. reflexivity.
Qed.

Lemma getSale_not_found_witness :
  nonEmpty (paramsId sale999) = true /\
  oneSaleStore SalesController.saleQuery [VStr "999"] = Some [] /\
  @SalesController.getSale samplePrinter oneSaleStore sale999
  = (errorResponse 404 "Sale not found",
     [Call SalesController.saleQuery [VStr "999"]]).
Proof.
  split; [reflexivity|]. split; [reflexivity|].
  apply (@getSale_not_found samplePrinter oneSaleStore sale999); reflexivity.
Defined.

Section Fields.

Lemma lookup_setField (k k' : string) (v : value)
    (fields : list (string * value)) :
  lookup k (setField k' v fields)
  = if String.eqb k k' then Some v else lookup k fields.
Proof.
  induction fields as [|[k0 v0] rest IH]; simpl.
  - destruct (String.eqb k k'); reflexivity.
  - destruct (String.eqb_spec k' k0) as [-> | Hne]; simpl.
    + destruct (String.eqb k k0); reflexivity.
    + rewrite IH. destruct (String.eqb_spec k k0) as [-> | Hne'].
      * destruct (String.eqb_spec k0 k') as [E | _]; [congruence | reflexivity].
      * reflexivity.
Qed.

End Fields.

(** X8: for a sale that is found, the second statement is bound to the
    [user_id] of the found row; when it is answered the response is 200,
    exactly those two statements were sent, [data] carries every column
    of the row plus [user_groups] with the group rows (replacing a column
    of that name), and the user link is built from the row's
    [user_id]. *)
Theorem getSale_found `{NumberPrinter} (pool : Pool) (req : request)
    (columns : list (string * value)) (more groups : list value) :
  let row := VObj columns in
  let owner := get "user_id" row in
  let out := SalesController.getSale pool req in
  nonEmpty (paramsId req) = true ->
  pool SalesController.saleQuery [VStr (paramsId req)] = Some (row :: more) ->
  pool SalesController.groupsQuery [owner] = Some groups ->
  snd out = [ Call SalesController.saleQuery [VStr (paramsId req)];
              Call SalesController.groupsQuery [owner] ] /\
  status (fst out) = 200 /\
  getPath ["data"; "user_groups"] (body (fst out)) = VArr groups /\
  (forall k, k <> "user_groups" ->
             getPath ["data"; k] (body (fst out)) = get k row) /\
  getPath ["links"; "self"] (body (fst out))
  = VStr ("/api/metrics/sales/" +:+ paramsId req) /\
  getPath ["links"; "user"] (body (fst out))
  = VStr ("/api/metrics/users/" +:+ toText owner).
Proof.
  intros row owner out Hid Hsale Hgroups. subst out.
  unfold SalesController.getSale, run, tryCatch, bind, poolQuery.
  rewrite Hid. cbn [negb]. rewrite Hsale.
  cbn [propertyOf row ret]. fold row owner. rewrite Hgroups.
  cbn [fst snd json status body app].
  split; [reflexivity|]. split; [reflexivity|].
  split.
  { change (getPath ["data"; "user_groups"] _)
      with (get "user_groups"
              (VObj (setField "user_groups" (VArr groups) columns))).
    unfold get. rewrite lookup_setField. reflexivity. }
  split.
  { intros k Hk.
    change (getPath ["data"; k] _)
      with (get k (VObj (setField "user_groups" (VArr groups) columns))).
    unfold get, row. rewrite lookup_setField.
    destruct (String.eqb_spec k "user_groups"); [contradiction | reflexivity]. }
  split; reflexivity.
Qed.

Lemma getSale_found_witness :
  let out := @SalesController.getSale samplePrinter oneSaleStore sale5 in
  status (fst out) = 200 /\
  getPath ["data"; "amount"] (body (fst out)) = VStr "90.00" /\
  getPath ["links"; "user"] (body (fst out)) = VStr "/api/metrics/users/3".
Proof.
  destruct (@getSale_found samplePrinter oneSaleStore sale5
              [("id", VInt 5); ("user_id", VInt 3); ("user_name", VStr "Ann");
               ("user_role", VStr "rep"); ("amount", VStr "90.00");
               ("date", VStr "2021-06-01")] []
              [VObj [("id", VInt 1); ("name", VStr "Northeast")];
               VObj [("id", VInt 2); ("name", VStr "Key accounts")]]
              eq_refl eq_refl eq_refl)
    as (_ & Hstatus & _ & Hcols & _ & Huser).
  cbn zeta. split; [exact Hstatus|].
  split; [apply (Hcols "amount"); discriminate | exact Huser].
Defined.





Section Spread.

Lemma lookup_app (k : string) (a b : list (string * value)) :
  lookup k (a ++ b)
  = match lookup k a with
    | Some v => Some v
    | None => lookup k b
    end.
Proof.
  induction a as [|[k0 v0] a IH]; simpl; [reflexivity|].
  destruct (String.eqb k k0); [reflexivity | exact IH].
Qed.

Lemma lookup_spread (k : string) (extra fields : list (string * value)) :
  lookup k (spread fields extra)
  = match lookup k (List.rev extra) with
    | Some v => Some v
    | None => lookup k fields
    end.
Proof.
  unfold spread. revert fields.
  induction extra as [|[k' v'] rest IH]; intro fields; [reflexivity|].
  cbn [fold_left fst snd List.rev]. rewrite IH, lookup_setField, lookup_app.
  simpl.
  destruct (lookup k (List.rev rest)); [reflexivity|].
  destruct (String.eqb k k'); reflexivity.
Qed.

End Spread.

(** X11: in the envelope of a listing, a member of the additional
    metadata replaces the computed member of the same name, the computed
    [pagination] block included, and the last of several same-named
    members wins; without such a member [meta.pagination] is the computed
    block, and [meta] has no other member. *)
Theorem additionalMeta_overrides (data : value) (pg : pagination)
    (total : option Z) (baseUrl k : string)
    (additionalMeta : list (string * value)) :
  let r := formatPaginatedResponse data pg total baseUrl additionalMeta in
  getPath ["meta"; k] r
  = match lookup k (List.rev additionalMeta) with
    | Some v => v
    | None =>
        if String.eqb k "pagination"
        then VObj [ ("page", VInt (page pg)); ("limit", VInt (limit pg));
                    ("total", VNum (totalToNumber total));
                    ("pages",
                      VNum (integralToNumber (ceilDiv total (limit pg)))) ]
        else VUndefined
    end.
Proof.
  cbn zeta. unfold formatPaginatedResponse.
  cbn [getPath get lookup String.eqb Ascii.eqb Bool.eqb].
  rewrite lookup_spread.
  destruct (lookup k (List.rev additionalMeta)); [reflexivity|].
  cbn [lookup]. destruct (String.eqb k "pagination"); reflexivity.
Qed.

(** X12: the page count of a listing envelope is always an integer when
    the limit comes from the pagination calculator and the total is a
    number: the calculator never hands on a zero limit, so the division
    cannot give an infinity.  When the total is [NaN] (the count cell
    could not be read), [total] and [pages] are [NaN], there is no next
    link and the last link carries [page=NaN]. *)
Theorem listing_page_count (rawPage rawLimit : option string)
    (data filters : value) (baseUrl : string) :
  let pg := getPaginationParams rawPage rawLimit in
  (forall T,
     exists n,
       getPath ["meta"; "pagination"; "pages"]
         (formatPaginatedResponse data pg (Some T) baseUrl
            [("filters", filters)]) = VInt n) /\
  (let r := formatPaginatedResponse data pg None baseUrl
              [("filters", filters)] in
   getPath ["meta"; "pagination"; "total"] r = VNum NaN /\
   getPath ["meta"; "pagination"; "pages"] r = VNum NaN /\
   getPath ["links"; "next"] r = VNull /\
   getPath ["links"; "last"] r = VStr (pageLink baseUrl "NaN" (limit pg))).
Proof.
  cbn zeta. split.
  - intro T.
    destruct (ceilDiv_ceiling T _ (limit_nonzero rawPage rawLimit))
      as (n & Hn & _).
    exists n. unfold formatPaginatedResponse. rewrite Hn. reflexivity.
  - repeat split.
Qed.

(** X13: the links of a listing lead to the neighbouring windows, as
    long as the windows stay within the safe integers (page, limit and
    offset up to 2^53 - 1 in magnitude).  With the page and limit a link
    carries, the pagination calculator returns the next page with the
    offset advanced by one limit, the previous page with the offset
    moved back by one limit, and page 1 with offset 0 for the first
    link.  The one exception is page -1, whose next link carries
    [page=0] and therefore leads to page 1. *)
Theorem links_lead_to_neighbours (rawPage rawLimit : option string)
    (data filters : value) (total : option Z) (baseUrl : string) :
  let pg := getPaginationParams rawPage rawLimit in
  let r := formatPaginatedResponse data pg total baseUrl
             [("filters", filters)] in
  let follow (p : Z) :=
    getPaginationParams (Some (intToString p))
                        (Some (intToString (limit pg))) in
  let next := {| limit := limit pg; offset := offset pg + limit pg;
                 page := page pg + 1 |} in
  let prev := {| limit := limit pg; offset := offset pg - limit pg;
                 page := page pg - 1 |} in
  safeWindow pg ->
  (getPath ["links"; "next"] r <> VNull ->
   getPath ["links"; "next"] r
   = VStr (pageLink baseUrl (intToString (page pg + 1)) (limit pg))) /\
  (getPath ["links"; "prev"] r <> VNull ->
   getPath ["links"; "prev"] r
   = VStr (pageLink baseUrl (intToString (page pg - 1)) (limit pg))) /\
  (page pg <> -1 -> safeWindow next -> follow (page pg + 1) = next) /\
  (page pg <> 1 -> safeWindow prev -> follow (page pg - 1) = prev) /\
  follow 1 = {| limit := limit pg; offset := 0; page := 1 |} /\
  (page pg = -1 -> page (follow (page pg + 1)) = 1).
Proof.
  cbn zeta. intros _.
  pose proof (limit_nonzero rawPage rawLimit) as Hl.
  set (pg := getPaginationParams rawPage rawLimit) in *.
  assert (Hoff : offset pg = (page pg - 1) * limit pg) by reflexivity.
  assert (Hfollow : forall p, p <> 0 ->
            getPaginationParams (Some (intToString p))
                                (Some (intToString (limit pg)))
            = {| limit := limit pg; offset := (p - 1) * limit pg; page := p |}).
  { intros p Hp. unfold getPaginationParams.
    rewrite (orElse_reads_back p 1 Hp), (orElse_reads_back _ 100 Hl).
    reflexivity. }
  split.
  { unfold formatPaginatedResponse.
    cbn [getPath get lookup String.eqb Ascii.eqb Bool.eqb].
    destruct (ltIntegral (page pg) (ceilDiv total (limit pg)));
      [reflexivity | congruence]. }
  split.
  { unfold formatPaginatedResponse.
    cbn [getPath get lookup String.eqb Ascii.eqb Bool.eqb].
    destruct (1 <? page pg); [reflexivity | congruence]. }
  split.
  { intros Hp _. rewrite Hfollow by lia. f_equal. lia. }
  split.
  { intros Hp _. rewrite Hfollow by lia. f_equal. lia. }
  split.
  { rewrite Hfollow by lia. f_equal. }
  intro Hp. rewrite Hp. reflexivity.
Qed.

Lemma links_lead_to_neighbours_witness :
  let pg := getPaginationParams (Some "2") (Some "10") in
  safeWindow pg /\
  page pg <> -1 /\
  safeWindow {| limit := 10; offset := 20; page := 3 |} /\
  getPaginationParams (Some (intToString (page pg + 1)))
                      (Some (intToString (limit pg)))
  = {| limit := 10; offset := 20; page := 3 |}.
Proof.
  assert (Hw : safeWindow (getPaginationParams (Some "2") (Some "10")))
    by (vm_compute; intuition discriminate).
  assert (Hn : safeWindow {| limit := 10; offset := 20; page := 3 |})
    by (vm_compute; intuition discriminate).
  destruct (links_lead_to_neighbours (Some "2") (Some "10") (VArr []) VNull
              (Some 25) "/api/metrics/sales" Hw)
    as (_ & _ & Hnext & _).
  cbn zeta. split; [exact Hw|]. split; [discriminate|]. split; [exact Hn|].
  apply Hnext; [discriminate | exact Hn].
Defined.

Section BuilderInvariant.

Lemma pushCondition_keeps (fragment : string) (v : value) (b : builder) :
  wellNumbered b -> wellNumbered (pushCondition fragment v b).
Proof.
  unfold wellNumbered, pushCondition. cbn [paramIndex queryParams].
  intros ->. rewrite length_app. cbn [List.length]. lia.
Qed.

Lemma when_keeps (c : bool) (fragment : string) (v : value) (b : builder) :
  wellNumbered b -> wellNumbered (when c (pushCondition fragment v) b).
Proof.
  intro Hb. destruct c; [apply pushCondition_keeps|]; assumption.
Qed.

Lemma slice0_exact {A} (xs ys : list A) :
  slice0 (Z.of_nat (List.length xs)) (xs ++ ys) = xs.
Proof.
  unfold slice0. destruct (Z.ltb_spec (Z.of_nat (List.length xs)) 0); [lia|].
  rewrite Nat2Z.id, firstn_app, Nat.sub_diag, firstn_all. cbn [firstn].
  apply app_nil_r.
Qed.

Lemma slice_recovers_filters (b : builder) (extra : list value) :
  wellNumbered b ->
  slice0 (paramIndex b - 1) (queryParams b ++ extra) = queryParams b.
Proof.
  intro Hb. rewrite Hb.
  replace (Z.of_nat (List.length (queryParams b)) + 1 - 1)
    with (Z.of_nat (List.length (queryParams b))) by lia.
  apply slice0_exact.
Qed.

Lemma placeholders_skip (fragment rest : string) :
  noDollar fragment = true ->
  placeholders (fragment +:+ rest) = placeholders rest.
Proof.
  induction fragment as [|c r IH]; cbn [append noDollar placeholders];
    [reflexivity|].
  intro Hn. apply andb_true_iff in Hn. destruct Hn as (Hc & Hr).
  apply negb_true_iff in Hc. rewrite Hc. apply IH. assumption.
Qed.

Lemma numeral_noDollar (d : uint) :
  noDollar (NilEmpty.string_of_uint d) = true.
Proof. induction d; simpl; auto. Qed.

Lemma placeholders_index (n : Z) :
  0 <= n -> placeholders ("$" +:+ intToString n) = [n].
Proof.
  intro Hn. destruct (intToString_cases n) as (d & Hd & Hz & ->).
  destruct (Z.ltb_spec n 0); [lia|]. cbn [append placeholders].
  change (Ascii.eqb "$" "$") with true. cbn iota.
  rewrite digitsPrefix_print_all.
  pose proof (placeholders_skip (NilEmpty.string_of_uint d) ""
                (numeral_noDollar d)) as Hskip.
  rewrite append_empty in Hskip. rewrite Hskip. cbn [placeholders].
  destruct d; [contradiction | ..]; f_equal; lia.
Qed.

End BuilderInvariant.

(** X14: pushing a condition keeps the builder well numbered.  For a
    fragment without a dollar sign pushed on a well-numbered builder, the
    new condition references exactly one position, the position at which
    its value is bound; the values bound before stay where they were;
    and cutting the parameter list at [paramIndex - 1] gives back exactly
    the bound filter values, whatever was appended after them. *)
Theorem pushCondition_numbering (fragment : string) (v : value) (b : builder) :
  wellNumbered b ->
  noDollar fragment = true ->
  let b' := pushCondition fragment v b in
  wellNumbered b' /\
  placeholders (last (conditions b') "") = [paramIndex b] /\
  nth_error (queryParams b') (Z.to_nat (paramIndex b - 1)) = Some v /\
  firstn (List.length (queryParams b)) (queryParams b') = queryParams b /\
  (forall extra,
     slice0 (paramIndex b' - 1) (queryParams b' ++ extra) = queryParams b').
Proof.
  intros Hb Hfrag b'. subst b'.
  split; [apply pushCondition_keeps; assumption|].
  unfold pushCondition. cbn [conditions queryParams paramIndex].
  split.
  { rewrite last_last, placeholders_skip by assumption.
    apply placeholders_index. rewrite Hb. lia. }
  split.
  { rewrite Hb.
    replace (Z.to_nat (Z.of_nat (List.length (queryParams b)) + 1 - 1))
      with (List.length (queryParams b)) by lia.
    rewrite nth_error_app2 by lia. rewrite Nat.sub_diag. reflexivity. }
  split.
  { rewrite firstn_app, Nat.sub_diag, firstn_all. cbn [firstn].
    apply app_nil_r. }
  intro extra.
  apply (slice_recovers_filters (pushCondition fragment v b)).
  apply pushCondition_keeps. assumption.
Qed.

Lemma pushCondition_numbering_witness :
  let b := {| conditions := ["user_id = $1"]; queryParams := [VStr "42"];
              paramIndex := 2 |} in
  let b' := pushCondition "date >= " (VStr "2021-02-01") b in
  placeholders (last (conditions b') "") = [2] /\
  slice0 (paramIndex b' - 1) (queryParams b' ++ [VInt 10; VInt 0])
  = [VStr "42"; VStr "2021-02-01"].
Proof.
  destruct (pushCondition_numbering "date >= " (VStr "2021-02-01")
              {| conditions := ["user_id = $1"]; queryParams := [VStr "42"];
                 paramIndex := 2 |} eq_refl eq_refl)
    as (_ & Hplace & _ & _ & Hslice).
  cbn zeta. split; [exact Hplace | exact (Hslice [VInt 10; VInt 0])].
Defined.

Ltac count_params_are_filters :=
  rewrite !slice_recovers_filters
    by (repeat apply when_keeps; reflexivity).

(** X15: the count statement of a listing, its parameters and its
    conditions depend on the filters only: two requests with the same
    path id and filter values get the same count statement with the same
    parameters, whatever their page, limit, sort column and sort order,
    so the total they report against an unchanged store is the same. *)
Theorem count_ignores_page_and_sort `{DateParser} (a b : request)
    (orderA orderB : string) :
  sameFilters a b ->
  (countQuery (SalesController.listSalesPlan a orderA)
     = countQuery (SalesController.listSalesPlan b orderB) /\
   countParams (SalesController.listSalesPlan a orderA)
     = countParams (SalesController.listSalesPlan b orderB)) /\
  (countQuery (UserController.getUserSalesPlan a orderA)
     = countQuery (UserController.getUserSalesPlan b orderB) /\
   countParams (UserController.getUserSalesPlan a orderA)
     = countParams (UserController.getUserSalesPlan b orderB)) /\
  (countQuery (GroupController.getGroupUsersPlan a orderA)
     = countQuery (GroupController.getGroupUsersPlan b orderB) /\
   countParams (GroupController.getGroupUsersPlan a orderA)
     = countParams (GroupController.getGroupUsersPlan b orderB)) /\
  (countQuery (GroupController.getGroupSalesPlan a orderA)
     = countQuery (GroupController.getGroupSalesPlan b orderB) /\
   countParams (GroupController.getGroupSalesPlan a orderA)
     = countParams (GroupController.getGroupSalesPlan b orderB)).
Proof.
  intros (Hid & Hsd & Hed & Hu & Hg & Hlo & Hhi & Hr).
  unfold SalesController.listSalesPlan, UserController.getUserSalesPlan,
    GroupController.getGroupUsersPlan, GroupController.getGroupSalesPlan.
  cbn [countQuery countParams].
  count_params_are_filters.
  rewrite Hid, Hsd, Hed, Hu, Hg, Hlo, Hhi, Hr.
  repeat split.
Qed.

Lemma count_ignores_page_and_sort_witness :
  sameFilters pageTwo filteredRequest /\
  validateSortOrder (qSortOrder pageTwo) "desc" = inr "asc" /\
  validateSortOrder (qSortOrder filteredRequest) "desc" = inr "desc" /\
  countParams (@SalesController.listSalesPlan sampleParser pageTwo "asc")
  = countParams (@SalesController.listSalesPlan sampleParser filteredRequest
                   "desc") /\
  listQuery (@SalesController.listSalesPlan sampleParser pageTwo "asc")
  <> listQuery (@SalesController.listSalesPlan sampleParser filteredRequest
                  "desc").
Proof.
  assert (Hs : sameFilters pageTwo filteredRequest) by (repeat split).
  destruct (@count_ignores_page_and_sort sampleParser pageTwo filteredRequest
              "asc" "desc" Hs) as ((_ & Hparams) & _).
  split; [exact Hs|]. split; [reflexivity|]. split; [reflexivity|].
  split; [exact Hparams|].
  vm_compute. discriminate.
Defined.

(** X16: the sales listing adds one condition and binds one value per
    active filter, in both statements, and the count statement has a
    WHERE clause exactly when some filter is active.  An amount bound
    that was supplied counts as active even when it parsed to [NaN]. *)
Theorem listSales_one_condition_per_filter `{DateParser} (req : request)
    (order : string) :
  let l := SalesController.listSalesPlan req order in
  let n := countTrue (activeFilters req) in
  List.length (filterConditions l) = n /\
  List.length (countParams l) = n /\
  List.length (listParams l) = (n + 2)%nat /\
  contains " WHERE " (countQuery l) = negb (Nat.eqb n 0) /\
  (forall s, qMinAmount req = Some s -> nonEmpty s = true ->
             nth 3 (activeFilters req) false = true).
Proof.
  cbn zeta. unfold activeFilters, countTrue, SalesController.listSalesPlan.
  cbn [filterConditions countParams listParams countQuery].
  split; [|split; [|split; [|split]]].
  5: { intros s -> Hs. cbn [nth]. unfold SalesController.validAmount.
       rewrite Hs. reflexivity. }
  all: generalize (getPaginationParams (qPage req) (qLimit req)) as pg;
    generalize (parseDate (qStartDate req) VNull) as sd;
    generalize (parseDate (qEndDate req) VNull) as ed;
    generalize (SalesController.validAmount (qMinAmount req)) as lo;
    generalize (SalesController.validAmount (qMaxAmount req)) as hi;
    generalize (qUserId req) as u; generalize (qGroupId req) as g;
    intros g u hi lo ed sd pg;
    destruct (truthy sd), (truthy ed), (truthyQ u), (notNull lo),
      (notNull hi), (truthyQ g); reflexivity.
Qed.

Lemma listSales_one_condition_per_filter_witness :
  qMinAmount badMinAmount = Some "abc" /\
  nth 3 (@activeFilters sampleParser badMinAmount) false = true /\
  List.length (filterConditions (@SalesController.listSalesPlan sampleParser
                                   badMinAmount "desc")) = 1%nat.
Proof.
  destruct (@listSales_one_condition_per_filter sampleParser badMinAmount
              "desc")
    as (Hlen & _ & _ & _ & Hactive).
  split; [reflexivity|]. split; [apply (Hactive "abc"); reflexivity|].
  exact Hlen.
Defined.

(** X17: the statement texts of the sales listing are determined by which
    filters are active and by the resolved sort column and order: two
    requests that agree on those send the same listing text and the same
    count text, whatever values they carry.  No filter value is ever
    part of a statement text. *)
Theorem listSales_text_ignores_values `{DateParser} (a b : request)
    (order : string) :
  sameShape a b ->
  validateSortOrder (qSortOrder a) "desc" = inr order ->
  validateSortOrder (qSortOrder b) "desc" = inr order /\
  listQuery (SalesController.listSalesPlan a order)
  = listQuery (SalesController.listSalesPlan b order) /\
  countQuery (SalesController.listSalesPlan a order)
  = countQuery (SalesController.listSalesPlan b order) /\
  filterConditions (SalesController.listSalesPlan a order)
  = filterConditions (SalesController.listSalesPlan b order).
Proof.
  unfold sameShape, activeFilters. intros (Hflags & Hc & Ho) Ha.
  split; [rewrite <- Ho; assumption|].
  injection Hflags as H1 H2 H3 H4 H5 H6.
  unfold SalesController.listSalesPlan.
  cbn [listQuery countQuery filterConditions].
  rewrite Hc, H1, H2, H3, H4, H5, H6.
  generalize (validateSortColumn (qSortBy b) SalesController.validSortColumns
                "date") as c.
  intros c.
  destruct (truthy (parseDate (qStartDate b) VNull)),
    (truthy (parseDate (qEndDate b) VNull)), (truthyQ (qUserId b)),
    (notNull (SalesController.validAmount (qMinAmount b))),
    (notNull (SalesController.validAmount (qMaxAmount b))),
    (truthyQ (qGroupId b)); repeat split.
Qed.

Lemma listSales_text_ignores_values_witness :
  @sameShape sampleParser otherValues
    {| paramsId := ""; qPage := None; qLimit := None;
       qStartDate := Some "2021-02-01"; qEndDate := Some "2021-02-28";
       qUserId := Some "42"; qGroupId := None; qMinAmount := Some "12.5";
       qMaxAmount := None; qSortBy := VUndefined; qSortOrder := VUndefined;
       qInterval := VUndefined; qRole := None |} /\
  validateSortOrder (qSortOrder otherValues) "desc" = inr "desc" /\
  listQuery (@SalesController.listSalesPlan sampleParser otherValues "desc")
  = " SELECT s.id, s.user_id, u.name as user_name, s.amount, s.date FROM sales s JOIN users u ON s.user_id = u.id  WHERE s.date >= $1 AND s.date <= $2 AND s.user_id = $3 AND s.amount >= $4 ORDER BY s.date desc LIMIT $5 OFFSET $6".
Proof.
  assert (Hs : @sameShape sampleParser otherValues
    {| paramsId := ""; qPage := None; qLimit := None;
       qStartDate := Some "2021-02-01"; qEndDate := Some "2021-02-28";
       qUserId := Some "42"; qGroupId := None; qMinAmount := Some "12.5";
       qMaxAmount := None; qSortBy := VUndefined; qSortOrder := VUndefined;
       qInterval := VUndefined; qRole := None |}) by (repeat split).
  destruct (@listSales_text_ignores_values sampleParser _ _ "desc" Hs eq_refl)
    as (_ & Htext & _).
  split; [exact Hs|]. split; [reflexivity|]. rewrite Htext. reflexivity.
Defined.

Section Lowercase.

Lemma lowerChar_idempotent (c : ascii) : lowerChar (lowerChar c) = lowerChar c.
Proof. destruct c as [[] [] [] [] [] [] [] []]; reflexivity. Qed.

Lemma toLowerCase_idempotent (s : string) :
  toLowerCase (toLowerCase s) = toLowerCase s.
Proof.
  induction s as [|c r IH]; [reflexivity|].
  cbn [toLowerCase]. rewrite lowerChar_idempotent, IH. reflexivity.
Qed.

Lemma toLowerCase_keeps_nonEmpty (s : string) :
  nonEmpty (toLowerCase s) = nonEmpty s.
Proof. destruct s; reflexivity. Qed.

End Lowercase.

(** X18: validating a validated value changes nothing: each validator
    returns its own result unchanged (for the sort order when the default
    is [asc] or [desc]), and the sort-order validator gives the same
    result for a candidate and for its lower-cased form. *)
Theorem validators_idempotent (v : value) (cols : list string)
    (d o i : string) :
  In o validOrders ->
  validateSortColumn (VStr (validateSortColumn v cols d)) cols d
  = validateSortColumn v cols d /\
  (forall r, validateSortOrder v o = inr r ->
             validateSortOrder (VStr r) o = inr r) /\
  validateInterval (VStr (validateInterval v i)) i = validateInterval v i /\
  (forall s, validateSortOrder (VStr (toLowerCase s)) o
             = validateSortOrder (VStr s) o).
Proof.
  intro Ho.
  assert (Hdefault : validateSortOrder (VStr o) o = inr o).
  { destruct Ho as [<- | [<- | []]]; reflexivity. }
  split.
  { unfold validateSortColumn.
    destruct v as [| | |s| |]; cbn [truthy];
      try (destruct (nonEmpty d && includes cols d)%bool; reflexivity).
    destruct (nonEmpty s && includes cols s)%bool eqn:E.
    - rewrite E. reflexivity.
    - destruct (nonEmpty d && includes cols d)%bool; reflexivity. }
  split.
  { intros r. unfold validateSortOrder at 1.
    destruct (truthy v); [|intro E; injection E as <-; exact Hdefault].
    destruct v as [| | |s| |]; try discriminate.
    destruct (includes validOrders (toLowerCase s)) eqn:E;
      intro Er; injection Er as <-; [|exact Hdefault].
    unfold validateSortOrder. cbn [truthy].
    rewrite toLowerCase_idempotent, E.
    assert (Hne : nonEmpty (toLowerCase s) = true).
    { apply includes_In in E. destruct (toLowerCase s); [|reflexivity].
      destruct E as [E | [E | []]]; discriminate E. }
    rewrite Hne. reflexivity. }
  split.
  { unfold validateInterval.
    destruct v as [| | |s| |]; cbn [truthy];
      try (destruct (nonEmpty i && includes validIntervals i)%bool;
           reflexivity).
    destruct (nonEmpty s && includes validIntervals s)%bool eqn:E.
    - rewrite E. reflexivity.
    - destruct (nonEmpty i && includes validIntervals i)%bool; reflexivity. }
  intro s. unfold validateSortOrder. cbn [truthy].
  rewrite toLowerCase_keeps_nonEmpty, toLowerCase_idempotent. reflexivity.
Qed.

Lemma validators_idempotent_witness :
  In "desc" validOrders /\
  validateSortOrder (VStr "AsC") "desc" = inr "asc" /\
  validateSortOrder (VStr "asc") "desc" = inr "asc".
Proof.
  assert (Ho : In "desc" validOrders) by (right; left; reflexivity).
  destruct (validators_idempotent (VStr "AsC") [] "" "desc" "" Ho)
    as (_ & Horder & _).
  split; [exact Ho|]. split; [reflexivity|].
  apply Horder. reflexivity.
Defined.

(** X19: the top-N limit of the two aggregations is bound as it parses,
    without the default the page limit gets: an absent or empty limit is
    10, a limit that parses to an integer is bound as that integer, zero
    and negative numbers included, and a limit without a leading number
    is bound as [NaN].  It is the last value of the top-performers
    statement and the third value of the top-groups statement. *)
Theorem top_limit_is_bound_as_parsed `{DateParser} (req : request)
    (order : string) :
  let users :=
    last (values (UserController.topPerformersStatement req order)) VNull in
  let groups :=
    nth 2 (values (fst (fst (GroupController.allGroupsStatements req order))))
        VNull in
  users = groups /\
  (truthyQ (qLimit req) = false -> groups = VInt 10) /\
  (forall z, truthyQ (qLimit req) = true -> parseInt (qLimit req) = Some z ->
             groups = VInt z) /\
  (truthyQ (qLimit req) = true -> parseInt (qLimit req) = None ->
   groups = VNum NaN) /\
  (limit (getPaginationParams (qPage req) (qLimit req)) = 100 <->
   parseInt (qLimit req) = None \/ parseInt (qLimit req) = Some 0
   \/ parseInt (qLimit req) = Some 100).
Proof.
  cbn zeta. unfold UserController.topPerformersStatement.
  cbn [values GroupController.allGroupsStatements fst nth].
  rewrite last_last.
  unfold UserController.validLimitOf, GroupController.validLimitOf.
  split; [reflexivity|].
  split; [intros ->; reflexivity|].
  split; [intros z -> ->; reflexivity|].
  split; [intros -> ->; reflexivity|].
  unfold getPaginationParams. cbn [limit]. unfold orElse.
  destruct (parseInt (qLimit req)) as [z|].
  - destruct (Z.eqb_spec z 0).
    + subst z. split; [auto | reflexivity].
    + split.
      * intros ->. right. right. reflexivity.
      * intros [E | [E | E]]; congruence.
  - split; [auto | reflexivity].
Qed.

Lemma top_limit_is_bound_as_parsed_witness :
  let req := {| paramsId := ""; qPage := None; qLimit := Some "0";
                qStartDate := None; qEndDate := None; qUserId := None;
                qGroupId := None; qMinAmount := None; qMaxAmount := None;
                qSortBy := VUndefined; qSortOrder := VUndefined; qInterval := VUndefined;
                qRole := None |} in
  truthyQ (qLimit req) = true /\ parseInt (qLimit req) = Some 0 /\
  nth 2 (values (fst (fst (@GroupController.allGroupsStatements sampleParser
                             req "desc")))) VNull = VInt 0 /\
  limit (getPaginationParams (qPage req) (qLimit req)) = 100.
Proof.
  cbn zeta.
  destruct (@top_limit_is_bound_as_parsed sampleParser
              {| paramsId := ""; qPage := None; qLimit := Some "0";
                 qStartDate := None; qEndDate := None; qUserId := None;
                 qGroupId := None; qMinAmount := None; qMaxAmount := None;
                 qSortBy := VUndefined; qSortOrder := VUndefined;
                 qInterval := VUndefined; qRole := None |} "desc")
    as (_ & _ & Hint & _ & Hpage).
  split; [reflexivity|]. split; [reflexivity|].
  split; [apply Hint; reflexivity|].
  apply Hpage. right. left. reflexivity.
Defined.

(** X20: for an existing user, when the listing statement is answered
    with rows and the first count row carries a count that reads as [T],
    the user sales listing answers 200 after exactly three statements
    (lookup, listing, count); [data] is the listing rows as given, an
    empty page included, [meta.pagination] carries the resolved page and
    limit, the total [T] and the integer page count, and [meta.filters]
    echoes the resolved dates. *)
Theorem getUserSales_envelope `{DateParser} (pool : Pool) (req : request)
    (u : value) (us rows more : list value) (columns : list (string * value))
    (T : Z) (order : string) :
  let l := UserController.getUserSalesPlan req order in
  let out := UserController.getUserSales pool req in
  nonEmpty (paramsId req) = true ->
  validateSortOrder (qSortOrder req) "desc" = inr order ->
  pool "SELECT * FROM users WHERE id = $1" [VStr (paramsId req)]
    = Some (u :: us) ->
  pool (listQuery l) (listParams l) = Some rows ->
  pool (countQuery l) (countParams l) = Some (VObj columns :: more) ->
  parseIntValue (get "count" (VObj columns)) = Some T ->
  snd out = [ Call "SELECT * FROM users WHERE id = $1" [VStr (paramsId req)];
              Call (listQuery l) (listParams l);
              Call (countQuery l) (countParams l) ] /\
  status (fst out) = 200 /\
  get "data" (body (fst out)) = VArr rows /\
  getPath ["meta"; "pagination"; "page"] (body (fst out))
    = VInt (page (getPaginationParams (qPage req) (qLimit req))) /\
  getPath ["meta"; "pagination"; "limit"] (body (fst out))
    = VInt (limit (getPaginationParams (qPage req) (qLimit req))) /\
  getPath ["meta"; "pagination"; "total"] (body (fst out)) = VInt T /\
  (exists n, getPath ["meta"; "pagination"; "pages"] (body (fst out)) = VInt n) /\
  getPath ["meta"; "filters"] (body (fst out))
    = VObj [ ("startDate", parseDate (qStartDate req) VNull);
             ("endDate", parseDate (qEndDate req) VNull) ].
Proof.
  intros l out Hid Horder Hlookup Hlist Hcount Htotal.
  assert (Hout :
    out = (json (formatPaginatedResponse (VArr rows) (listPagination l)
                   (Some T) (listBaseUrl l)
                   [("filters", VObj (listFilters l))]),
           [ Call "SELECT * FROM users WHERE id = $1" [VStr (paramsId req)];
             Call (listQuery l) (listParams l);
             Call (countQuery l) (countParams l) ])).
  { subst out.
    unfold UserController.getUserSales. unfold run, tryCatch, bind at 1.
    rewrite Hid. cbn [negb].
    rewrite (guard_accepts_user pool _ [] u us Hlookup).
    rewrite (attempt_returns _ order _ _ Horder).
    unfold runListing, bind, poolQuery. fold l.
    rewrite Hlist, Hcount. cbn [countOf ret]. rewrite Htotal. reflexivity. }
  rewrite Hout. cbn [fst snd json status body].
  split; [reflexivity|]. split; [reflexivity|]. split; [reflexivity|].
  split; [reflexivity|]. split; [reflexivity|]. split; [reflexivity|].
  split; [|reflexivity].
  destruct (ceilDiv_ceiling T _ (limit_nonzero (qPage req) (qLimit req)))
    as (n & Hn & _).
  exists n. unfold formatPaginatedResponse.
  change (limit (listPagination l))
    with (limit (getPaginationParams (qPage req) (qLimit req))).
  rewrite Hn. reflexivity.
Qed.

Lemma getUserSales_envelope_witness :
  let out := @UserController.getUserSales sampleParser manySalesStore pageTwo in
  status (fst out) = 200 /\
  getPath ["meta"; "pagination"; "total"] (body (fst out)) = VInt 25 /\
  List.length (snd out) = 3%nat.
Proof.
  destruct (@getUserSales_envelope sampleParser manySalesStore pageTwo
              (VObj [("id", VInt 42); ("name", VStr "Ann")]) []
              [saleA; saleB] [] [("count", VStr "25")] 25 "asc"
              eq_refl eq_refl eq_refl eq_refl eq_refl eq_refl)
    as (Hsent & Hstatus & _ & _ & _ & Htotal & _).
  cbn zeta. split; [exact Hstatus|]. split; [exact Htotal|].
  rewrite Hsent. reflexivity.
Defined.
